(** * Blog API: post and user controllers

    A shallow embedding of the request handlers of the blog backend
    (controllers/postController.js, controllers/userController.js,
    middlewares/errorHandler.js and the validation chain of
    routes/postRoutes.js) together with the properties of the content query
    and engagement subsystem.

    Conventions.
    - A Mongoose collection is a list of documents in the store's natural
      order; [findById] and [findOne] return the first match, [save] writes a
      loaded document back under its [_id].
    - ObjectIds are compared by their string form, as the handlers do.
    - JavaScript numbers are modelled by [Z]: the handlers only add,
      subtract, multiply and compare integers.
    - Strings are sequences of 8-bit characters; the white space removed by
      [trim] is the ASCII white space (TAB, LF, VT, FF, CR, SPACE).
    - A handler is a function from the store and the request to the new
      store and what Express receives: a response sent with [res.status],
      or an error handed to [next].
    - The ids of a request are well-formed ObjectIds (on a malformed id
      Mongoose throws a CastError, which [errorHandler] answers with 404
      as well).
    - What the schemas and the store decide on their own (validators,
      defaults, text search, cursors) is a parameter of the handlers,
      [Mongoose]. *)

From Stdlib Require Import String Ascii List ZArith Bool Lia.
Import ListNotations.

Local Open Scope string_scope.
Local Open Scope Z_scope.

(** ** JavaScript primitives used by the handlers *)

Module Js.

(** White space as [String.prototype.trim] sees it, on 8-bit characters. *)
Definition isWhite (c : ascii) : bool :=
  let n := nat_of_ascii c in
  (Nat.eqb n 32 || (Nat.leb 9 n && Nat.leb n 13))%bool.

Fixpoint trimStart (s : string) : string :=
  match s with
  | EmptyString => EmptyString
  | String c s' => if isWhite c then trimStart s' else s
  end.

Fixpoint trimEnd (s : string) : string :=
  match s with
  | EmptyString => EmptyString
  | String c s' =>
      match trimEnd s' with
      | EmptyString => if isWhite c then EmptyString else String c EmptyString
      | t => String c t
      end
  end.

(** [text.trim()] *)
Definition trim (s : string) : string := trimEnd (trimStart s).





(** Truthiness of a value that is either absent ([undefined]) or a
    string: only a non-empty string is truthy. *)
Definition truthy (v : option string) : bool :=
  match v with
  | None => false
  | Some EmptyString => false
  | Some _ => true
  end.

Definition digitOf (c : ascii) : option Z :=
  let n := Z.of_nat (nat_of_ascii c) in
  if ((48 <=? n) && (n <=? 57))%bool then Some (n - 48) else None.

(** The longest prefix of decimal digits, read as a number; [None] when
    there is no digit (NaN). *)
Fixpoint digits (s : string) (acc : option Z) : option Z :=
  match s with
  | EmptyString => acc
  | String c s' =>
      match digitOf c with
      | Some d =>
          digits s' (Some (10 * match acc with Some a => a | None => 0 end + d))
      | None => acc
      end
  end.

(** [parseInt(v, 10)]: [None] is NaN. Leading white space is skipped, one
    sign is accepted, reading stops at the first character that is not a
    digit. *)
Definition parseInt10 (v : option string) : option Z :=
  match v with
  | None => None
  | Some s =>
      match trimStart s with
      | String "-"%char r => option_map Z.opp (digits r None)
      | String "+"%char r => digits r None
      | r => digits r None
      end
  end.

(** [n || d] on numbers: NaN and 0 are falsy. *)
Definition orElse (n : option Z) (d : Z) : Z :=
  match n with
  | None => d
  | Some 0 => d
  | Some k => k
  end.

(** [str.split(",")] *)
Fixpoint splitComma (s : string) : list string :=
  match s with
  | EmptyString => [EmptyString]
  | String c s' =>
      if Ascii.eqb c ","%char then EmptyString :: splitComma s'
      else match splitComma s' with
           | [] => [String c EmptyString]
           | w :: ws => String c w :: ws
           end
  end.

End Js.

(** ** Data model *)

Definition ObjectId := string.

Inductive Role := RoleUser | RoleAdmin.

Inductive Status := Draft | Published | Archived.

Definition isAdminRole (r : Role) : bool :=
  match r with RoleAdmin => true | RoleUser => false end.

Definition roleName (r : Role) : string :=
  match r with RoleAdmin => "admin" | RoleUser => "user" end.

Definition isPublished (s : Status) : bool :=
  match s with Published => true | _ => false end.

Definition statusEqb (a b : Status) : bool :=
  match a, b with
  | Draft, Draft | Published, Published | Archived, Archived => true
  | _, _ => false
  end.

Definition statusOfString (s : string) : option Status :=
  if String.eqb s "draft" then Some Draft
  else if String.eqb s "published" then Some Published
  else if String.eqb s "archived" then Some Archived
  else None.

(** A user document; [req.user] is one of them. *)
Record UserDoc := mkUser {
  user_id : ObjectId;
  user_name : string;
  user_email : string;
  user_role : Role;
  user_isActive : bool
}.

(** An entry of [post.likes]: the handler pushes [{ user: req.user.id }]. *)
Record Like := mkLike { like_user : ObjectId }.

(** An entry of [post.comments]; the sub-document id is assigned by the
    store when the comment is pushed. *)
Record Comment := mkComment {
  comment_id : ObjectId;
  comment_user : ObjectId;
  comment_text : string
}.

Record PostDoc := mkPost {
  post_id : ObjectId;
  post_title : string;
  post_content : string;
  post_excerpt : option string;
  post_author : ObjectId;
  post_status : Status;
  post_slug : string;
  post_category : option string;
  post_tags : list string;
  post_views : Z;
  post_likes : list Like;
  post_comments : list Comment
}.

Definition with_views (v : Z) (p : PostDoc) : PostDoc :=
  mkPost (post_id p) (post_title p) (post_content p) (post_excerpt p)
         (post_author p) (post_status p) (post_slug p) (post_category p)
         (post_tags p) v (post_likes p) (post_comments p).

Definition with_likes (l : list Like) (p : PostDoc) : PostDoc :=
  mkPost (post_id p) (post_title p) (post_content p) (post_excerpt p)
         (post_author p) (post_status p) (post_slug p) (post_category p)
         (post_tags p) (post_views p) l (post_comments p).

Definition with_comments (c : list Comment) (p : PostDoc) : PostDoc :=
  mkPost (post_id p) (post_title p) (post_content p) (post_excerpt p)
         (post_author p) (post_status p) (post_slug p) (post_category p)
         (post_tags p) (post_views p) (post_likes p) c.

(** The two collections. *)
Record Db := mkDb {
  db_users : list UserDoc;
  db_posts : list PostDoc
}.

Definition with_posts (ps : list PostDoc) (db : Db) : Db :=
  mkDb (db_users db) ps.

(** ** Requests *)

(** [req.query]: every parameter is absent or a string. *)
Record Query := mkQuery {
  query_page : option string;
  query_limit : option string;
  query_category : option string;
  query_tags : option string;
  query_search : option string;
  query_author : option string;
  query_sort : option string;
  query_role : option string;
  query_isActive : option string
}.

Definition noQuery : Query :=
  mkQuery None None None None None None None None None.

(** The [tags] field of a post payload: an array, or something else. *)
Inductive TagsField :=
| TagsArray (ts : list string)
| TagsOther (v : string).

(** [req.body] of the post routes. The validation chain inspects [title],
    [content], [excerpt], [category], [tags] and [status]; any other key of
    the payload, such as [author], passes through untouched. *)
Record Body := mkBody {
  body_title : option string;
  body_content : option string;
  body_excerpt : option string;
  body_category : option string;
  body_tags : option TagsField;
  body_status : option string;
  body_author : option ObjectId
}.

Definition with_author (a : ObjectId) (b : Body) : Body :=
  mkBody (body_title b) (body_content b) (body_excerpt b) (body_category b)
         (body_tags b) (body_status b) (Some a).

(** ** Errors and the error handler (middlewares/errorHandler.js) *)

Inductive Exn :=
| ErrorResponse (message : string) (statusCode : Z)
| CastError (message : string)
| DuplicateKey (message : string)
| ValidationError (messages : list string)
| JsonWebTokenError (message : string)
| TokenExpiredError (message : string)
| TypeError (message : string).

(** What [errorHandler] sends: the status and the message. A Mongoose
    validation error is turned into a 400 that carries the messages of the
    failed validators; an error without a status code (or with the falsy
    code 0) is a 500. *)
Definition errorHandler (err : Exn) : Z * list string :=
  match err with
  | CastError _ => (404, ["Resource not found"])
  | DuplicateKey _ => (400, ["Duplicate field value entered"])
  | ValidationError msgs => (400, msgs)
  | JsonWebTokenError _ => (401, ["Invalid token"])
  | TokenExpiredError _ => (401, ["Token expired"])
  | ErrorResponse msg code =>
      (if code =? 0 then 500 else code,
       [if String.eqb msg "" then "Server Error" else msg])
  | TypeError msg =>
      (500, [if String.eqb msg "" then "Server Error" else msg])
  end.

(** What a handler hands to Express. *)
Inductive Outcome (A : Type) :=
| Sent (status : Z) (message : option string) (data : A)
| Invalid (errors : list string)
| Next (err : Exn).

Arguments Sent {A} status message data.
Arguments Invalid {A} errors.
Arguments Next {A} err.

(** The HTTP status the client sees. [Invalid] is the
    [res.status(400).json({ message: "Validation failed", errors })] of the
    handlers that consult express-validator. *)
Definition httpStatus {A} (o : Outcome A) : Z :=
  match o with
  | Sent s _ _ => s
  | Invalid _ => 400
  | Next e => fst (errorHandler e)
  end.

Definition notFound {A} (what : string) : Outcome A :=
  Next (ErrorResponse (what ++ " not found") 404).

(** ** Store queries *)

Record PostQuery := mkPostQuery {
  pq_status : option Status;
  pq_category : option string;
  pq_tags_in : option (list string);
  pq_text_search : option string;
  pq_author : option ObjectId
}.

Record UserQuery := mkUserQuery {
  uq_role : option string;
  uq_isActive : option bool;
  uq_search : option string
}.

Inductive SortOptions :=
| PublishedAtDesc
| PublishedAtAsc
| ViewsDesc
| LikesLengthDesc
| CreatedAtDesc.

(** The calls a handler makes to the store, in order. *)
Inductive StoreCall :=
| UserFindById (id : ObjectId)
| PostCountDocuments (q : PostQuery)
| PostFind (q : PostQuery) (sort : SortOptions) (limit skip : Z).

(** ** The store and the schema layer

    The parts of Mongoose and of the schemas (models/Post.js,
    models/User.js) that the handlers rely on and whose definition is not
    part of the controllers. *)
Record Mongoose := mkMongoose {
  (** the messages of the validators of the comment sub-schema that fail
      when [post.save()] validates a pushed comment; none when the comment
      is valid *)
  commentErrors : Comment -> list string;
  (** the messages of the schema validators that fail when
      [findByIdAndUpdate] runs them ([runValidators: true]) *)
  updateErrors : Body -> list string;
  (** [Post.create]: defaults, slug and id assignment, validation *)
  createDoc : list PostDoc -> Body -> Exn + PostDoc;
  (** the [$text] search operator *)
  textSearch : string -> PostDoc -> bool;
  (** [{ $regex: pattern, $options: "i" }] on a string field *)
  regexI : string -> string -> bool;
  (** a find cursor on posts with its sort, limit, skip and projection *)
  findPosts :
    list PostDoc -> PostQuery -> SortOptions -> Z -> Z -> list PostDoc;
  (** a find cursor on users *)
  findUsers : list UserDoc -> UserQuery -> Z -> Z -> list UserDoc
}.

(** ** Collection operations *)

Module User.

Definition findById (users : list UserDoc) (id : ObjectId)
  : option UserDoc :=
  find (fun u => String.eqb (user_id u) id) users.

Definition matches (M : Mongoose) (q : UserQuery) (u : UserDoc) : bool :=
  (match uq_role q with
   | None => true
   | Some r => String.eqb (roleName (user_role u)) r
   end
   && match uq_isActive q with
      | None => true
      | Some b => Bool.eqb (user_isActive u) b
      end
   && match uq_search q with
      | None => true
      | Some s => regexI M s (user_name u) || regexI M s (user_email u)
      end)%bool.

Definition countDocuments (M : Mongoose) (users : list UserDoc)
           (q : UserQuery) : Z :=
  Z.of_nat (length (filter (matches M q) users)).

End User.

Module Post.

Definition findById (posts : list PostDoc) (id : ObjectId)
  : option PostDoc :=
  find (fun p => String.eqb (post_id p) id) posts.

(** [Post.findOne({ slug })] *)
Definition findOneBySlug (posts : list PostDoc) (slug : string)
  : option PostDoc :=
  find (fun p => String.eqb (post_slug p) slug) posts.

Definition matches (M : Mongoose) (q : PostQuery) (p : PostDoc) : bool :=
  (match pq_status q with
   | None => true
   | Some s => statusEqb (post_status p) s
   end
   && match pq_category q with
      | None => true
      | Some c =>
          match post_category p with
          | Some c' => String.eqb c' c
          | None => false
          end
      end
   && match pq_tags_in q with
      | None => true
      | Some ts =>
          existsb (fun t => existsb (String.eqb t) ts) (post_tags p)
      end
   && match pq_text_search q with
      | None => true
      | Some s => textSearch M s p
      end
   && match pq_author q with
      | None => true
      | Some a => String.eqb (post_author p) a
      end)%bool.

Definition countDocuments (M : Mongoose) (posts : list PostDoc)
           (q : PostQuery) : Z :=
  Z.of_nat (length (filter (matches M q) posts)).

(** [post.save()] of a loaded document: the stored document with the
    same [_id] is replaced. *)
Fixpoint save (post : PostDoc) (posts : list PostDoc) : list PostDoc :=
  match posts with
  | [] => []
  | p :: ps =>
      if String.eqb (post_id p) (post_id post) then post :: ps
      else p :: save post ps
  end.

Fixpoint findByIdAndDelete (posts : list PostDoc) (id : ObjectId)
  : list PostDoc :=
  match posts with
  | [] => []
  | p :: ps =>
      if String.eqb (post_id p) id then ps
      else p :: findByIdAndDelete ps id
  end.

(** The effect of an update document without operators: every key the
    payload carries is set, every other field keeps its value. *)
Definition applyUpdate (b : Body) (p : PostDoc) : PostDoc :=
  mkPost (post_id p)
         (match body_title b with Some t => t | None => post_title p end)
         (match body_content b with Some c => c | None => post_content p end)
         (match body_excerpt b with
          | Some e => Some e
          | None => post_excerpt p
          end)
         (match body_author b with Some a => a | None => post_author p end)
         (match body_status b with
          | Some s =>
              match statusOfString s with
              | Some st => st
              | None => post_status p
              end
          | None => post_status p
          end)
         (post_slug p)
         (match body_category b with
          | Some c => Some c
          | None => post_category p
          end)
         (match body_tags b with
          | Some (TagsArray ts) => ts
          | _ => post_tags p
          end)
         (post_views p) (post_likes p) (post_comments p).

(** [Post.findByIdAndUpdate(id, body, { new: true, runValidators: true })]:
    the new collection and the updated document ([None] when no document
    has the id). *)
Definition findByIdAndUpdate (M : Mongoose) (posts : list PostDoc)
           (id : ObjectId) (b : Body)
  : Exn + (list PostDoc * option PostDoc) :=
  match updateErrors M b with
  | [] =>
      match findById posts id with
      | None => inr (posts, None)
      | Some p => let p' := applyUpdate b p in inr (save p' posts, Some p')
      end
  | (_ :: _) as msgs => inl (ValidationError msgs)
  end.

End Post.

(** ** The validation chain of the post routes (express-validator) *)

Definition strOrEmpty (v : option string) : string :=
  match v with Some s => s | None => EmptyString end.

Definition lengthBetween (lo hi : nat) (s : string) : bool :=
  (Nat.leb lo (String.length s) && Nat.leb (String.length s) hi)%bool.

Definition isIn (s : string) (l : list string) : bool :=
  existsb (String.eqb s) l.

Definition check (ok : bool) (msg : string) : list string :=
  if ok then [] else [msg].

(** [validationResult(req).array()] for [postValidation]: [title] and
    [content] are required, the other fields are checked when present. *)
Definition postValidation (b : Body) : list string :=
  check (lengthBetween 5 100 (Js.trim (strOrEmpty (body_title b))))
        "Title must be between 5 and 100 characters"
  ++ check (Nat.leb 50 (String.length (Js.trim (strOrEmpty (body_content b)))))
        "Content must be at least 50 characters long"
  ++ match body_excerpt b with
     | None => []
     | Some e => check (Nat.leb (String.length (Js.trim e)) 300)
                       "Excerpt cannot be more than 300 characters"
     end
  ++ match body_category b with
     | None => []
     | Some c => check (lengthBetween 2 50 (Js.trim c))
                       "Category must be between 2 and 50 characters"
     end
  ++ match body_tags b with
     | None => []
     | Some (TagsArray _) => []
     | Some (TagsOther _) => ["Tags must be an array"]
     end
  ++ match body_status b with
     | None => []
     | Some s => check (isIn s ["draft"; "published"; "archived"])
                       "Status must be draft, published, or archived"
     end.

(** The sanitizers of the chain write the trimmed values back to the body. *)
Definition sanitize (b : Body) : Body :=
  mkBody (option_map Js.trim (body_title b))
         (option_map Js.trim (body_content b))
         (option_map Js.trim (body_excerpt b))
         (option_map Js.trim (body_category b))
         (body_tags b) (body_status b) (body_author b).

(** ** Responses *)

Record PageRef := mkPageRef { page : Z; limit : Z }.

Record Pagination := mkPagination {
  next : option PageRef;
  prev : option PageRef
}.

(** A listing response; [pagination] is [None] when the response has no
    such key. *)
Record Listing (A : Type) := mkListing {
  count : Z;
  total : Z;
  pagination : option Pagination;
  items : list A
}.

Arguments mkListing {A} count total pagination items.
Arguments count {A} l.
Arguments total {A} l.
Arguments pagination {A} l.
Arguments items {A} l.

Record LikeData := mkLikeData { likesCount : Z; isLiked : bool }.

(** The pagination object built by [getPosts] and [getUsers]. *)
Definition paginate (page limit startIndex total : Z) : Pagination :=
  mkPagination
    (if startIndex + limit <? total then Some (mkPageRef (page + 1) limit)
     else None)
    (if startIndex >? 0 then Some (mkPageRef (page - 1) limit) else None).

Definition pageOf (q : Query) : Z := Js.orElse (Js.parseInt10 (query_page q)) 1.

Definition limitOf (q : Query) : Z :=
  Js.orElse (Js.parseInt10 (query_limit q)) 10.

Definition startIndexOf (q : Query) : Z := (pageOf q - 1) * limitOf q.

Definition truthyParam (v : option string) : option string :=
  if Js.truthy v then v else None.

(** ** The handlers *)

Section Controllers.

Variable M : Mongoose.

(** *** postController *)

Definition buildPostQuery (q : Query) : PostQuery :=
  mkPostQuery (Some Published)
              (truthyParam (query_category q))
              (option_map Js.splitComma (truthyParam (query_tags q)))
              (truthyParam (query_search q))
              (truthyParam (query_author q)).

Definition sortOptionsOf (q : Query) : SortOptions :=
  match truthyParam (query_sort q) with
  | None => PublishedAtDesc
  | Some s =>
      if String.eqb s "oldest" then PublishedAtAsc
      else if String.eqb s "popular" then ViewsDesc
      else if String.eqb s "liked" then LikesLengthDesc
      else PublishedAtDesc
  end.

Definition getPosts (db : Db) (q : Query) : Outcome (Listing PostDoc) :=
  let page := pageOf q in
  let limit := limitOf q in
  let startIndex := (page - 1) * limit in
  let query := buildPostQuery q in
  let sortOptions := sortOptionsOf q in
  let total := Post.countDocuments M (db_posts db) query in
  let posts := findPosts M (db_posts db) query sortOptions limit startIndex in
  Sent 200 None
       (mkListing (Z.of_nat (length posts)) total
                  (Some (paginate page limit startIndex total)) posts).

(** [post.author._id.toString()] on a post whose author was populated:
    populate leaves [null] when no user has the id, and reading [_id]
    then throws. *)
Definition authorIdString (db : Db) (post : PostDoc) : Exn + ObjectId :=
  match User.findById (db_users db) (post_author post) with
  | Some a => inr (user_id a)
  | None => inl (TypeError "Cannot read properties of null")
  end.

(** The condition of the first [if] of [getPost]: the post is not
    published and the requester is anonymous or neither author nor
    admin. *)
Definition hiddenFrom (db : Db) (post : PostDoc) (requser : option UserDoc)
  : Exn + bool :=
  if isPublished (post_status post) then inr false
  else match requser with
       | None => inr true
       | Some u =>
           match authorIdString db post with
           | inl e => inl e
           | inr a =>
               inr (negb (String.eqb (user_id u) a)
                    && negb (isAdminRole (user_role u)))%bool
           end
       end.

(** The condition of the second [if]: the requester is not the author. *)
Definition notTheAuthor (db : Db) (post : PostDoc)
           (requser : option UserDoc) : Exn + bool :=
  match requser with
  | None => inr true
  | Some u =>
      match authorIdString db post with
      | inl e => inl e
      | inr a => inr (negb (String.eqb (user_id u) a))
      end
  end.

(** What [getPost] and [getPostBySlug] do with the result of their
    lookup; the two handlers have the same body after it. *)
Definition servePost (db : Db) (requser : option UserDoc)
           (found : option PostDoc) : Db * Outcome PostDoc :=
  match found with
  | None => (db, notFound "Post")
  | Some post =>
      match hiddenFrom db post requser with
      | inl e => (db, Next e)
      | inr true => (db, notFound "Post")
      | inr false =>
          match notTheAuthor db post requser with
          | inl e => (db, Next e)
          | inr true =>
              let post' := with_views (post_views post + 1) post in
              (with_posts (Post.save post' (db_posts db)) db,
               Sent 200 None post')
          | inr false => (db, Sent 200 None post)
          end
      end
  end.

Definition getPost (db : Db) (requser : option UserDoc) (id : ObjectId)
  : Db * Outcome PostDoc :=
  servePost db requser (Post.findById (db_posts db) id).

Definition getPostBySlug (db : Db) (requser : option UserDoc)
           (slug : string) : Db * Outcome PostDoc :=
  servePost db requser (Post.findOneBySlug (db_posts db) slug).

(** The handlers below are mounted behind [protect]: [req.user] is set. *)

Definition createPost (db : Db) (requser : UserDoc) (body : Body)
  : Db * Outcome PostDoc :=
  match postValidation body with
  | (_ :: _) as errors => (db, Invalid errors)
  | [] =>
      let body' := with_author (user_id requser) (sanitize body) in
      match createDoc M (db_posts db) body' with
      | inl e => (db, Next e)
      | inr post =>
          (with_posts (db_posts db ++ [post]) db,
           Sent 201 (Some "Post created successfully") post)
      end
  end.

(** The owner-or-admin test of [updatePost] and [deletePost]. *)
Definition notOwnerNorAdmin (post : PostDoc) (requser : UserDoc) : bool :=
  (negb (String.eqb (post_author post) (user_id requser))
   && negb (isAdminRole (user_role requser)))%bool.

Definition updatePost (db : Db) (requser : UserDoc) (id : ObjectId)
           (body : Body) : Db * Outcome (option PostDoc) :=
  match Post.findById (db_posts db) id with
  | None => (db, notFound "Post")
  | Some post =>
      if notOwnerNorAdmin post requser then
        (db, Next (ErrorResponse "Not authorized to update this post" 403))
      else
        match postValidation body with
        | (_ :: _) as errors => (db, Invalid errors)
        | [] =>
            match Post.findByIdAndUpdate M (db_posts db) id (sanitize body)
            with
            | inl e => (db, Next e)
            | inr (posts', post') =>
                (with_posts posts' db,
                 Sent 200 (Some "Post updated successfully") post')
            end
        end
  end.

Definition deletePost (db : Db) (requser : UserDoc) (id : ObjectId)
  : Db * Outcome unit :=
  match Post.findById (db_posts db) id with
  | None => (db, notFound "Post")
  | Some post =>
      if notOwnerNorAdmin post requser then
        (db, Next (ErrorResponse "Not authorized to delete this post" 403))
      else
        (with_posts (Post.findByIdAndDelete (db_posts db) id) db,
         Sent 200 (Some "Post deleted successfully") tt)
  end.

(** [post.likes.some((like) => like.user.toString() === req.user.id)] *)
Definition likedBy (uid : ObjectId) (post : PostDoc) : bool :=
  existsb (fun like => String.eqb (like_user like) uid) (post_likes post).

(** The two branches of the toggle, on the loaded document. *)
Definition toggleLike (uid : ObjectId) (post : PostDoc) : PostDoc :=
  if likedBy uid post then
    with_likes (filter (fun like => negb (String.eqb (like_user like) uid))
                       (post_likes post)) post
  else
    with_likes (post_likes post ++ [mkLike uid]) post.

Definition likePost (db : Db) (requser : UserDoc) (id : ObjectId)
  : Db * Outcome LikeData :=
  match Post.findById (db_posts db) id with
  | None => (db, notFound "Post")
  | Some post =>
      let isLiked := likedBy (user_id requser) post in
      let post' := toggleLike (user_id requser) post in
      (with_posts (Post.save post' (db_posts db)) db,
       Sent 200 (Some (if isLiked then "Post unliked" else "Post liked"))
            (mkLikeData (Z.of_nat (length (post_likes post')))
                        (negb isLiked)))
  end.

(** [addComment]; [text] is [req.body.text], [oid] the id the store gives
    to the pushed sub-document. The response carries
    [post.comments[post.comments.length - 1]]. *)
Definition addComment (db : Db) (requser : UserDoc) (id : ObjectId)
           (text : option string) (oid : ObjectId)
  : Db * Outcome (option Comment) :=
  match text with
  | None | Some EmptyString =>
      (db, Next (ErrorResponse "Comment text is required" 400))
  | Some (String _ _ as t) =>
      match Post.findById (db_posts db) id with
      | None => (db, notFound "Post")
      | Some post =>
          let newComment := mkComment oid (user_id requser) (Js.trim t) in
          let post' :=
            with_comments (post_comments post ++ [newComment]) post in
          match commentErrors M newComment with
          | [] =>
              (with_posts (Post.save post' (db_posts db)) db,
               Sent 201 (Some "Comment added successfully")
                    (nth_error (post_comments post')
                               (length (post_comments post') - 1)))
          | (_ :: _) as msgs => (db, Next (ValidationError msgs))
          end
      end
  end.

(** *** userController *)

Definition buildUserQuery (q : Query) : UserQuery :=
  mkUserQuery (truthyParam (query_role q))
              (option_map (fun s => String.eqb s "true") (query_isActive q))
              (truthyParam (query_search q)).

Definition getUsers (db : Db) (q : Query) : Outcome (Listing UserDoc) :=
  let page := pageOf q in
  let limit := limitOf q in
  let startIndex := (page - 1) * limit in
  let query := buildUserQuery q in
  let total := User.countDocuments M (db_users db) query in
  let users := findUsers M (db_users db) query limit startIndex in
  Sent 200 None
       (mkListing (Z.of_nat (length users)) total
                  (Some (paginate page limit startIndex total)) users).

(** [req.user?.id !== req.params.id && req.user?.role !== "admin"] *)
Definition onlyPublished (requser : option UserDoc) (id : ObjectId) : bool :=
  match requser with
  | None => true
  | Some u =>
      (negb (String.eqb (user_id u) id)
       && negb (isAdminRole (user_role u)))%bool
  end.

Definition userPostsQuery (requser : option UserDoc) (id : ObjectId)
  : PostQuery :=
  mkPostQuery (if onlyPublished requser id then Some Published else None)
              None None None (Some id).

(** [getUserPosts], with the store calls it makes in order. *)
Definition getUserPosts (db : Db) (requser : option UserDoc)
           (id : ObjectId) (q : Query)
  : list StoreCall * Outcome (Listing PostDoc) :=
  let page := pageOf q in
  let limit := limitOf q in
  let startIndex := (page - 1) * limit in
  match User.findById (db_users db) id with
  | None => ([UserFindById id], notFound "User")
  | Some _ =>
      let query := userPostsQuery requser id in
      let total := Post.countDocuments M (db_posts db) query in
      let posts :=
        findPosts M (db_posts db) query CreatedAtDesc limit startIndex in
      ([UserFindById id; PostCountDocuments query;
        PostFind query CreatedAtDesc limit startIndex],
       Sent 200 None
            (mkListing (Z.of_nat (length posts)) total None posts))
  end.

End Controllers.

(** ** Two stores to run the handlers on *)

Definition window {A} (limit skip : Z) (l : list A) : list A :=
  firstn (Z.to_nat limit) (skipn (Z.to_nat skip) l).

Definition newPost (posts : list PostDoc) (b : Body) : Exn + PostDoc :=
  inr (mkPost (strOrEmpty (body_title b)) (strOrEmpty (body_title b))
              (strOrEmpty (body_content b)) (body_excerpt b)
              (strOrEmpty (body_author b))
              (match body_status b with
               | Some s =>
                   match statusOfString s with Some st => st | None => Draft end
               | None => Draft
               end)
              (strOrEmpty (body_title b)) (body_category b)
              (match body_tags b with Some (TagsArray ts) => ts | _ => [] end)
              0 [] []).

Definition substringSearch (pat s : string) : bool :=
  match index 0 pat s with Some _ => true | None => false end.

Definition bareStore (commentRule : Comment -> list string) : Mongoose :=
  mkMongoose commentRule (fun _ => []) newPost
             (fun s p => substringSearch s (post_title p)
                         || substringSearch s (post_content p))%bool
             substringSearch
             (fun posts _ _ limit skip => window limit skip posts)
             (fun users _ limit skip => window limit skip users).

Definition storeWith (commentRule : Comment -> list string) : Mongoose :=
  mkMongoose commentRule (fun _ => []) newPost
             (textSearch (bareStore commentRule))
             substringSearch
             (fun posts q _ limit skip =>
                window limit skip
                       (filter (Post.matches (bareStore commentRule) q) posts))
             (fun users q limit skip =>
                window limit skip
                       (filter (User.matches (bareStore commentRule) q) users)).

(** A store whose schema accepts every comment text. *)
Definition laxStore : Mongoose := storeWith (fun _ => []).

(** A store whose comment schema requires a non-empty text. *)
Definition strictStore : Mongoose :=
  storeWith (fun c => if String.eqb (comment_text c) ""
                      then ["Comment text is required"] else []).

Definition alice : UserDoc :=
  mkUser "u-alice" "Alice" "alice@example.com" RoleUser true.

Definition bob : UserDoc :=
  mkUser "u-bob" "Bob" "bob@example.com" RoleUser true.

Definition root : UserDoc :=
  mkUser "u-root" "Root" "root@example.com" RoleAdmin true.

Definition fiftyChars : string :=
  "0123456789012345678901234567890123456789012345678901234567890123".

(** A published post and a draft, both written by Alice. *)
Definition helloPost : PostDoc :=
  mkPost "p-hello" "Hello world" fiftyChars None "u-alice" Published
         "hello-world" (Some "technology") ["nodejs"; "api"] 0 [] [].

Definition draftPost : PostDoc :=
  mkPost "p-draft" "Work in progress" fiftyChars None "u-alice" Draft
         "work-in-progress" None [] 0 [] [].

Definition blog : Db := mkDb [alice; bob; root] [helloPost; draftPost].

(** The same blog after Bob and Root have liked the published post. *)
Definition likedPost : PostDoc :=
  with_likes [mkLike "u-bob"; mkLike "u-root"] helloPost.

Definition likedBlog : Db := mkDb [alice; bob; root] [likedPost; draftPost].

(** ** Vocabulary of the properties *)

(** Reading the outcome of a listing handler. *)
Definition listingOf {A} (o : Outcome (Listing A)) : option (Listing A) :=
  match o with
  | Sent _ _ l => Some l
  | _ => None
  end.

(** The same request for another page. *)
Definition with_paging (pg lm : option string) (q : Query) : Query :=
  mkQuery pg lm (query_category q) (query_tags q) (query_search q)
          (query_author q) (query_sort q) (query_role q) (query_isActive q).

(** The requester is anonymous, or is neither the author of the post nor
    an admin. *)
Definition outsider (requser : option UserDoc) (post : PostDoc) : Prop :=
  match requser with
  | None => True
  | Some u => user_id u <> post_author post /\ user_role u <> RoleAdmin
  end.

(** The author reference of the post resolves to a user document (it is
    only followed for an authenticated requester). *)
Definition authorKnown (db : Db) (requser : option UserDoc) (post : PostDoc)
  : Prop :=
  match requser with
  | None => True
  | Some _ => User.findById (db_users db) (post_author post) <> None
  end.

Definition isAuthor (requser : option UserDoc) (post : PostDoc) : bool :=
  match requser with
  | None => false
  | Some u => String.eqb (user_id u) (post_author post)
  end.

(** The increment a read applies to the counter. *)
Definition viewStep (requser : option UserDoc) (post : PostDoc) : Z :=
  if isAuthor requser post then 0 else 1.

(** A payload that passes the validation chain and also names an author. *)
Definition reassigningBody : Body :=
  mkBody (Some "Hello again") (Some fiftyChars) None None None None
         (Some "u-bob").

(** How many entries of [likes] belong to the user. *)
Definition occurrences (uid : ObjectId) (post : PostDoc) : nat :=
  length (filter (fun like => String.eqb (like_user like) uid)
                 (post_likes post)).

(** No user appears twice in [likes]. *)
Definition uniqueLikes (post : PostDoc) : Prop :=
  NoDup (map like_user (post_likes post)).

(** A sequence of like requests, each by some user on some post. *)
Fixpoint likeAll (db : Db) (reqs : list (UserDoc * ObjectId)) : Db :=
  match reqs with
  | [] => db
  | (u, id) :: rest => likeAll (fst (likePost db u id)) rest
  end.




(** The requester of a user's posts is neither that user nor an admin. *)
Definition stranger (requser : option UserDoc) (id : ObjectId) : Prop :=
  match requser with
  | None => True
  | Some u => user_id u <> id /\ user_role u <> RoleAdmin
  end.

(** ** The other handlers of the two controllers *)

(** [post.comments], a document array. *)
Module Comments.

(** [post.comments.id(commentId)]: the first comment with the id. *)
Definition id (cs : list Comment) (cid : ObjectId) : option Comment :=
  find (fun c => String.eqb (comment_id c) cid) cs.

(** [post.comments.pull(commentId)]: every comment with the id goes. *)
Definition pull (cs : list Comment) (cid : ObjectId) : list Comment :=
  filter (fun c => negb (String.eqb (comment_id c) cid)) cs.

End Comments.

Definition statusName (s : Status) : string :=
  match s with
  | Draft => "draft"
  | Published => "published"
  | Archived => "archived"
  end.

(** The query of [getMyPosts]: the author, and the [status] parameter of
    the request as it came. *)
Record OwnQuery := mkOwnQuery {
  oq_author : ObjectId;
  oq_status : option string
}.

(** [req.body] of [updateUser]; [isActive] is absent or a boolean. *)
Record UserBody := mkUserBody {
  ub_name : option string;
  ub_email : option string;
  ub_role : option string;
  ub_isActive : option bool;
  ub_bio : option string;
  ub_avatar : option string
}.

Definition roleOfString (s : string) : option Role :=
  if String.eqb s "admin" then Some RoleAdmin
  else if String.eqb s "user" then Some RoleUser
  else None.

Module PostModel.

(** [Post.deleteMany({ author })] *)
Definition deleteMany (posts : list PostDoc) (author : ObjectId)
  : list PostDoc :=
  filter (fun p => negb (String.eqb (post_author p) author)) posts.

Definition matchesOwn (q : OwnQuery) (p : PostDoc) : bool :=
  (String.eqb (post_author p) (oq_author q)
   && match oq_status q with
      | None => true
      | Some s => String.eqb (statusName (post_status p)) s
      end)%bool.

Definition countOwn (posts : list PostDoc) (q : OwnQuery) : Z :=
  Z.of_nat (length (filter (matchesOwn q) posts)).

End PostModel.

Module UserModel.

Fixpoint findByIdAndDelete (users : list UserDoc) (id : ObjectId)
  : list UserDoc :=
  match users with
  | [] => []
  | u :: us =>
      if String.eqb (user_id u) id then us
      else u :: findByIdAndDelete us id
  end.

(** The effect of the update document on the fields of a user the model
    carries; [bio] and [avatar] are stored outside of them. *)
Definition applyUpdate (b : UserBody) (u : UserDoc) : UserDoc :=
  mkUser (user_id u)
         (match ub_name b with Some n => n | None => user_name u end)
         (match ub_email b with Some e => e | None => user_email u end)
         (match ub_role b with
          | Some r =>
              match roleOfString r with
              | Some role => role
              | None => user_role u
              end
          | None => user_role u
          end)
         (match ub_isActive b with
          | Some a => a
          | None => user_isActive u
          end).

Fixpoint replace (u' : UserDoc) (users : list UserDoc) : list UserDoc :=
  match users with
  | [] => []
  | u :: us =>
      if String.eqb (user_id u) (user_id u') then u' :: us
      else u :: replace u' us
  end.

End UserModel.

Section OtherControllers.

Variable M : Mongoose.

(** A find cursor on posts for the query of [getMyPosts]. *)
Variable findOwn : list PostDoc -> OwnQuery -> Z -> Z -> list PostDoc.

(** What the user schema and its indexes refuse in an update
    ([runValidators: true], unique email). *)
Variable userUpdateCheck : list UserDoc -> ObjectId -> UserBody -> option Exn.

Definition deleteComment (db : Db) (requser : UserDoc) (id cid : ObjectId)
  : Db * Outcome unit :=
  match Post.findById (db_posts db) id with
  | None => (db, notFound "Post")
  | Some post =>
      match Comments.id (post_comments post) cid with
      | None => (db, notFound "Comment")
      | Some comment =>
          if (negb (String.eqb (comment_user comment) (user_id requser))
              && negb (isAdminRole (user_role requser)))%bool
          then
            (db,
             Next (ErrorResponse "Not authorized to delete this comment" 403))
          else
            let post' :=
              with_comments (Comments.pull (post_comments post) cid) post in
            (with_posts (Post.save post' (db_posts db)) db,
             Sent 200 (Some "Comment deleted successfully") tt)
      end
  end.

(** [getMyPosts]; [status] is [req.query.status]. *)
Definition getMyPosts (db : Db) (requser : UserDoc) (q : Query)
           (status : option string) : Outcome (Listing PostDoc) :=
  let page := pageOf q in
  let limit := limitOf q in
  let startIndex := (page - 1) * limit in
  let query := mkOwnQuery (user_id requser) (truthyParam status) in
  let total := PostModel.countOwn (db_posts db) query in
  let posts := findOwn (db_posts db) query limit startIndex in
  Sent 200 None (mkListing (Z.of_nat (length posts)) total None posts).

(** [getUser]: the user and the number of posts that name it as author. *)
Definition getUser (db : Db) (id : ObjectId) : Outcome (UserDoc * Z) :=
  match User.findById (db_users db) id with
  | None => notFound "User"
  | Some user =>
      let postCount :=
        Post.countDocuments
          M (db_posts db)
          (mkPostQuery None None None None (Some (user_id user))) in
      Sent 200 None (user, postCount)
  end.

(** The [fieldsToUpdate] object of [updateUser]. *)
Definition fieldsToUpdate (b : UserBody) : UserBody :=
  mkUserBody (truthyParam (ub_name b)) (truthyParam (ub_email b))
             (truthyParam (ub_role b)) (ub_isActive b)
             (truthyParam (ub_bio b)) (truthyParam (ub_avatar b)).

Definition updateUser (db : Db) (id : ObjectId) (b : UserBody)
  : Db * Outcome UserDoc :=
  let fields := fieldsToUpdate b in
  match userUpdateCheck (db_users db) id fields with
  | Some e => (db, Next e)
  | None =>
      match User.findById (db_users db) id with
      | None => (db, notFound "User")
      | Some user =>
          let user' := UserModel.applyUpdate fields user in
          (mkDb (UserModel.replace user' (db_users db)) (db_posts db),
           Sent 200 (Some "User updated successfully") user')
      end
  end.

Definition deleteUser (db : Db) (requser : UserDoc) (id : ObjectId)
  : Db * Outcome unit :=
  match User.findById (db_users db) id with
  | None => (db, notFound "User")
  | Some user =>
      if String.eqb (user_id user) (user_id requser) then
        (db, Next (ErrorResponse "Cannot delete your own account" 400))
      else
        (mkDb (UserModel.findByIdAndDelete (db_users db) id)
              (PostModel.deleteMany (db_posts db) (user_id user)),
         Sent 200 (Some "User and associated posts deleted successfully") tt)
  end.

End OtherControllers.

(** ** The route tables (routes/postRoutes.js, routes/userRoutes.js)

    A router is the list of its layers in the order of registration. A
    request is tried against the layers in that order: a middleware
    mounted with [router.use] sees every request that reaches it, a route
    sees the requests with its method whose path matches its pattern. The
    path of a request is given by its segments below the mount point; the
    methods are the four the tables use. *)

Inductive Method := GET | POST | PUT | DELETE.

Inductive Seg :=
| Lit (s : string)
| Param (name : string).

Inductive Middleware :=
| Protect
| Admin
| PostValidationChain.

Inductive Layer (H : Type) :=
| Use (mw : Middleware)
| Route (m : Method) (pattern : list Seg) (mws : list Middleware) (h : H).

Arguments Use {H} mw.
Arguments Route {H} m pattern mws h.

Inductive PostHandler :=
| HGetPosts | HGetPostBySlug | HGetPost | HGetMyPosts | HCreatePost
| HUpdatePost | HDeletePost | HLikePost | HAddComment | HDeleteComment.

Inductive UserHandler :=
| HGetUserPosts | HGetUsers | HGetUser | HUpdateUser | HDeleteUser.

Definition postRoutes : list (Layer PostHandler) :=
  [ Route GET [] [] HGetPosts;
    Route GET [Lit "slug"; Param "slug"] [] HGetPostBySlug;
    Route GET [Param "id"] [] HGetPost;
    Use Protect;
    Route GET [Lit "user"; Lit "my-posts"] [] HGetMyPosts;
    Route POST [] [PostValidationChain] HCreatePost;
    Route PUT [Param "id"] [PostValidationChain] HUpdatePost;
    Route DELETE [Param "id"] [] HDeletePost;
    Route PUT [Param "id"; Lit "like"] [] HLikePost;
    Route POST [Param "id"; Lit "comments"] [] HAddComment;
    Route DELETE [Param "id"; Lit "comments"; Param "commentId"] []
          HDeleteComment ].

Definition userRoutes : list (Layer UserHandler) :=
  [ Use Protect;
    Route GET [Param "id"; Lit "posts"] [] HGetUserPosts;
    Route GET [] [Admin] HGetUsers;
    Route GET [Param "id"] [Admin] HGetUser;
    Route PUT [Param "id"] [Admin] HUpdateUser;
    Route DELETE [Param "id"] [Admin] HDeleteUser ].

(** Where a request ends: at a handler, with the parameters of the path
    and the [req.user] the middlewares have set; at a middleware that
    answers itself; or past the last layer, where the application answers
    404. *)
Inductive Routed (H : Type) :=
| Reached (h : H) (params : list (string * string))
          (requser : option UserDoc)
| Stopped (err : Exn)
| Unmatched.

Arguments Reached {H} h params requser.
Arguments Stopped {H} err.
Arguments Unmatched {H}.

Definition methodEqb (a b : Method) : bool :=
  match a, b with
  | GET, GET | POST, POST | PUT, PUT | DELETE, DELETE => true
  | _, _ => false
  end.

Definition lowerChar (c : ascii) : ascii :=
  let n := nat_of_ascii c in
  if (Nat.leb 65 n && Nat.leb n 90)%bool then ascii_of_nat (n + 32) else c.

Fixpoint lower (s : string) : string :=
  match s with
  | EmptyString => EmptyString
  | String c s' => String (lowerChar c) (lower s')
  end.

(** Matching a path against a pattern: a literal segment matches without
    regard to case, a parameter takes one segment that is not empty. *)
Fixpoint matchPath (pattern : list Seg) (segs : list string)
  : option (list (string * string)) :=
  match pattern, segs with
  | [], [] => Some []
  | Lit s :: pattern', x :: segs' =>
      if String.eqb (lower s) (lower x) then matchPath pattern' segs'
      else None
  | Param name :: pattern', x :: segs' =>
      match x with
      | EmptyString => None
      | _ => option_map (cons (name, x)) (matchPath pattern' segs')
      end
  | _, _ => None
  end.

Definition param (name : string) (params : list (string * string))
  : string :=
  match find (fun kv => String.eqb (fst kv) name) params with
  | Some kv => snd kv
  | None => EmptyString
  end.

Section Routing.

(** What identifies the client of a request (the Authorization header). *)
Variable Credentials : Type.

(** [protect] answers itself or sets [req.user]; [admin] answers itself
    or lets the request pass. Both live in middlewares/authMiddleware.js. *)
Variable protect : Credentials -> Exn + UserDoc.
Variable admin : option UserDoc -> option Exn.

Definition runMiddleware (mw : Middleware) (creds : Credentials)
           (requser : option UserDoc) : Exn + option UserDoc :=
  match mw with
  | Protect =>
      match protect creds with
      | inl e => inl e
      | inr u => inr (Some u)
      end
  | Admin =>
      match admin requser with
      | Some e => inl e
      | None => inr requser
      end
  | PostValidationChain => inr requser
  end.

Fixpoint runAll (mws : list Middleware) (creds : Credentials)
         (requser : option UserDoc) : Exn + option UserDoc :=
  match mws with
  | [] => inr requser
  | mw :: rest =>
      match runMiddleware mw creds requser with
      | inl e => inl e
      | inr requser' => runAll rest creds requser'
      end
  end.

Fixpoint dispatch {H} (layers : list (Layer H)) (m : Method)
         (segs : list string) (creds : Credentials)
         (requser : option UserDoc) : Routed H :=
  match layers with
  | [] => Unmatched
  | Use mw :: rest =>
      match runMiddleware mw creds requser with
      | inl e => Stopped e
      | inr requser' => dispatch rest m segs creds requser'
      end
  | Route m' pattern mws h :: rest =>
      if methodEqb m m' then
        match matchPath pattern segs with
        | Some params =>
            match runAll mws creds requser with
            | inl e => Stopped e
            | inr requser' => Reached h params requser'
            end
        | None => dispatch rest m segs creds requser
        end
      else dispatch rest m segs creds requser
  end.

(** A request to the post router, with the parts the handlers read. *)
Record PostRequest := mkPostRequest {
  req_method : Method;
  req_path : list string;
  req_credentials : Credentials;
  req_query : Query;
  req_status : option string;
  req_body : Body;
  req_text : option string;
  req_oid : ObjectId
}.

Variable M : Mongoose.
Variable findOwn : list PostDoc -> OwnQuery -> Z -> Z -> list PostDoc.

Definition statusOnly {A} (r : Db * Outcome A) : Db * Z :=
  (fst r, httpStatus (snd r)).

(** The application on the post router: the new store and the status of
    the response; [None] stands for a handler behind [protect] that is
    entered without [req.user]. *)
Definition servePosts (db : Db) (r : PostRequest) : option (Db * Z) :=
  match dispatch postRoutes (req_method r) (req_path r) (req_credentials r)
                 None with
  | Unmatched => Some (db, 404)
  | Stopped e => Some (db, fst (errorHandler e))
  | Reached h params requser =>
      match h, requser with
      | HGetPosts, _ => Some (db, httpStatus (getPosts M db (req_query r)))
      | HGetPostBySlug, _ =>
          Some (statusOnly (getPostBySlug db requser (param "slug" params)))
      | HGetPost, _ =>
          Some (statusOnly (getPost db requser (param "id" params)))
      | HGetMyPosts, Some u =>
          Some (db, httpStatus (getMyPosts findOwn db u (req_query r)
                                           (req_status r)))
      | HCreatePost, Some u =>
          Some (statusOnly (createPost M db u (req_body r)))
      | HUpdatePost, Some u =>
          Some (statusOnly (updatePost M db u (param "id" params)
                                       (req_body r)))
      | HDeletePost, Some u =>
          Some (statusOnly (deletePost db u (param "id" params)))
      | HLikePost, Some u =>
          Some (statusOnly (likePost db u (param "id" params)))
      | HAddComment, Some u =>
          Some (statusOnly (addComment M db u (param "id" params)
                                       (req_text r) (req_oid r)))
      | HDeleteComment, Some u =>
          Some (statusOnly (deleteComment db u (param "id" params)
                                          (param "commentId" params)))
      | _, None => None
      end
  end.

End Routing.

(** ** More sample data *)

(** The published post with a comment by Bob and one by Alice. *)
Definition talkPost : PostDoc :=
  with_comments [mkComment "c-1" "u-bob" "first";
                 mkComment "c-2" "u-alice" "second"] helloPost.

Definition talkBlog : Db := mkDb [alice; bob; root] [talkPost; draftPost].

(** A cursor that applies the query and then skips and limits. *)
Definition ownCursor (posts : list PostDoc) (q : OwnQuery) (limit skip : Z)
  : list PostDoc :=
  window limit skip (filter (PostModel.matchesOwn q) posts).

(** A user store without validators. *)
Definition noUserCheck (users : list UserDoc) (id : ObjectId) (b : UserBody)
  : option Exn := None.

(** Tokens of the three sample users. *)
Definition tokenUser (creds : option string) : Exn + UserDoc :=
  match creds with
  | None => inl (ErrorResponse "Not authorized, no token" 401)
  | Some t =>
      if String.eqb t "alice-token" then inr alice
      else if String.eqb t "bob-token" then inr bob
      else if String.eqb t "root-token" then inr root
      else inl (JsonWebTokenError "invalid signature")
  end.

Definition adminOnly (requser : option UserDoc) : option Exn :=
  match requser with
  | Some u =>
      if isAdminRole (user_role u) then None
      else Some (ErrorResponse "Not authorized as an admin" 403)
  | None => Some (ErrorResponse "Not authorized as an admin" 403)
  end.

(** Every post has its own [_id]. *)
Definition uniquePostIds (db : Db) : Prop :=
  NoDup (map post_id (db_posts db)).

(** Every user has its own [_id]. *)
Definition uniqueUserIds (db : Db) : Prop :=
  NoDup (map user_id (db_users db)).

(** The author of every post is a user of the store. *)
Definition authorsKnown (db : Db) : Prop :=
  forall p, In p (db_posts db) ->
            User.findById (db_users db) (post_author p) <> None.

(** The ownership test of [deleteComment] lets the owner of the comment
    and the admins through. *)
Definition mayDeleteComment (requser : UserDoc) (c : Comment) : bool :=
  (String.eqb (comment_user c) (user_id requser)
   || isAdminRole (user_role requser))%bool.

(** The same request with another [tags], or another [isActive],
    parameter. *)
Definition with_tags (t : option string) (q : Query) : Query :=
  mkQuery (query_page q) (query_limit q) (query_category q) t
          (query_search q) (query_author q) (query_sort q) (query_role q)
          (query_isActive q).

Definition with_isActive (a : option string) (q : Query) : Query :=
  mkQuery (query_page q) (query_limit q) (query_category q) (query_tags q)
          (query_search q) (query_author q) (query_sort q) (query_role q) a.

(** The [total] of a listing response, 0 when there is none. *)
Definition totalOf {A} (o : Outcome (Listing A)) : Z :=
  match listingOf o with
  | Some l => total l
  | None => 0
  end.

(** ** Sequences of requests *)

(** The reads and the engagement requests on posts. *)
Inductive Op :=
| OpRead (requser : option UserDoc) (id : ObjectId)
| OpReadSlug (requser : option UserDoc) (slug : string)
| OpLike (requser : UserDoc) (id : ObjectId)
| OpComment (requser : UserDoc) (id : ObjectId) (text : option string)
            (oid : ObjectId)
| OpUncomment (requser : UserDoc) (id cid : ObjectId).

(** The store after one request, and after a sequence of them. *)
Definition step (M : Mongoose) (db : Db) (op : Op) : Db :=
  match op with
  | OpRead requser id => fst (getPost db requser id)
  | OpReadSlug requser slug => fst (getPostBySlug db requser slug)
  | OpLike requser id => fst (likePost db requser id)
  | OpComment requser id text oid =>
      fst (addComment M db requser id text oid)
  | OpUncomment requser id cid => fst (deleteComment db requser id cid)
  end.

Definition run (M : Mongoose) (db : Db) (ops : list Op) : Db :=
  fold_left (step M) ops db.

Definition isUncomment (op : Op) : bool :=
  match op with
  | OpUncomment _ _ _ => true
  | _ => false
  end.

(** What a read or an engagement request may do to a post: everything
    but the likes, the comments and the view counter stays, and the
    counter does not go down. *)
Definition engagedFrom (p p' : PostDoc) : Prop :=
  post_id p' = post_id p
  /\ post_title p' = post_title p
  /\ post_content p' = post_content p
  /\ post_excerpt p' = post_excerpt p
  /\ post_author p' = post_author p
  /\ post_status p' = post_status p
  /\ post_slug p' = post_slug p
  /\ post_category p' = post_category p
  /\ post_tags p' = post_tags p
  /\ post_views p <= post_views p'.

(** The comments of [p] are still there in [p'], in the first places. *)
Definition commentsKept (p p' : PostDoc) : Prop :=
  exists added, post_comments p' = (post_comments p ++ added)%list.

(** What a request does to the store: nothing, or one save of a post
    that was loaded from it. *)
Definition savesOne (R : PostDoc -> PostDoc -> Prop) (db db' : Db) : Prop :=
  db' = db
  \/ exists p p',
      In p (db_posts db) /\ post_id p' = post_id p /\ R p p'
      /\ db' = with_posts (Post.save p' (db_posts db)) db.

(** The handlers the post router registers before [protect]. *)
Definition isPublicHandler (h : PostHandler) : bool :=
  match h with
  | HGetPosts | HGetPostBySlug | HGetPost => true
  | _ => false
  end.

(** ** Properties of the primitives *)

Section JsFacts.

Import Js.

Example trim_hi : trim "  hi  " = "hi".
Proof. reflexivity. Qed.

Example trim_inner : trim " a  b " = "a  b".
Proof. reflexivity. Qed.

Example parseInt_prefix : parseInt10 (Some " 12px") = Some 12.
Proof. reflexivity. Qed.

Example parseInt_negative : parseInt10 (Some "-3") = Some (-3).
Proof. reflexivity. Qed.

Example parseInt_nan : parseInt10 (Some "abc") = None.
Proof. reflexivity. Qed.

Example page_defaults :
  orElse (parseInt10 None) 1 = 1 /\ orElse (parseInt10 (Some "0")) 1 = 1
  /\ orElse (parseInt10 (Some "x")) 10 = 10.
Proof. repeat split. Qed.

Example split_tags : splitComma "a,b,,c" = ["a"; "b"; ""; "c"].
Proof. reflexivity. Qed.










End JsFacts.

(** ** Properties of the collections *)

Section StoreFacts.

Lemma findById_id (posts : list PostDoc) (id : ObjectId) (p : PostDoc) :
  Post.findById posts id = Some p -> post_id p = id.
Proof.
  intros H. apply find_some in H. now apply String.eqb_eq.
Qed.

Lemma findById_In (posts : list PostDoc) (id : ObjectId) (p : PostDoc) :
  Post.findById posts id = Some p -> In p posts.
Proof.
  intros H. now apply find_some in H.
Qed.

Lemma user_findById_id (users : list UserDoc) (id : ObjectId) (u : UserDoc) :
  User.findById users id = Some u -> user_id u = id.
Proof.
  intros H. apply find_some in H. now apply String.eqb_eq.
Qed.

(** After [save], the document read back under the id is the saved one. *)
Lemma save_In (posts : list PostDoc) (p p' : PostDoc) :
  In p posts -> post_id p' = post_id p ->
  Post.findById (Post.save p' posts) (post_id p') = Some p'.
Proof.
  intros Hin Hid. induction posts as [|x xs IH]; [contradiction|].
  simpl. destruct (String.eqb (post_id x) (post_id p')) eqn:E.
  - simpl. now rewrite String.eqb_refl.
  - simpl. rewrite E. destruct Hin as [->|Hin]; [|now apply IH].
    rewrite Hid, String.eqb_refl in E. discriminate.
Qed.

Lemma save_found (posts : list PostDoc) (id : ObjectId) (p p' : PostDoc) :
  Post.findById posts id = Some p -> post_id p' = id ->
  Post.findById (Post.save p' posts) id = Some p'.
Proof.
  intros Hf Hid. subst id.
  apply save_In with (p := p); [now apply findById_In in Hf|].
  symmetry. now apply findById_id in Hf.
Qed.

(** [save] leaves the documents with another id alone. *)
Lemma save_other (posts : list PostDoc) (id : ObjectId) (p' : PostDoc) :
  post_id p' <> id ->
  Post.findById (Post.save p' posts) id = Post.findById posts id.
Proof.
  intros Hne. induction posts as [|x xs IH]; [reflexivity|].
  simpl. destruct (String.eqb (post_id x) (post_id p')) eqn:E.
  - apply String.eqb_eq in E. simpl.
    assert (H1 : String.eqb (post_id p') id = false)
      by now apply String.eqb_neq.
    rewrite H1. rewrite E, H1. reflexivity.
  - simpl. destruct (String.eqb (post_id x) id); [reflexivity | exact IH].
Qed.

(** Saving the document that was loaded undoes an intermediate save. *)
Lemma save_restore (posts : list PostDoc) (id : ObjectId) (p p1 : PostDoc) :
  Post.findById posts id = Some p -> post_id p1 = id ->
  Post.save p (Post.save p1 posts) = posts.
Proof.
  intros Hf Hid. pose proof (findById_id _ _ _ Hf) as Hp.
  induction posts as [|x xs IH]; [discriminate|].
  simpl in Hf. simpl. rewrite Hid.
  destruct (String.eqb (post_id x) id) eqn:E.
  - injection Hf as ->. simpl. rewrite Hid, Hp, String.eqb_refl.
    reflexivity.
  - simpl. rewrite Hp, E. f_equal. now apply IH.
Qed.

End StoreFacts.

(** ** Comments *)

Section CommentFacts.

Variable M : Mongoose.

Lemma nth_error_last {A} (l : list A) (x : A) :
  nth_error (l ++ [x]) (length (l ++ [x]) - 1) = Some x.
Proof.
  rewrite length_app. simpl.
  replace (length l + 1 - 1)%nat with (length l + 0)%nat by lia.
  rewrite nth_error_app2 by lia.
  replace (length l + 0 - length l)%nat with 0%nat by lia.
  reflexivity.
Qed.


(** Any other text reaches the store, trimmed. *)
Lemma addComment_truthy (db : Db) (requser : UserDoc) (id : ObjectId)
      (t : string) (oid : ObjectId) (post : PostDoc) :
  Post.findById (db_posts db) id = Some post ->
  t <> EmptyString ->
  addComment M db requser id (Some t) oid =
    let c := mkComment oid (user_id requser) (Js.trim t) in
    match commentErrors M c with
    | [] =>
        (with_posts
           (Post.save (with_comments (post_comments post ++ [c]) post)
                      (db_posts db)) db,
         Sent 201 (Some "Comment added successfully") (Some c))
    | _ :: _ => (db, Next (ValidationError (commentErrors M c)))
    end.
Proof.
  intros Hf Ht. destruct t as [|a t]; [congruence|].
  unfold addComment. rewrite Hf. cbv zeta.
  destruct (commentErrors M _); [|reflexivity].
  cbn [post_comments with_comments]. now rewrite nth_error_last.
Qed.

End CommentFacts.




(** With a comment schema that requires a text, the same request is
    stopped by the save, not by the handler's check. *)
Example addComment_blank_text_strict :
  addComment strictStore blog bob "p-hello" (Some "   ") "c-1" =
    (blog, Next (ValidationError ["Comment text is required"])).
Proof. reflexivity. Qed.

Example addComment_empty_text :
  addComment laxStore blog bob "p-hello" (Some "") "c-1" =
    (blog, Next (ErrorResponse "Comment text is required" 400)).
Proof. reflexivity. Qed.

(** ** Reading a post *)

Section ReadFacts.

Lemma authorIdString_known (db : Db) (post : PostDoc) :
  User.findById (db_users db) (post_author post) <> None ->
  authorIdString db post = inr (post_author post).
Proof.
  unfold authorIdString. intros H.
  destruct (User.findById (db_users db) (post_author post)) as [a|] eqn:E;
    [|congruence].
  now rewrite (user_findById_id _ _ _ E).
Qed.

Lemma authorIdString_inr (db : Db) (post : PostDoc) (a : ObjectId) :
  authorIdString db post = inr a -> a = post_author post.
Proof.
  unfold authorIdString.
  destruct (User.findById (db_users db) (post_author post)) as [u|] eqn:E;
    [|discriminate].
  intros H. injection H as <-. exact (user_findById_id _ _ _ E).
Qed.

Lemma role_not_admin (r : Role) : r <> RoleAdmin -> isAdminRole r = false.
Proof. destruct r; [reflexivity | congruence]. Qed.

(** An unpublished post is hidden from an outsider. *)
Lemma hiddenFrom_outsider (db : Db) (post : PostDoc)
      (requser : option UserDoc) :
  isPublished (post_status post) = false ->
  outsider requser post -> authorKnown db requser post ->
  hiddenFrom db post requser = inr true.
Proof.
  intros Hs Ho Hk. unfold hiddenFrom. rewrite Hs.
  destruct requser as [u|]; [|reflexivity].
  simpl in Ho, Hk. destruct Ho as [Hid Hrole].
  rewrite (authorIdString_known db post Hk).
  apply String.eqb_neq in Hid. rewrite Hid.
  now rewrite (role_not_admin _ Hrole).
Qed.

Lemma servePost_hidden (db : Db) (post : PostDoc)
      (requser : option UserDoc) :
  isPublished (post_status post) = false ->
  outsider requser post -> authorKnown db requser post ->
  servePost db requser (Some post) = servePost db requser None.
Proof.
  intros Hs Ho Hk. simpl.
  now rewrite (hiddenFrom_outsider db post requser Hs Ho Hk).
Qed.

(** What a read that succeeds has done. *)
Lemma servePost_sent (db db' : Db) (requser : option UserDoc)
      (found : option PostDoc) (status : Z) (msg : option string)
      (data : PostDoc) :
  servePost db requser found = (db', Sent status msg data) ->
  exists post,
    found = Some post /\ status = 200 /\
    hiddenFrom db post requser = inr false /\
    data = (if isAuthor requser post then post
            else with_views (post_views post + 1) post) /\
    db' = (if isAuthor requser post then db
           else with_posts (Post.save data (db_posts db)) db).
Proof.
  unfold servePost. destruct found as [post|]; [|discriminate].
  destruct (hiddenFrom db post requser) as [e|[|]] eqn:Hh; try discriminate.
  unfold notTheAuthor, isAuthor. destruct requser as [u|].
  - destruct (authorIdString db post) as [e|a] eqn:Ha; [discriminate|].
    apply authorIdString_inr in Ha. subst a.
    destruct (String.eqb (user_id u) (post_author post)) eqn:E; simpl;
      intros H; injection H as <- <- <- <-; exists post; rewrite E;
      repeat split; assumption.
  - simpl. intros H; injection H as <- <- <- <-; exists post;
      repeat split; assumption.
Qed.

(** A read that does not succeed leaves the store as it was. *)
Lemma servePost_failed (db : Db) (requser : option UserDoc)
      (found : option PostDoc) :
  (forall status msg data,
      snd (servePost db requser found) <> Sent status msg data) ->
  fst (servePost db requser found) = db.
Proof.
  unfold servePost. destruct found as [post|]; [|reflexivity].
  destruct (hiddenFrom db post requser) as [e|[|]]; try reflexivity.
  destruct (notTheAuthor db post requser) as [e|[|]]; try reflexivity.
  simpl. intros H. exfalso. eapply H. reflexivity.
Qed.

(** A visible post whose author reference resolves is served. *)
Lemma servePost_visible (db : Db) (requser : option UserDoc)
      (post : PostDoc) :
  hiddenFrom db post requser = inr false ->
  authorKnown db requser post ->
  httpStatus (snd (servePost db requser (Some post))) = 200.
Proof.
  intros Hh Hk. unfold servePost. rewrite Hh. unfold notTheAuthor.
  destruct requser as [u|]; [|reflexivity].
  simpl in Hk. rewrite (authorIdString_known db post Hk).
  now destruct (String.eqb (user_id u) (post_author post)).
Qed.

End ReadFacts.

(** C3. A post that is not published is read by an anonymous requester,
    or by an authenticated requester who is neither its author nor an
    admin, with the error "Post not found" and status 404, through
    [getPost] and through [getPostBySlug]; the store is unchanged and the
    result is the one of a lookup that finds no post. *)
Theorem unpublished_read_is_not_found
        (db : Db) (requser : option UserDoc) (post : PostDoc) :
  isPublished (post_status post) = false ->
  outsider requser post ->
  authorKnown db requser post ->
  (forall id : ObjectId,
      Post.findById (db_posts db) id = Some post ->
      getPost db requser id = (db, Next (ErrorResponse "Post not found" 404))
      /\ httpStatus (snd (getPost db requser id)) = 404)
  /\ (forall slug : string,
         Post.findOneBySlug (db_posts db) slug = Some post ->
         getPostBySlug db requser slug =
           (db, Next (ErrorResponse "Post not found" 404))
         /\ httpStatus (snd (getPostBySlug db requser slug)) = 404)
  /\ (forall id : ObjectId,
         Post.findById (db_posts db) id = None ->
         getPost db requser id =
           (db, Next (ErrorResponse "Post not found" 404)))
  /\ (forall slug : string,
         Post.findOneBySlug (db_posts db) slug = None ->
         getPostBySlug db requser slug =
           (db, Next (ErrorResponse "Post not found" 404))).
Proof.
  intros Hs Ho Hk.
  assert (E : servePost db requser (Some post) =
              (db, Next (ErrorResponse "Post not found" 404)))
    by now rewrite servePost_hidden.
  split; [|split; [|split]].
  - intros id Hf. unfold getPost. rewrite Hf, E. split; reflexivity.
  - intros slug Hf. unfold getPostBySlug. rewrite Hf, E. split; reflexivity.
  - intros id Hf. unfold getPost. now rewrite Hf.
  - intros slug Hf. unfold getPostBySlug. now rewrite Hf.
Qed.

(** The theorem at the sample blog: Bob and an anonymous visitor ask for
    Alice's draft. *)
Lemma unpublished_read_is_not_found_witness :
  getPost blog (Some bob) "p-draft" =
    (blog, Next (ErrorResponse "Post not found" 404))
  /\ getPostBySlug blog None "work-in-progress" =
       (blog, Next (ErrorResponse "Post not found" 404)).
Proof.
  split.
  - destruct (unpublished_read_is_not_found blog (Some bob) draftPost)
      as [H _].
    + reflexivity.
    + simpl. split; discriminate.
    + simpl. discriminate.
    + exact (proj1 (H "p-draft" eq_refl)).
  - destruct (unpublished_read_is_not_found blog None draftPost)
      as [_ [H _]].
    + reflexivity.
    + exact I.
    + exact I.
    + exact (proj1 (H "work-in-progress" eq_refl)).
Defined.

(** The author and an admin do read the draft. *)
Example draft_read_by_author :
  httpStatus (snd (getPost blog (Some alice) "p-draft")) = 200
  /\ httpStatus (snd (getPost blog (Some root) "p-draft")) = 200.
Proof. split; reflexivity. Qed.

(** When the author of an unpublished post has no user document, the
    handler throws on [post.author._id] for an authenticated requester. *)
Example draft_read_dangling_author :
  httpStatus (snd (getPost (mkDb [bob] [draftPost]) (Some bob) "p-draft"))
  = 500.
Proof. reflexivity. Qed.

(** ** View counting *)

Section ViewFacts.

Lemma with_views_same (p : PostDoc) : with_views (post_views p + 0) p = p.
Proof. destruct p. unfold with_views. simpl. now rewrite Z.add_0_r. Qed.

Lemma save_found_slug (posts : list PostDoc) (slug : string)
      (p p' : PostDoc) :
  Post.findOneBySlug posts slug = Some p ->
  post_id p' = post_id p -> post_slug p' = slug ->
  Post.findOneBySlug (Post.save p' posts) slug = Some p'.
Proof.
  intros Hf Hid Hslug.
  assert (Hs : String.eqb (post_slug p') slug = true)
    by now apply String.eqb_eq.
  induction posts as [|x xs IH]; [discriminate|].
  unfold Post.findOneBySlug in *. simpl in *.
  destruct (String.eqb (post_id x) (post_id p')) eqn:E.
  - simpl. now rewrite Hs.
  - simpl. destruct (String.eqb (post_slug x) slug) eqn:Ex.
    + injection Hf as ->. rewrite Hid, String.eqb_refl in E. discriminate.
    + now apply IH.
Qed.

Lemma getPost_sent (db db' : Db) (requser : option UserDoc) (id : ObjectId)
      (status : Z) (msg : option string) (data : PostDoc) :
  getPost db requser id = (db', Sent status msg data) ->
  exists post,
    Post.findById (db_posts db) id = Some post /\
    data = with_views (post_views post + viewStep requser post) post /\
    Post.findById (db_posts db') id = Some data.
Proof.
  intros H. apply servePost_sent in H.
  destruct H as [post [Hf [_ [_ [Hd Hdb]]]]].
  exists post. split; [exact Hf|].
  unfold viewStep. destruct (isAuthor requser post).
  - rewrite with_views_same. subst. auto.
  - split; [exact Hd|]. subst db'. simpl.
    apply save_found with (p := post); [exact Hf|].
    subst data. simpl. now apply findById_id in Hf.
Qed.

Lemma getPostBySlug_sent (db db' : Db) (requser : option UserDoc)
      (slug : string) (status : Z) (msg : option string) (data : PostDoc) :
  getPostBySlug db requser slug = (db', Sent status msg data) ->
  exists post,
    Post.findOneBySlug (db_posts db) slug = Some post /\
    data = with_views (post_views post + viewStep requser post) post /\
    Post.findOneBySlug (db_posts db') slug = Some data.
Proof.
  intros H. apply servePost_sent in H.
  destruct H as [post [Hf [_ [_ [Hd Hdb]]]]].
  exists post. split; [exact Hf|].
  unfold viewStep. destruct (isAuthor requser post).
  - rewrite with_views_same. subst. auto.
  - split; [exact Hd|]. subst db'. simpl.
    apply save_found_slug with (p := post); [exact Hf| |]; subst data; simpl.
    + reflexivity.
    + apply find_some in Hf. now apply String.eqb_eq.
Qed.

(** A published post whose author reference resolves is served to
    anyone, and the read counts unless the requester is the author. *)
Lemma getPost_published (db : Db) (requser : option UserDoc)
      (id : ObjectId) (post : PostDoc) :
  Post.findById (db_posts db) id = Some post ->
  isPublished (post_status post) = true ->
  authorKnown db requser post ->
  getPost db requser id =
    (if isAuthor requser post then (db, Sent 200 None post)
     else
       (with_posts
          (Post.save (with_views (post_views post + 1) post) (db_posts db))
          db,
        Sent 200 None (with_views (post_views post + 1) post))).
Proof.
  intros Hf Hp Hk. unfold getPost, servePost, hiddenFrom. rewrite Hf, Hp.
  unfold notTheAuthor, isAuthor. destruct requser as [u|]; [|reflexivity].
  simpl in Hk. rewrite (authorIdString_known db post Hk).
  now destruct (String.eqb (user_id u) (post_author post)).
Qed.

End ViewFacts.

Section ViewScenario.

(** One read of a published post, seen from the store. *)
Lemma getPost_step (db : Db) (requser : option UserDoc) (id : ObjectId)
      (post : PostDoc) :
  Post.findById (db_posts db) id = Some post ->
  isPublished (post_status post) = true ->
  User.findById (db_users db) (post_author post) <> None ->
  let r := getPost db requser id in
  httpStatus (snd r) = 200 /\
  db_users (fst r) = db_users db /\
  Post.findById (db_posts (fst r)) id =
    Some (with_views (post_views post + viewStep requser post) post).
Proof.
  intros Hf Hp Hk r. subst r.
  rewrite (getPost_published db requser id post Hf Hp)
    by (destruct requser; simpl; auto).
  unfold viewStep. destruct (isAuthor requser post); simpl.
  - rewrite with_views_same. auto.
  - repeat split. apply save_found with (p := post); [exact Hf|].
    simpl. now apply findById_id in Hf.
Qed.

Lemma isAuthor_true (u : UserDoc) (post : PostDoc) :
  user_id u = post_author post -> isAuthor (Some u) post = true.
Proof. intros H. simpl. now apply String.eqb_eq. Qed.

Lemma isAuthor_false (u : UserDoc) (post : PostDoc) :
  user_id u <> post_author post -> isAuthor (Some u) post = false.
Proof. intros H. simpl. now apply String.eqb_neq. Qed.

End ViewScenario.

(** C9. A read through [getPost] or [getPostBySlug] that succeeds returns
    the post with its [views] increased by exactly 1 when the requester is
    anonymous or is not the author, and unchanged when the requester is the
    author, and the store holds that document afterwards; a read that does
    not succeed leaves the store unchanged. A published post is read with
    success, and for an author A and another user B the reads B, A, B take
    the counter from v to v+1, v+1 and v+2. *)
Theorem views_count_reads_by_others (db : Db) (requser : option UserDoc) :
  (forall id db' status msg data,
      getPost db requser id = (db', Sent status msg data) ->
      exists post,
        Post.findById (db_posts db) id = Some post /\
        data = with_views (post_views post + viewStep requser post) post /\
        Post.findById (db_posts db') id = Some data)
  /\ (forall slug db' status msg data,
         getPostBySlug db requser slug = (db', Sent status msg data) ->
         exists post,
           Post.findOneBySlug (db_posts db) slug = Some post /\
           data = with_views (post_views post + viewStep requser post) post /\
           Post.findOneBySlug (db_posts db') slug = Some data)
  /\ (forall post,
         (viewStep requser post = 0 <->
          exists u, requser = Some u /\ user_id u = post_author post)
         /\ (viewStep requser post = 1 <->
             match requser with
             | None => True
             | Some u => user_id u <> post_author post
             end))
  /\ (forall id,
         (forall status msg data,
             snd (getPost db requser id) <> Sent status msg data) ->
         fst (getPost db requser id) = db)
  /\ (forall slug,
         (forall status msg data,
             snd (getPostBySlug db requser slug) <> Sent status msg data) ->
         fst (getPostBySlug db requser slug) = db)
  /\ (forall id post a b,
         Post.findById (db_posts db) id = Some post ->
         isPublished (post_status post) = true ->
         User.findById (db_users db) (post_author post) <> None ->
         user_id a = post_author post ->
         user_id b <> post_author post ->
         let r1 := getPost db (Some b) id in
         let r2 := getPost (fst r1) (Some a) id in
         let r3 := getPost (fst r2) (Some b) id in
         let viewsIn (s : Db) :=
           option_map post_views (Post.findById (db_posts s) id) in
         httpStatus (snd r1) = 200 /\ httpStatus (snd r2) = 200 /\
         httpStatus (snd r3) = 200 /\
         viewsIn (fst r1) = Some (post_views post + 1) /\
         viewsIn (fst r2) = Some (post_views post + 1) /\
         viewsIn (fst r3) = Some (post_views post + 2)).
Proof.
  split; [intros; eapply getPost_sent; eassumption|].
  split; [intros; eapply getPostBySlug_sent; eassumption|].
  split.
  { intros post. unfold viewStep, isAuthor.
    destruct requser as [u|].
    - destruct (String.eqb (user_id u) (post_author post)) eqn:E.
      + apply String.eqb_eq in E. split; split; try lia; try congruence.
        intros _. now exists u.
      + apply String.eqb_neq in E. split; split; try lia; try congruence.
        intros [u' [Hu Hid]]. injection Hu as <-. congruence.
    - split; split; try lia; auto. intros [u [Hu _]]. discriminate. }
  split; [intros id; apply servePost_failed|].
  split; [intros slug; apply servePost_failed|].
  intros id post a b Hf Hp Hk Ha Hb r1 r2 r3 viewsIn.
  destruct (getPost_step db (Some b) id post Hf Hp Hk) as [S1 [U1 F1]].
  fold r1 in S1, U1, F1.
  unfold viewStep in F1.
  rewrite (isAuthor_false b post Hb) in F1.
  set (p1 := with_views (post_views post + 1) post) in *.
  assert (Hk1 : User.findById (db_users (fst r1)) (post_author p1) <> None)
    by now rewrite U1.
  destruct (getPost_step (fst r1) (Some a) id p1 F1 Hp Hk1) as [S2 [U2 F2]].
  fold r2 in S2, U2, F2. unfold viewStep in F2.
  rewrite (isAuthor_true a p1 Ha), with_views_same in F2.
  assert (Hk2 : User.findById (db_users (fst r2)) (post_author p1) <> None)
    by now rewrite U2.
  destruct (getPost_step (fst r2) (Some b) id p1 F2 Hp Hk2) as [S3 [U3 F3]].
  fold r3 in S3, U3, F3. unfold viewStep in F3.
  rewrite (isAuthor_false b p1 Hb) in F3.
  unfold viewsIn. rewrite F1, F2, F3. simpl.
  repeat split; try assumption. f_equal. lia.
Qed.

(** The theorem at the sample blog: Bob, Alice (the author) and Bob again
    read the published post, which starts at 0 views. *)
Lemma views_count_reads_by_others_witness :
  let r1 := getPost blog (Some bob) "p-hello" in
  let r2 := getPost (fst r1) (Some alice) "p-hello" in
  let r3 := getPost (fst r2) (Some bob) "p-hello" in
  option_map post_views (Post.findById (db_posts (fst r1)) "p-hello") = Some 1
  /\ option_map post_views (Post.findById (db_posts (fst r2)) "p-hello")
     = Some 1
  /\ option_map post_views (Post.findById (db_posts (fst r3)) "p-hello")
     = Some 2.
Proof.
  destruct (views_count_reads_by_others blog None) as [_ [_ [_ [_ [_ H]]]]].
  destruct (H "p-hello" helloPost alice bob eq_refl eq_refl
              ltac:(discriminate) eq_refl ltac:(discriminate))
    as [_ [_ [_ [H1 [H2 H3]]]]].
  exact (conj H1 (conj H2 H3)).
Defined.

(** A read of a draft by a stranger counts nothing. *)
Example views_hidden_read :
  fst (getPost blog (Some bob) "p-draft") = blog.
Proof. reflexivity. Qed.

(** ** Updating and deleting a post *)

Section MutationFacts.

Variable M : Mongoose.

Lemma notOwnerNorAdmin_true (post : PostDoc) (requser : UserDoc) :
  user_id requser <> post_author post ->
  user_role requser <> RoleAdmin ->
  notOwnerNorAdmin post requser = true.
Proof.
  intros Hid Hrole. unfold notOwnerNorAdmin.
  assert (H : String.eqb (post_author post) (user_id requser) = false)
    by (apply String.eqb_neq; congruence).
  now rewrite H, (role_not_admin _ Hrole).
Qed.

Lemma notOwnerNorAdmin_false (post : PostDoc) (requser : UserDoc) :
  user_id requser = post_author post \/ user_role requser = RoleAdmin ->
  notOwnerNorAdmin post requser = false.
Proof.
  unfold notOwnerNorAdmin. intros [H|H].
  - rewrite H, String.eqb_refl. reflexivity.
  - rewrite H. simpl. apply andb_false_r.
Qed.

(** What an authorized update with a valid payload writes. *)
Lemma updatePost_applies (db : Db) (requser : UserDoc) (id : ObjectId)
      (body : Body) (post : PostDoc) :
  Post.findById (db_posts db) id = Some post ->
  user_id requser = post_author post \/ user_role requser = RoleAdmin ->
  postValidation body = [] ->
  updateErrors M (sanitize body) = [] ->
  let post' := Post.applyUpdate (sanitize body) post in
  updatePost M db requser id body =
    (with_posts (Post.save post' (db_posts db)) db,
     Sent 200 (Some "Post updated successfully") (Some post'))
  /\ Post.findById (db_posts (fst (updatePost M db requser id body))) id
     = Some post'
  /\ post_author post' =
     match body_author body with
     | Some a => a
     | None => post_author post
     end.
Proof.
  intros Hf Hauth Hval Hschema post'.
  assert (E : updatePost M db requser id body =
              (with_posts (Post.save post' (db_posts db)) db,
               Sent 200 (Some "Post updated successfully") (Some post'))).
  { unfold updatePost, Post.findByIdAndUpdate.
    now rewrite Hf, (notOwnerNorAdmin_false _ _ Hauth), Hval, Hschema. }
  split; [exact E|]. split; [|reflexivity].
  rewrite E. simpl. apply save_found with (p := post); [exact Hf|].
  simpl. now apply findById_id in Hf.
Qed.

(** The body [createPost] hands to the store names the requester as the
    author, whatever the payload said. *)
Lemma createPost_author (db db' : Db) (requser : UserDoc) (body : Body)
      (status : Z) (msg : option string) (post : PostDoc) :
  createPost M db requser body = (db', Sent status msg post) ->
  exists body',
    createDoc M (db_posts db) body' = inr post /\
    body_author body' = Some (user_id requser).
Proof.
  unfold createPost. destruct (postValidation body); [|discriminate].
  destruct (createDoc M (db_posts db) _) as [e|p] eqn:E; [discriminate|].
  intros H. injection H as <- <- <- <-.
  eexists. split; [exact E | reflexivity].
Qed.

End MutationFacts.

(** A payload with a short title and no content is stopped by the
    validation chain, with the messages of both checks. *)
Example updatePost_invalid_body :
  updatePost laxStore blog alice "p-hello"
             (mkBody (Some "  Hey ") None None None None (Some "public")
                     None)
  = (blog,
     Invalid ["Title must be between 5 and 100 characters";
              "Content must be at least 50 characters long";
              "Status must be draft, published, or archived"]).
Proof. reflexivity. Qed.

(** A valid update by the owner trims the title and keeps the fields the
    payload does not carry. *)
Example updatePost_by_owner :
  option_map
    (fun p => (post_title p, post_status p, post_author p, post_slug p))
    (Post.findById
       (db_posts
          (fst (updatePost laxStore blog alice "p-draft"
                           (mkBody (Some " Ready to go ") (Some fiftyChars)
                                   None None None (Some "published") None))))
       "p-draft")
  = Some ("Ready to go", Published, "u-alice", "work-in-progress").
Proof. reflexivity. Qed.

(** C7. On a post that exists, [updatePost] and [deletePost] requested by
    a user who is neither its author nor an admin fail with status 403 and
    change nothing; when no post has the id, both fail with status 404:
    the lookup comes before the ownership check. *)
Theorem foreign_mutation_is_forbidden
        (M : Mongoose) (db : Db) (requser : UserDoc) (id : ObjectId)
        (body : Body) :
  (forall post,
      Post.findById (db_posts db) id = Some post ->
      user_id requser <> post_author post ->
      user_role requser <> RoleAdmin ->
      updatePost M db requser id body =
        (db, Next (ErrorResponse "Not authorized to update this post" 403))
      /\ deletePost db requser id =
           (db, Next (ErrorResponse "Not authorized to delete this post" 403))
      /\ httpStatus (snd (updatePost M db requser id body)) = 403
      /\ httpStatus (snd (deletePost db requser id)) = 403)
  /\ (Post.findById (db_posts db) id = None ->
      updatePost M db requser id body =
        (db, Next (ErrorResponse "Post not found" 404))
      /\ deletePost db requser id =
           (db, Next (ErrorResponse "Post not found" 404))
      /\ httpStatus (snd (updatePost M db requser id body)) = 404
      /\ httpStatus (snd (deletePost db requser id)) = 404).
Proof.
  split.
  - intros post Hf Hid Hrole. unfold updatePost, deletePost.
    rewrite Hf, (notOwnerNorAdmin_true post requser Hid Hrole).
    repeat split.
  - intros Hf. unfold updatePost, deletePost. rewrite Hf. repeat split.
Qed.

(** The theorem at the sample blog: Bob tries to update and to delete
    Alice's post, and a post that does not exist. *)
Lemma foreign_mutation_is_forbidden_witness :
  httpStatus (snd (updatePost laxStore blog bob "p-hello" reassigningBody))
  = 403
  /\ httpStatus (snd (deletePost blog bob "p-hello")) = 403
  /\ httpStatus (snd (updatePost laxStore blog bob "p-none" reassigningBody))
     = 404.
Proof.
  destruct (foreign_mutation_is_forbidden laxStore blog bob "p-hello"
                                          reassigningBody) as [H _].
  destruct (H helloPost eq_refl ltac:(discriminate) ltac:(discriminate))
    as [_ [_ [H1 H2]]].
  destruct (foreign_mutation_is_forbidden laxStore blog bob "p-none"
                                          reassigningBody) as [_ H'].
  destruct (H' eq_refl) as [_ [_ [H3 _]]].
  exact (conj H1 (conj H2 H3)).
Defined.

(** C2 at a failing input. Alice, the author of the published post,
    updates it with a payload that passes validation and names Bob as
    author: the update succeeds and the stored post now belongs to Bob. *)
Theorem updatePost_reassigns_author :
  let r := updatePost laxStore blog alice "p-hello" reassigningBody in
  postValidation reassigningBody = []
  /\ option_map post_author (Post.findById (db_posts blog) "p-hello")
     = Some (user_id alice)
  /\ httpStatus (snd r) = 200
  /\ option_map post_author (Post.findById (db_posts (fst r)) "p-hello")
     = Some (user_id bob).
Proof. repeat split. Qed.

(** ** Likes *)

Section LikeFacts.

Variable uid : ObjectId.

Local Abbreviation mine :=
  (fun like : Like => String.eqb (like_user like) uid).
Local Abbreviation others :=
  (fun like : Like => negb (String.eqb (like_user like) uid)).

Lemma others_none (l : list Like) : existsb mine (filter others l) = false.
Proof.
  induction l as [|x xs IH]; [reflexivity|]. simpl.
  destruct (String.eqb (like_user x) uid) eqn:E; simpl; [exact IH|].
  rewrite E. exact IH.
Qed.

Lemma others_all (l : list Like) :
  existsb mine l = false -> filter others l = l.
Proof.
  induction l as [|x xs IH]; [reflexivity|]. simpl.
  destruct (String.eqb (like_user x) uid); simpl; [discriminate|].
  intros H. now rewrite IH.
Qed.

Lemma mine_none (l : list Like) :
  existsb mine l = false -> length (filter mine l) = 0%nat.
Proof.
  induction l as [|x xs IH]; [reflexivity|]. simpl.
  destruct (String.eqb (like_user x) uid); simpl; [discriminate | exact IH].
Qed.

Lemma mine_some (l : list Like) :
  existsb mine l = true -> (1 <= length (filter mine l))%nat.
Proof.
  induction l as [|x xs IH]; [discriminate|]. simpl.
  destruct (String.eqb (like_user x) uid); simpl; [lia | exact IH].
Qed.

Lemma mine_others_length (l : list Like) :
  (length (filter mine l) + length (filter others l) = length l)%nat.
Proof.
  induction l as [|x xs IH]; [reflexivity|]. simpl.
  destruct (String.eqb (like_user x) uid); simpl; lia.
Qed.

Lemma mine_absent (l : list Like) :
  existsb mine l = false -> ~ In uid (map like_user l).
Proof.
  induction l as [|x xs IH]; simpl; [tauto|].
  destruct (String.eqb (like_user x) uid) eqn:E; simpl; [discriminate|].
  apply String.eqb_neq in E. intros H [Hx|Hin]; [congruence|].
  now apply IH.
Qed.

Lemma others_NoDup (l : list Like) :
  NoDup (map like_user l) -> NoDup (map like_user (filter others l)).
Proof.
  induction l as [|x xs IH]; simpl; [auto|].
  intros H. inversion H as [|? ? Hx Hxs]; subst.
  destruct (negb (String.eqb (like_user x) uid)); simpl; [|now apply IH].
  constructor; [|now apply IH].
  intros Hin. apply Hx. apply in_map_iff in Hin.
  destruct Hin as [y [Hy Hyin]]. apply filter_In in Hyin.
  apply in_map_iff. exists y. tauto.
Qed.

Lemma push_NoDup (l : list Like) :
  existsb mine l = false ->
  NoDup (map like_user l) -> NoDup (map like_user (l ++ [mkLike uid])).
Proof.
  intros Hno Hl. rewrite map_app. apply NoDup_app; [exact Hl| |].
  - simpl. constructor; [tauto | constructor].
  - intros a Ha [<-|[]]. now apply (mine_absent l).
Qed.

(** The two transitions of the toggle. *)
Lemma toggleLike_unlike (post : PostDoc) :
  likedBy uid post = true ->
  toggleLike uid post = with_likes (filter others (post_likes post)) post.
Proof. unfold toggleLike. now intros ->. Qed.

Lemma toggleLike_like (post : PostDoc) :
  likedBy uid post = false ->
  toggleLike uid post = with_likes (post_likes post ++ [mkLike uid]) post.
Proof. unfold toggleLike. now intros ->. Qed.

(** The flag in the response is the state after the toggle. *)
Lemma toggleLike_flips (post : PostDoc) :
  likedBy uid (toggleLike uid post) = negb (likedBy uid post).
Proof.
  destruct (likedBy uid post) eqn:E.
  - rewrite (toggleLike_unlike post E). unfold likedBy. simpl.
    apply others_none.
  - rewrite (toggleLike_like post E). unfold likedBy in *. simpl.
    rewrite existsb_app, E. simpl. now rewrite String.eqb_refl.
Qed.

Lemma toggleLike_unique (post : PostDoc) :
  uniqueLikes post -> uniqueLikes (toggleLike uid post).
Proof.
  unfold uniqueLikes. intros H. destruct (likedBy uid post) eqn:E.
  - rewrite (toggleLike_unlike post E). simpl. now apply others_NoDup.
  - rewrite (toggleLike_like post E). simpl. now apply push_NoDup.
Qed.

Lemma toggleLike_id (post : PostDoc) :
  post_id (toggleLike uid post) = post_id post.
Proof. unfold toggleLike. now destruct (likedBy uid post). Qed.

(** Liking and unliking again gives the document back. *)
Lemma toggleLike_twice_fresh (post : PostDoc) :
  likedBy uid post = false ->
  toggleLike uid (toggleLike uid post) = post.
Proof.
  intros E. pose proof (toggleLike_flips post) as Hflip. rewrite E in Hflip.
  rewrite (toggleLike_unlike _ Hflip), (toggleLike_like post E).
  unfold with_likes. simpl. rewrite filter_app. simpl.
  rewrite String.eqb_refl. simpl.
  rewrite app_nil_r, (others_all _ E). now destruct post.
Qed.

End LikeFacts.

Section LikeHandler.

Lemma likePost_found (db : Db) (requser : UserDoc) (id : ObjectId)
      (post : PostDoc) :
  Post.findById (db_posts db) id = Some post ->
  let post' := toggleLike (user_id requser) post in
  likePost db requser id =
    (with_posts (Post.save post' (db_posts db)) db,
     Sent 200
          (Some (if likedBy (user_id requser) post
                 then "Post unliked" else "Post liked"))
          (mkLikeData (Z.of_nat (length (post_likes post')))
                      (negb (likedBy (user_id requser) post))))
  /\ Post.findById (db_posts (fst (likePost db requser id))) id = Some post'
  /\ (forall id', id' <> id ->
        Post.findById (db_posts (fst (likePost db requser id))) id' =
        Post.findById (db_posts db) id').
Proof.
  intros Hf post'. unfold likePost. rewrite Hf. fold post'.
  pose proof (findById_id _ _ _ Hf) as Hid.
  assert (Hid' : post_id post' = id)
    by (unfold post'; now rewrite toggleLike_id).
  split; [reflexivity|]. simpl. split.
  - now apply save_found with (p := post).
  - intros id' Hne. apply save_other. congruence.
Qed.

Lemma likePost_missing (db : Db) (requser : UserDoc) (id : ObjectId) :
  Post.findById (db_posts db) id = None ->
  likePost db requser id = (db, Next (ErrorResponse "Post not found" 404)).
Proof. intros Hf. unfold likePost. now rewrite Hf. Qed.

(** A like request keeps the invariant of the post stored under [id]. *)
Lemma likePost_unique (db : Db) (requser : UserDoc) (id' id : ObjectId) :
  (forall post, Post.findById (db_posts db) id = Some post ->
                uniqueLikes post) ->
  forall post, Post.findById (db_posts (fst (likePost db requser id'))) id
               = Some post ->
               uniqueLikes post.
Proof.
  intros Hinv post.
  destruct (Post.findById (db_posts db) id') as [p|] eqn:Hf.
  - destruct (likePost_found db requser id' p Hf) as [_ [Hsame Hother]].
    destruct (String.eqb id id') eqn:E.
    + apply String.eqb_eq in E. subst id'. rewrite Hsame.
      intros H. injection H as <-. apply toggleLike_unique. now apply Hinv.
    + apply String.eqb_neq in E. rewrite (Hother id E). apply Hinv.
  - rewrite (likePost_missing db requser id' Hf). apply Hinv.
Qed.

Lemma likePost_keeps (db : Db) (requser : UserDoc) (id' id : ObjectId) :
  Post.findById (db_posts db) id <> None ->
  Post.findById (db_posts (fst (likePost db requser id'))) id <> None.
Proof.
  intros Hsome.
  destruct (Post.findById (db_posts db) id') as [p|] eqn:Hf.
  - destruct (likePost_found db requser id' p Hf) as [_ [Hsame Hother]].
    destruct (String.eqb id id') eqn:E.
    + apply String.eqb_eq in E. subst id'. now rewrite Hsame.
    + apply String.eqb_neq in E. now rewrite (Hother id E).
  - now rewrite (likePost_missing db requser id' Hf).
Qed.

End LikeHandler.

(** C4. One like request performs one transition and reports the new
    count and the new [isLiked]: when the user is not in [likes] one entry
    is appended, otherwise the entries of the user are removed. Two
    requests in succession by a user who had not liked the post bring the
    store back to its initial state, and the second response reports the
    initial count and [isLiked = false]. For a user who had liked the post
    and appears once in [likes], as the data model requires, the first
    request removes one entry and the second response reports the initial
    count, which is the count of the stored post again. *)
Theorem like_toggle_twice
        (db : Db) (requser : UserDoc) (id : ObjectId) (post : PostDoc) :
  Post.findById (db_posts db) id = Some post ->
  let uid := user_id requser in
  let before := Z.of_nat (length (post_likes post)) in
  let mine := Z.of_nat (occurrences uid post) in
  let r1 := likePost db requser id in
  let r2 := likePost (fst r1) requser id in
  let likesIn (s : Db) :=
    option_map post_likes (Post.findById (db_posts s) id) in
  (likedBy uid post = false ->
   likesIn (fst r1) = Some (post_likes post ++ [mkLike uid])%list
   /\ snd r1 = Sent 200 (Some "Post liked") (mkLikeData (before + 1) true)
   /\ snd r2 = Sent 200 (Some "Post unliked") (mkLikeData before false)
   /\ fst r2 = db)
  /\ (likedBy uid post = true ->
      likesIn (fst r1) =
        Some (filter (fun like => negb (String.eqb (like_user like) uid))
                     (post_likes post))
      /\ snd r1 =
         Sent 200 (Some "Post unliked") (mkLikeData (before - mine) false)
      /\ snd r2 =
         Sent 200 (Some "Post liked") (mkLikeData (before - mine + 1) true)
      /\ ((occurrences uid post <= 1)%nat ->
          snd r1 = Sent 200 (Some "Post unliked")
                        (mkLikeData (before - 1) false)
          /\ snd r2 = Sent 200 (Some "Post liked") (mkLikeData before true)
          /\ option_map (@length Like) (likesIn (fst r2))
             = Some (length (post_likes post)))).
Proof.
  intros Hf uid before mine r1 r2 likesIn.
  destruct (likePost_found db requser id post Hf) as [E1 [F1 _]].
  fold r1 in E1, F1. fold uid in E1, F1.
  destruct (likePost_found (fst r1) requser id _ F1) as [E2 [F2 _]].
  fold r2 in E2, F2. fold uid in E2, F2.
  pose proof (toggleLike_flips uid post) as Hflip.
  split; intros L; rewrite L in Hflip; simpl in Hflip.
  - pose proof (toggleLike_like uid post L) as T1.
    pose proof (toggleLike_twice_fresh uid post L) as T2.
    split; [unfold likesIn; now rewrite F1, T1|].
    split.
    { rewrite E1. simpl. rewrite L, T1. simpl. rewrite length_app. simpl.
      do 2 f_equal. subst before. lia. }
    split.
    { rewrite E2. simpl. now rewrite Hflip, T2. }
    rewrite E2. simpl. rewrite E1. simpl. rewrite T2.
    rewrite (save_restore (db_posts db) id post (toggleLike uid post) Hf)
      by now rewrite toggleLike_id; apply findById_id in Hf.
    now destruct db.
  - pose proof (toggleLike_unlike uid post L) as T1.
    pose proof (toggleLike_like uid _ Hflip) as T2.
    pose proof (mine_some uid _ L) as H1.
    pose proof (mine_others_length uid (post_likes post)) as H2.
    assert (C1 : Z.of_nat (length (post_likes (toggleLike uid post)))
                 = before - mine).
    { rewrite T1. simpl. subst before mine. unfold occurrences. lia. }
    assert (C2 : Z.of_nat
                   (length (post_likes (toggleLike uid (toggleLike uid post))))
                 = before - mine + 1).
    { rewrite T2. cbn [post_likes with_likes]. rewrite length_app.
      cbn [length]. lia. }
    assert (R1 : snd r1 = Sent 200 (Some "Post unliked")
                               (mkLikeData (before - mine) false))
      by (rewrite E1; simpl; now rewrite L, C1).
    assert (R2 : snd r2 = Sent 200 (Some "Post liked")
                               (mkLikeData (before - mine + 1) true))
      by (rewrite E2; simpl; now rewrite Hflip, C2).
    split; [unfold likesIn; now rewrite F1, T1|].
    split; [exact R1|]. split; [exact R2|].
    intros Hocc.
    assert (Hone : mine = 1) by (subst mine; unfold occurrences in *; lia).
    rewrite Hone in R1, R2, C2.
    replace (before - 1 + 1) with before in R2, C2 by lia.
    split; [exact R1|]. split; [exact R2|].
    unfold likesIn. rewrite F2. simpl. f_equal. subst before. lia.
Qed.

(** The theorem at the sample blog: Bob likes the published post and
    takes the like back; Root, who likes it, takes the like back and gives
    it again. *)
Lemma like_toggle_twice_witness :
  (let r1 := likePost blog bob "p-hello" in
   let r2 := likePost (fst r1) bob "p-hello" in
   snd r1 = Sent 200 (Some "Post liked") (mkLikeData 1 true)
   /\ snd r2 = Sent 200 (Some "Post unliked") (mkLikeData 0 false)
   /\ fst r2 = blog)
  /\ (let r1 := likePost likedBlog root "p-hello" in
      let r2 := likePost (fst r1) root "p-hello" in
      snd r1 = Sent 200 (Some "Post unliked") (mkLikeData 1 false)
      /\ snd r2 = Sent 200 (Some "Post liked") (mkLikeData 2 true)).
Proof.
  split.
  - destruct (like_toggle_twice blog bob "p-hello" helloPost eq_refl)
      as [H _].
    destruct (H eq_refl) as [_ [H1 [H2 H3]]].
    exact (conj H1 (conj H2 H3)).
  - destruct (like_toggle_twice likedBlog root "p-hello" likedPost eq_refl)
      as [_ H].
    destruct (H eq_refl) as [_ [_ [_ H']]].
    destruct (H' (le_n 1)) as [H1 [H2 _]].
    exact (conj H1 H2).
Defined.

(** The second request puts the user at the end of [likes]. *)
Example relike_moves_to_end :
  let r2 := likePost (fst (likePost likedBlog bob "p-hello")) bob "p-hello" in
  option_map post_likes (Post.findById (db_posts (fst r2)) "p-hello")
  = Some [mkLike "u-root"; mkLike "u-bob"].
Proof. reflexivity. Qed.

(** Without the bound on the entries of the user the count is not
    restored: [filter] removes both entries, the second request adds one. *)
Example duplicate_likes_collapse :
  let post := with_likes [mkLike "u-bob"; mkLike "u-bob"] helloPost in
  let db := mkDb [alice; bob] [post] in
  let r2 := likePost (fst (likePost db bob "p-hello")) bob "p-hello" in
  snd r2 = Sent 200 (Some "Post liked") (mkLikeData 1 true).
Proof. reflexivity. Qed.

(** C5. When no user appears twice in the likes of the post stored under
    an id, no user appears twice in them after any sequence of like
    requests by any users on any posts, and the post is still there. A
    toggle either removes every entry of the requester or appends one
    entry for a requester who had none. *)
Theorem likes_stay_unique (db : Db) (id : ObjectId)
        (reqs : list (UserDoc * ObjectId)) :
  (forall post, Post.findById (db_posts db) id = Some post ->
                uniqueLikes post) ->
  (forall post, Post.findById (db_posts (likeAll db reqs)) id = Some post ->
                uniqueLikes post)
  /\ (Post.findById (db_posts db) id <> None ->
      Post.findById (db_posts (likeAll db reqs)) id <> None)
  /\ (forall uid post,
         (likedBy uid post = true ->
          post_likes (toggleLike uid post) =
            filter (fun like => negb (String.eqb (like_user like) uid))
                   (post_likes post)
          /\ occurrences uid (toggleLike uid post) = 0%nat)
         /\ (likedBy uid post = false ->
             post_likes (toggleLike uid post)
             = (post_likes post ++ [mkLike uid])%list
             /\ occurrences uid post = 0%nat
             /\ occurrences uid (toggleLike uid post) = 1%nat)).
Proof.
  intros Hinv. split; [|split].
  - revert db Hinv. induction reqs as [|[u id'] rest IH]; intros db Hinv.
    + exact Hinv.
    + simpl. apply IH. now apply likePost_unique.
  - revert db Hinv. induction reqs as [|[u id'] rest IH]; intros db Hinv Hs.
    + exact Hs.
    + simpl. apply IH.
      * now apply likePost_unique.
      * now apply likePost_keeps.
  - intros uid post. split; intros L.
    + rewrite (toggleLike_unlike uid post L). simpl. split; [reflexivity|].
      unfold occurrences. simpl. apply mine_none. apply others_none.
    + rewrite (toggleLike_like uid post L). simpl. split; [reflexivity|].
      unfold occurrences. simpl. rewrite filter_app, length_app. simpl.
      rewrite String.eqb_refl. simpl.
      rewrite (mine_none uid _ L). split; reflexivity.
Qed.

(** The theorem at the sample blog after five like requests. *)
Lemma likes_stay_unique_witness :
  exists post,
    Post.findById
      (db_posts (likeAll blog [(bob, "p-hello"); (root, "p-hello");
                               (bob, "p-draft"); (bob, "p-hello");
                               (alice, "p-hello")])) "p-hello" = Some post
    /\ uniqueLikes post.
Proof.
  eexists. split; [reflexivity|].
  refine (proj1 (likes_stay_unique blog "p-hello"
                   [(bob, "p-hello"); (root, "p-hello"); (bob, "p-draft");
                    (bob, "p-hello"); (alice, "p-hello")] _) _ eq_refl).
  intros post H. injection H as <-. constructor.
Defined.

Example likes_after_requests :
  option_map post_likes
    (Post.findById
       (db_posts (likeAll blog [(bob, "p-hello"); (root, "p-hello");
                                (bob, "p-draft"); (bob, "p-hello");
                                (alice, "p-hello")])) "p-hello")
  = Some [mkLike "u-root"; mkLike "u-alice"].
Proof. reflexivity. Qed.

(** ** Engagement and the status of the post *)

Section EngagementFacts.

Variable M : Mongoose.


Lemma likePost_status (db : Db) (requser : UserDoc) (id : ObjectId) :
  httpStatus (snd (likePost db requser id)) =
  match Post.findById (db_posts db) id with
  | Some _ => 200
  | None => 404
  end.
Proof.
  unfold likePost. now destruct (Post.findById (db_posts db) id).
Qed.

Lemma addComment_status (db : Db) (requser : UserDoc) (id : ObjectId)
      (t : string) (oid : ObjectId) :
  t <> EmptyString ->
  httpStatus (snd (addComment M db requser id (Some t) oid)) =
  match Post.findById (db_posts db) id with
  | Some _ =>
      match commentErrors M (mkComment oid (user_id requser) (Js.trim t)) with
      | [] => 201
      | _ :: _ => 400
      end
  | None => 404
  end.
Proof.
  intros Ht. destruct (Post.findById (db_posts db) id) as [post|] eqn:Hf.
  - rewrite (addComment_truthy M db requser id t oid post Hf Ht). cbv zeta.
    now destruct (commentErrors M _).
  - destruct t as [|c t]; [congruence|]. unfold addComment. now rewrite Hf.
Qed.

End EngagementFacts.



(** ** Listings *)

Section ListingFacts.

Variable M : Mongoose.




Lemma onlyPublished_stranger (requser : option UserDoc) (id : ObjectId) :
  onlyPublished requser id = true <-> stranger requser id.
Proof.
  unfold onlyPublished, stranger. destruct requser as [u|]; [|tauto].
  rewrite andb_true_iff, !negb_true_iff, String.eqb_neq.
  destruct (user_role u); simpl; split; intros [H1 H2]; split;
    congruence.
Qed.

End ListingFacts.



Example pagination_first_page :
  option_map pagination
    (listingOf (getPosts laxStore
                         (mkDb [alice] [helloPost; helloPost; helloPost])
                         (with_paging (Some "1") (Some "2") noQuery)))
  = Some (Some (mkPagination (Some (mkPageRef 2 2)) None)).
Proof. reflexivity. Qed.

(** C10. When no user has the requested id, [getUserPosts] fails with
    "User not found" and status 404 after the user lookup alone: no post
    query is made and the posts do not matter. When the user exists, the
    posts are counted and fetched with a query on [author], to which
    [status = published] is added exactly when the requester is neither
    that user nor an admin. *)
Theorem getUserPosts_gate
        (M : Mongoose) (db : Db) (requser : option UserDoc) (id : ObjectId)
        (q : Query) :
  (User.findById (db_users db) id = None ->
   getUserPosts M db requser id q =
     ([UserFindById id], Next (ErrorResponse "User not found" 404))
   /\ httpStatus (snd (getUserPosts M db requser id q)) = 404
   /\ (forall posts,
          getUserPosts M (with_posts posts db) requser id q =
          getUserPosts M db requser id q))
  /\ (User.findById (db_users db) id <> None ->
      exists query listing,
        getUserPosts M db requser id q =
          ([UserFindById id; PostCountDocuments query;
            PostFind query CreatedAtDesc (limitOf q) (startIndexOf q)],
           Sent 200 None listing)
        /\ pq_author query = Some id
        /\ (pq_status query = Some Published <-> stranger requser id)
        /\ (pq_status query = None <-> ~ stranger requser id)
        /\ total listing =
           Z.of_nat (length (filter (Post.matches M query) (db_posts db)))).
Proof.
  split.
  - intros Hu. unfold getUserPosts. simpl. rewrite Hu. repeat split.
  - intros Hu. unfold getUserPosts.
    destruct (User.findById (db_users db) id) as [u|]; [|congruence].
    eexists. eexists. split; [reflexivity|]. split; [reflexivity|].
    pose proof (onlyPublished_stranger requser id) as Hs.
    unfold userPostsQuery. cbn [pq_status].
    destruct (onlyPublished requser id).
    + assert (S : stranger requser id) by now apply Hs.
      split; [tauto|]. split; [|reflexivity].
      split; [discriminate | tauto].
    + assert (S : ~ stranger requser id)
        by (intros H; apply Hs in H; discriminate).
      split; [split; [discriminate | tauto]|].
      split; [tauto | reflexivity].
Qed.

(** The theorem at the sample blog: the posts of an unknown user, and
    Alice's posts asked for by Bob. *)
Lemma getUserPosts_gate_witness :
  getUserPosts laxStore blog (Some bob) "u-nobody" noQuery =
    ([UserFindById "u-nobody"], Next (ErrorResponse "User not found" 404))
  /\ option_map total
       (listingOf (snd (getUserPosts laxStore blog (Some bob) "u-alice"
                                     noQuery))) = Some 1.
Proof.
  destruct (getUserPosts_gate laxStore blog (Some bob) "u-nobody" noQuery)
    as [H _].
  destruct (H eq_refl) as [E _].
  split; [exact E | reflexivity].
Defined.

Example getUserPosts_own :
  option_map total
    (listingOf (snd (getUserPosts laxStore blog (Some alice) "u-alice"
                                  noQuery))) = Some 2
  /\ option_map total
       (listingOf (snd (getUserPosts laxStore blog (Some root) "u-alice"
                                     noQuery))) = Some 2
  /\ option_map total
       (listingOf (snd (getUserPosts laxStore blog None "u-alice" noQuery)))
     = Some 1.
Proof. repeat split. Qed.

(** ** Deleting a comment *)

Section DeleteCommentFacts.

Lemma pull_absent (cs : list Comment) (cid : ObjectId) :
  Comments.id cs cid = None -> Comments.pull cs cid = cs.
Proof.
  unfold Comments.id, Comments.pull.
  induction cs as [|c cs IH]; [reflexivity|]. simpl.
  destruct (String.eqb (comment_id c) cid); [discriminate|].
  simpl. intros H. now rewrite IH.
Qed.

Lemma pull_gone (cs : list Comment) (cid : ObjectId) :
  Comments.id (Comments.pull cs cid) cid = None.
Proof.
  unfold Comments.id, Comments.pull.
  induction cs as [|c cs IH]; [reflexivity|]. simpl.
  destruct (String.eqb (comment_id c) cid) eqn:E; simpl; [exact IH|].
  now rewrite E.
Qed.

Lemma pull_other (cs : list Comment) (cid cid' : ObjectId) :
  cid' <> cid ->
  Comments.id (Comments.pull cs cid) cid' = Comments.id cs cid'.
Proof.
  intros Hne. unfold Comments.id, Comments.pull.
  induction cs as [|c cs IH]; [reflexivity|]. simpl.
  destruct (String.eqb (comment_id c) cid) eqn:E; simpl.
  - apply String.eqb_eq in E.
    assert (H : String.eqb (comment_id c) cid' = false)
      by (apply String.eqb_neq; congruence).
    now rewrite H.
  - destruct (String.eqb (comment_id c) cid'); [reflexivity | exact IH].
Qed.

Lemma pull_pushed (cs : list Comment) (c : Comment) :
  Comments.id cs (comment_id c) = None ->
  Comments.pull (cs ++ [c]) (comment_id c) = cs.
Proof.
  intros H. unfold Comments.pull. rewrite filter_app. simpl.
  rewrite String.eqb_refl. simpl. rewrite app_nil_r.
  now apply pull_absent.
Qed.

Lemma id_pushed (cs : list Comment) (c : Comment) :
  Comments.id cs (comment_id c) = None ->
  Comments.id (cs ++ [c]) (comment_id c) = Some c.
Proof.
  unfold Comments.id. induction cs as [|x xs IH]; simpl.
  - now rewrite String.eqb_refl.
  - destruct (String.eqb (comment_id x) (comment_id c)); [discriminate|].
    exact IH.
Qed.

Lemma deleteComment_found (db : Db) (requser : UserDoc) (id cid : ObjectId)
      (post : PostDoc) (c : Comment) :
  Post.findById (db_posts db) id = Some post ->
  Comments.id (post_comments post) cid = Some c ->
  deleteComment db requser id cid =
    if mayDeleteComment requser c then
      (with_posts
         (Post.save (with_comments (Comments.pull (post_comments post) cid)
                                   post) (db_posts db)) db,
       Sent 200 (Some "Comment deleted successfully") tt)
    else
      (db, Next (ErrorResponse "Not authorized to delete this comment" 403)).
Proof.
  intros Hf Hc. unfold deleteComment, mayDeleteComment. rewrite Hf, Hc.
  destruct (String.eqb (comment_user c) (user_id requser));
    destruct (isAdminRole (user_role requser)); reflexivity.
Qed.

End DeleteCommentFacts.

(** X1. [deleteComment] answers 200 exactly when the post exists, has a
    comment with the id, and the requester wrote that comment or is an
    admin; whoever wrote the post plays no part. It answers 404 when the
    post or the comment is missing and 403 (after both lookups) otherwise,
    and whenever the answer is not 200 the store is unchanged. *)
Theorem deleteComment_outcomes
        (db : Db) (requser : UserDoc) (id cid : ObjectId) :
  let r := deleteComment db requser id cid in
  (httpStatus (snd r) = 200 <->
   exists post c,
     Post.findById (db_posts db) id = Some post
     /\ Comments.id (post_comments post) cid = Some c
     /\ (comment_user c = user_id requser \/ user_role requser = RoleAdmin))
  /\ (httpStatus (snd r) = 404 <->
      match Post.findById (db_posts db) id with
      | None => True
      | Some post => Comments.id (post_comments post) cid = None
      end)
  /\ (httpStatus (snd r) = 403 <->
      exists post c,
        Post.findById (db_posts db) id = Some post
        /\ Comments.id (post_comments post) cid = Some c
        /\ comment_user c <> user_id requser
        /\ user_role requser <> RoleAdmin)
  /\ (httpStatus (snd r) <> 200 -> fst r = db)
  /\ (httpStatus (snd r) = 200 \/ httpStatus (snd r) = 403
      \/ httpStatus (snd r) = 404).
Proof.
  intros r. subst r.
  destruct (Post.findById (db_posts db) id) as [post|] eqn:Hf.
  - destruct (Comments.id (post_comments post) cid) as [c|] eqn:Hc.
    + rewrite (deleteComment_found db requser id cid post c Hf Hc).
      unfold mayDeleteComment.
      destruct (String.eqb (comment_user c) (user_id requser)) eqn:E;
        [apply String.eqb_eq in E | apply String.eqb_neq in E];
        destruct (user_role requser) eqn:R; simpl;
        (split; [split; [intros H; try discriminate; exists post, c;
                         repeat split; auto
                        | intros [p [c' [Hp [Hc' [H|H]]]]];
                          try reflexivity; try discriminate;
                          injection Hp as <-; rewrite Hc in Hc';
                          injection Hc' as <-; congruence]|]);
        (split; [split; [discriminate | discriminate]|]);
        (split; [split; [intros H; try discriminate; exists post, c;
                         repeat split; auto; discriminate
                        | intros [p [c' [Hp [Hc' [H1 H2]]]]];
                          try reflexivity; injection Hp as <-;
                          rewrite Hc in Hc'; injection Hc' as <-;
                          congruence]|]);
        (split; [intros H; try reflexivity; congruence|]); auto.
    + unfold deleteComment. rewrite Hf, Hc. simpl.
      split; [split; [discriminate|]|].
      { intros [p [c [Hp [Hc' _]]]]. injection Hp as <-. congruence. }
      split; [tauto|]. split; [split; [discriminate|]|].
      { intros [p [c [Hp [Hc' _]]]]. injection Hp as <-. congruence. }
      split; auto.
  - unfold deleteComment. rewrite Hf. simpl.
    split; [split; [discriminate|]|].
    { intros [p [c [Hp _]]]. discriminate. }
    split; [tauto|]. split; [split; [discriminate|]|].
    { intros [p [c [Hp _]]]. discriminate. }
    split; auto.
Qed.

(** The theorem at the sample blog: Alice, who wrote the post but not
    the comment, may not delete Bob's comment; Bob may. *)
Lemma deleteComment_outcomes_witness :
  httpStatus (snd (deleteComment talkBlog alice "p-hello" "c-1")) = 403
  /\ httpStatus (snd (deleteComment talkBlog bob "p-hello" "c-1")) = 200
  /\ fst (deleteComment talkBlog alice "p-hello" "c-1") = talkBlog.
Proof.
  destruct (deleteComment_outcomes talkBlog alice "p-hello" "c-1")
    as [_ [_ [H403 [Hsame _]]]].
  destruct (deleteComment_outcomes talkBlog bob "p-hello" "c-1")
    as [H200 _].
  assert (A : httpStatus (snd (deleteComment talkBlog alice "p-hello" "c-1"))
              = 403).
  { apply H403. exists talkPost, (mkComment "c-1" "u-bob" "first").
    repeat split; discriminate. }
  split; [exact A|]. split.
  - apply H200. exists talkPost, (mkComment "c-1" "u-bob" "first").
    repeat split. now left.
  - apply Hsame. rewrite A. discriminate.
Defined.

Section DeleteCommentEffect.

Lemma pull_shorter (cs : list Comment) (cid : ObjectId) (c : Comment) :
  Comments.id cs cid = Some c ->
  (length (Comments.pull cs cid) < length cs)%nat.
Proof.
  unfold Comments.id, Comments.pull.
  induction cs as [|x xs IH]; [discriminate|]. simpl.
  destruct (String.eqb (comment_id x) cid); simpl.
  - intros _. pose proof (filter_length_le
                            (fun c => negb (String.eqb (comment_id c) cid))
                            xs). lia.
  - intros H. apply IH in H. lia.
Qed.

Lemma with_comments_same (p : PostDoc) (cs : list Comment) :
  with_comments (post_comments p) (with_comments cs p) = p.
Proof. now destruct p. Qed.

Lemma mayDeleteComment_true (requser : UserDoc) (c : Comment) :
  comment_user c = user_id requser \/ user_role requser = RoleAdmin ->
  mayDeleteComment requser c = true.
Proof.
  unfold mayDeleteComment. intros [H|H].
  - now rewrite H, String.eqb_refl.
  - rewrite H. apply orb_true_r.
Qed.

End DeleteCommentEffect.

(** X2. A [deleteComment] that is allowed removes from the stored post
    the comments with the id and nothing else: the other comments stay, in
    their order, the post has fewer comments than before, its other fields
    and the other posts are as they were. Asking again for the same
    deletion answers 404 "Comment not found" and changes nothing. *)
Theorem deleteComment_removes
        (db : Db) (requser : UserDoc) (id cid : ObjectId) (post : PostDoc)
        (c : Comment) :
  Post.findById (db_posts db) id = Some post ->
  Comments.id (post_comments post) cid = Some c ->
  comment_user c = user_id requser \/ user_role requser = RoleAdmin ->
  let r := deleteComment db requser id cid in
  let kept :=
    filter (fun x => negb (String.eqb (comment_id x) cid))
           (post_comments post) in
  snd r = Sent 200 (Some "Comment deleted successfully") tt
  /\ Post.findById (db_posts (fst r)) id = Some (with_comments kept post)
  /\ (forall cid', cid' <> cid ->
        Comments.id kept cid' = Comments.id (post_comments post) cid')
  /\ Comments.id kept cid = None
  /\ (length kept < length (post_comments post))%nat
  /\ (forall id', id' <> id ->
        Post.findById (db_posts (fst r)) id' =
        Post.findById (db_posts db) id')
  /\ db_users (fst r) = db_users db
  /\ deleteComment (fst r) requser id cid =
       (fst r, Next (ErrorResponse "Comment not found" 404)).
Proof.
  intros Hf Hc Hmay r kept.
  assert (E : r = (with_posts (Post.save (with_comments kept post)
                                         (db_posts db)) db,
                   Sent 200 (Some "Comment deleted successfully") tt)).
  { subst r. rewrite (deleteComment_found db requser id cid post c Hf Hc).
    now rewrite (mayDeleteComment_true requser c Hmay). }
  pose proof (findById_id _ _ _ Hf) as Hid.
  assert (F : Post.findById (db_posts (fst r)) id
              = Some (with_comments kept post)).
  { rewrite E. simpl. now apply save_found with (p := post). }
  rewrite E at 1. split; [reflexivity|]. split; [exact F|].
  split; [intros cid' Hne; now apply pull_other|].
  split; [apply pull_gone|].
  split; [now apply pull_shorter with (c := c)|].
  split.
  { intros id' Hne. rewrite E. simpl. apply save_other. simpl. congruence. }
  split; [now rewrite E|].
  assert (G : Comments.id kept cid = None) by apply pull_gone.
  unfold deleteComment. rewrite F. cbn [post_comments with_comments].
  now rewrite G.
Qed.

(** The theorem at the sample blog: Bob deletes his comment. *)
Lemma deleteComment_removes_witness :
  option_map post_comments
    (Post.findById
       (db_posts (fst (deleteComment talkBlog bob "p-hello" "c-1")))
       "p-hello")
  = Some [mkComment "c-2" "u-alice" "second"]
  /\ httpStatus
       (snd (deleteComment (fst (deleteComment talkBlog bob "p-hello" "c-1"))
                           bob "p-hello" "c-1")) = 404.
Proof.
  destruct (deleteComment_removes talkBlog bob "p-hello" "c-1" talkPost
                                  (mkComment "c-1" "u-bob" "first")
                                  eq_refl eq_refl (or_introl eq_refl))
    as [_ [F [_ [_ [_ [_ [_ E]]]]]]].
  split; [now rewrite F | now rewrite E].
Defined.

(** X3. A comment that was added is taken back by its author: when the id
    given to the new comment is not the id of a comment of the post,
    [addComment] followed by [deleteComment] of that id by the same user
    answers 200 and leaves the store exactly as it was before the two
    requests. *)
Theorem addComment_then_deleteComment
        (M : Mongoose) (db : Db) (requser : UserDoc) (id : ObjectId)
        (post : PostDoc) (t : string) (oid : ObjectId) :
  Post.findById (db_posts db) id = Some post ->
  t <> EmptyString ->
  commentErrors M (mkComment oid (user_id requser) (Js.trim t)) = [] ->
  Comments.id (post_comments post) oid = None ->
  let r1 := addComment M db requser id (Some t) oid in
  httpStatus (snd r1) = 201
  /\ deleteComment (fst r1) requser id oid =
       (db, Sent 200 (Some "Comment deleted successfully") tt).
Proof.
  intros Hf Ht Hok Hfresh r1.
  set (c := mkComment oid (user_id requser) (Js.trim t)) in *.
  set (post1 := with_comments (post_comments post ++ [c]) post).
  assert (E1 : r1 = (with_posts (Post.save post1 (db_posts db)) db,
                     Sent 201 (Some "Comment added successfully") (Some c))).
  { subst r1. rewrite (addComment_truthy M db requser id t oid post Hf Ht).
    cbv zeta. fold c. now rewrite Hok. }
  pose proof (findById_id _ _ _ Hf) as Hid.
  assert (F1 : Post.findById (db_posts (fst r1)) id = Some post1).
  { rewrite E1. simpl. now apply save_found with (p := post). }
  split; [now rewrite E1|].
  assert (Hc : Comments.id (post_comments post1) oid = Some c)
    by (apply (id_pushed (post_comments post) c); exact Hfresh).
  rewrite (deleteComment_found (fst r1) requser id oid post1 c F1 Hc).
  rewrite (mayDeleteComment_true requser c (or_introl eq_refl)).
  f_equal. rewrite E1. simpl.
  replace (Comments.pull (post_comments post ++ [c]) oid)
    with (post_comments post)
    by (symmetry; apply (pull_pushed (post_comments post) c); exact Hfresh).
  unfold post1 at 1. rewrite with_comments_same.
  rewrite (save_restore (db_posts db) id post post1 Hf Hid).
  now destruct db.
Qed.

(** The theorem at the sample blog: Bob comments on the post and deletes
    the comment. *)
Lemma addComment_then_deleteComment_witness :
  deleteComment
    (fst (addComment laxStore talkBlog bob "p-hello" (Some " hm ") "c-3"))
    bob "p-hello" "c-3"
  = (talkBlog, Sent 200 (Some "Comment deleted successfully") tt).
Proof.
  exact (proj2 (addComment_then_deleteComment
                  laxStore talkBlog bob "p-hello" talkPost " hm " "c-3"
                  eq_refl ltac:(discriminate) eq_refl eq_refl)).
Defined.

(** ** Deleting a post *)

Section DeletePostFacts.

Lemma findByIdAndDelete_other (posts : list PostDoc) (id id' : ObjectId) :
  id' <> id ->
  Post.findById (Post.findByIdAndDelete posts id) id' =
  Post.findById posts id'.
Proof.
  intros Hne. unfold Post.findById.
  induction posts as [|x xs IH]; [reflexivity|]. simpl.
  destruct (String.eqb (post_id x) id) eqn:E.
  - apply String.eqb_eq in E.
    assert (H : String.eqb (post_id x) id' = false)
      by (apply String.eqb_neq; congruence).
    now rewrite H.
  - simpl. destruct (String.eqb (post_id x) id'); [reflexivity | exact IH].
Qed.

Lemma findById_absent (posts : list PostDoc) (id : ObjectId) :
  ~ In id (map post_id posts) -> Post.findById posts id = None.
Proof.
  unfold Post.findById. induction posts as [|x xs IH]; [reflexivity|].
  simpl. intros H. destruct (String.eqb (post_id x) id) eqn:E.
  - apply String.eqb_eq in E. tauto.
  - apply IH. tauto.
Qed.

Lemma findByIdAndDelete_gone (posts : list PostDoc) (id : ObjectId) :
  NoDup (map post_id posts) ->
  Post.findById (Post.findByIdAndDelete posts id) id = None.
Proof.
  induction posts as [|x xs IH]; [reflexivity|]. simpl.
  intros H. inversion H as [|? ? Hx Hxs]; subst.
  destruct (String.eqb (post_id x) id) eqn:E.
  - apply String.eqb_eq in E. subst id. now apply findById_absent.
  - unfold Post.findById in *. simpl. rewrite E. now apply IH.
Qed.

Lemma findByIdAndDelete_length (posts : list PostDoc) (id : ObjectId)
      (p : PostDoc) :
  Post.findById posts id = Some p ->
  (length (Post.findByIdAndDelete posts id) + 1 = length posts)%nat.
Proof.
  unfold Post.findById. induction posts as [|x xs IH]; [discriminate|].
  simpl. destruct (String.eqb (post_id x) id); simpl; [lia|].
  intros H. apply IH in H. lia.
Qed.

Lemma findByIdAndDelete_incl (posts : list PostDoc) (id : ObjectId)
      (p : PostDoc) :
  In p (Post.findByIdAndDelete posts id) -> In p posts.
Proof.
  induction posts as [|x xs IH]; [tauto|]. simpl.
  destruct (String.eqb (post_id x) id); simpl; tauto.
Qed.

Lemma findByIdAndDelete_NoDup (posts : list PostDoc) (id : ObjectId) :
  NoDup (map post_id posts) ->
  NoDup (map post_id (Post.findByIdAndDelete posts id)).
Proof.
  induction posts as [|x xs IH]; [auto|]. simpl.
  intros H. inversion H as [|? ? Hx Hxs]; subst.
  destruct (String.eqb (post_id x) id); [exact Hxs|].
  simpl. constructor; [|now apply IH].
  intros Hin. apply Hx. apply in_map_iff in Hin.
  destruct Hin as [y [Hy Hyin]]. apply in_map_iff. exists y.
  split; [exact Hy|]. now apply findByIdAndDelete_incl in Hyin.
Qed.

End DeletePostFacts.

(** X4. In a store where every post has its own id, a [deletePost] by
    the author of the post or by an admin answers 200 and removes that
    post and no other: the store has one post less, the other ids resolve
    as before, and the id is gone, so that every later read, like, comment,
    comment deletion, update or deletion of the id answers 404. *)
Theorem deletePost_then_gone
        (M : Mongoose) (db : Db) (requser : UserDoc) (id : ObjectId)
        (post : PostDoc) :
  uniquePostIds db ->
  Post.findById (db_posts db) id = Some post ->
  user_id requser = post_author post \/ user_role requser = RoleAdmin ->
  let r := deletePost db requser id in
  snd r = Sent 200 (Some "Post deleted successfully") tt
  /\ Post.findById (db_posts (fst r)) id = None
  /\ (forall id', id' <> id ->
        Post.findById (db_posts (fst r)) id' =
        Post.findById (db_posts db) id')
  /\ (length (db_posts (fst r)) + 1 = length (db_posts db))%nat
  /\ db_users (fst r) = db_users db
  /\ uniquePostIds (fst r)
  /\ (forall anyone, httpStatus (snd (getPost (fst r) anyone id)) = 404)
  /\ (forall u body t oid cid,
         t <> EmptyString ->
         httpStatus (snd (likePost (fst r) u id)) = 404
         /\ httpStatus (snd (addComment M (fst r) u id (Some t) oid)) = 404
         /\ httpStatus (snd (deleteComment (fst r) u id cid)) = 404
         /\ httpStatus (snd (updatePost M (fst r) u id body)) = 404
         /\ httpStatus (snd (deletePost (fst r) u id)) = 404).
Proof.
  intros Huniq Hf Hmay r.
  assert (E : r = (with_posts (Post.findByIdAndDelete (db_posts db) id) db,
                   Sent 200 (Some "Post deleted successfully") tt)).
  { subst r. unfold deletePost.
    now rewrite Hf, (notOwnerNorAdmin_false post requser Hmay). }
  assert (G : Post.findById (db_posts (fst r)) id = None)
    by (rewrite E; simpl; now apply findByIdAndDelete_gone).
  rewrite E at 1. split; [reflexivity|]. split; [exact G|].
  split; [intros id' Hne; rewrite E; now apply findByIdAndDelete_other|].
  split.
  { rewrite E. simpl. now apply findByIdAndDelete_length with (p := post). }
  split; [now rewrite E|].
  split.
  { rewrite E. unfold uniquePostIds. simpl.
    now apply findByIdAndDelete_NoDup. }
  split.
  { intros anyone. unfold getPost. now rewrite G. }
  intros u body t oid cid Ht.
  rewrite likePost_status, (addComment_status M) by exact Ht.
  unfold deleteComment, updatePost, deletePost. rewrite G.
  repeat split.
Qed.

(** The theorem at the sample blog: Alice deletes her published post. *)
Lemma deletePost_then_gone_witness :
  httpStatus (snd (deletePost blog alice "p-hello")) = 200
  /\ httpStatus (snd (getPost (fst (deletePost blog alice "p-hello"))
                              None "p-hello")) = 404
  /\ httpStatus (snd (getPost (fst (deletePost blog alice "p-hello"))
                              (Some alice) "p-draft")) = 200.
Proof.
  assert (U : uniquePostIds blog).
  { unfold uniquePostIds. simpl. constructor.
    - simpl. intros [H|[]]. discriminate.
    - constructor; [simpl; tauto | constructor]. }
  destruct (deletePost_then_gone laxStore blog alice "p-hello" helloPost U
                                 eq_refl (or_introl eq_refl))
    as [E [_ [_ [_ [_ [_ [H _]]]]]]].
  split; [now rewrite E|]. split; [apply H | reflexivity].
Defined.

(** ** Deleting a user *)

Section DeleteUserFacts.

Lemma user_delete_other (users : list UserDoc) (id id' : ObjectId) :
  id' <> id ->
  User.findById (UserModel.findByIdAndDelete users id) id' =
  User.findById users id'.
Proof.
  intros Hne. unfold User.findById.
  induction users as [|x xs IH]; [reflexivity|]. simpl.
  destruct (String.eqb (user_id x) id) eqn:E.
  - apply String.eqb_eq in E.
    assert (H : String.eqb (user_id x) id' = false)
      by (apply String.eqb_neq; congruence).
    now rewrite H.
  - simpl. destruct (String.eqb (user_id x) id'); [reflexivity | exact IH].
Qed.

Lemma user_findById_absent (users : list UserDoc) (id : ObjectId) :
  ~ In id (map user_id users) -> User.findById users id = None.
Proof.
  unfold User.findById. induction users as [|x xs IH]; [reflexivity|].
  simpl. intros H. destruct (String.eqb (user_id x) id) eqn:E.
  - apply String.eqb_eq in E. tauto.
  - apply IH. tauto.
Qed.

Lemma user_delete_gone (users : list UserDoc) (id : ObjectId) :
  NoDup (map user_id users) ->
  User.findById (UserModel.findByIdAndDelete users id) id = None.
Proof.
  induction users as [|x xs IH]; [reflexivity|]. simpl.
  intros H. inversion H as [|? ? Hx Hxs]; subst.
  destruct (String.eqb (user_id x) id) eqn:E.
  - apply String.eqb_eq in E. subst id. now apply user_findById_absent.
  - unfold User.findById in *. simpl. rewrite E. now apply IH.
Qed.

Lemma deleteMany_In (posts : list PostDoc) (a : ObjectId) (p : PostDoc) :
  In p (PostModel.deleteMany posts a) <-> In p posts /\ post_author p <> a.
Proof.
  unfold PostModel.deleteMany. rewrite filter_In, negb_true_iff.
  now rewrite String.eqb_neq.
Qed.

Lemma deleteUser_found (db : Db) (requser : UserDoc) (id : ObjectId)
      (user : UserDoc) :
  User.findById (db_users db) id = Some user ->
  deleteUser db requser id =
    if String.eqb id (user_id requser) then
      (db, Next (ErrorResponse "Cannot delete your own account" 400))
    else
      (mkDb (UserModel.findByIdAndDelete (db_users db) id)
            (PostModel.deleteMany (db_posts db) id),
       Sent 200 (Some "User and associated posts deleted successfully") tt).
Proof.
  intros Hf. unfold deleteUser. rewrite Hf.
  now rewrite (user_findById_id _ _ _ Hf).
Qed.

End DeleteUserFacts.

(** X5. [deleteUser] refuses with 404 an id that no user has and with 400
    the id of the requester, and changes nothing then. Otherwise it
    answers 200, the posts that are left are exactly the posts of the
    other authors, unchanged (the likes and comments the deleted user left
    on them included), the other users resolve as before, and, in a store
    where every user has its own id, the id resolves no more: the posts of
    that user and the user itself are then asked for in vain (404). *)
Theorem deleteUser_cascade
        (M : Mongoose) (db : Db) (requser : UserDoc) (id : ObjectId) :
  let r := deleteUser db requser id in
  (User.findById (db_users db) id = None ->
   r = (db, Next (ErrorResponse "User not found" 404)))
  /\ (User.findById (db_users db) id <> None -> id = user_id requser ->
      r = (db, Next (ErrorResponse "Cannot delete your own account" 400)))
  /\ (User.findById (db_users db) id <> None -> id <> user_id requser ->
      httpStatus (snd r) = 200
      /\ db_posts (fst r) =
         filter (fun p => negb (String.eqb (post_author p) id)) (db_posts db)
      /\ (forall p, In p (db_posts (fst r)) <->
                    In p (db_posts db) /\ post_author p <> id)
      /\ (forall id', id' <> id ->
            User.findById (db_users (fst r)) id' =
            User.findById (db_users db) id')
      /\ (uniqueUserIds db ->
          User.findById (db_users (fst r)) id = None
          /\ (forall anyone q,
                 httpStatus (snd (getUserPosts M (fst r) anyone id q)) = 404)
          /\ httpStatus (getUser M (fst r) id) = 404)).
Proof.
  intros r. subst r. split; [|split].
  - intros Hf. unfold deleteUser. now rewrite Hf.
  - intros Hf Hself.
    destruct (User.findById (db_users db) id) as [user|] eqn:E;
      [|congruence].
    rewrite (deleteUser_found db requser id user E).
    now rewrite Hself, String.eqb_refl.
  - intros Hf Hother.
    destruct (User.findById (db_users db) id) as [user|] eqn:E;
      [|congruence].
    rewrite (deleteUser_found db requser id user E).
    apply String.eqb_neq in Hother. rewrite Hother. simpl.
    split; [reflexivity|]. split; [reflexivity|].
    split; [intros p; apply deleteMany_In|].
    split; [intros id' Hne; now apply user_delete_other|].
    intros Huniq.
    assert (G : User.findById (UserModel.findByIdAndDelete (db_users db) id)
                              id = None) by now apply user_delete_gone.
    split; [exact G|]. split.
    + intros anyone q. unfold getUserPosts. simpl. now rewrite G.
    + unfold getUser. simpl. now rewrite G.
Qed.

(** The theorem at the sample blog: Root deletes Alice, whose two posts
    go with her; Root cannot delete Root. *)
Lemma deleteUser_cascade_witness :
  db_posts (fst (deleteUser blog root "u-alice")) = []
  /\ httpStatus (snd (deleteUser blog root "u-root")) = 400
  /\ httpStatus (snd (getUserPosts laxStore
                                   (fst (deleteUser blog root "u-alice"))
                                   (Some root) "u-alice" noQuery)) = 404.
Proof.
  destruct (deleteUser_cascade laxStore blog root "u-alice")
    as [_ [_ H]].
  destruct (H ltac:(discriminate) ltac:(discriminate))
    as [_ [P [_ [_ U]]]].
  destruct (deleteUser_cascade laxStore blog root "u-root") as [_ [S _]].
  assert (N : uniqueUserIds blog).
  { unfold uniqueUserIds. simpl.
    repeat (constructor; [simpl; intuition discriminate|]). constructor. }
  destruct (U N) as [_ [G _]].
  split; [now rewrite P|]. split.
  - now rewrite (S ltac:(discriminate) eq_refl).
  - apply G.
Defined.

(** X6. [deleteUser] keeps the references from posts to their authors
    intact: when the author of every post is a user of the store before
    the request, it is so after it, whatever the answer. *)
Theorem deleteUser_keeps_authors
        (db : Db) (requser : UserDoc) (id : ObjectId) :
  authorsKnown db -> authorsKnown (fst (deleteUser db requser id)).
Proof.
  intros Hk.
  destruct (User.findById (db_users db) id) as [user|] eqn:E.
  - rewrite (deleteUser_found db requser id user E).
    destruct (String.eqb id (user_id requser)); [exact Hk|].
    intros p Hin. simpl in *. apply deleteMany_In in Hin.
    destruct Hin as [Hin Hne].
    rewrite user_delete_other by exact Hne. now apply Hk.
  - unfold deleteUser. rewrite E. exact Hk.
Qed.

(** The theorem at the sample blog, where Root deletes Bob. *)
Lemma deleteUser_keeps_authors_witness :
  authorsKnown (fst (deleteUser blog root "u-bob")).
Proof.
  apply deleteUser_keeps_authors.
  intros p [<-|[<-|[]]]; simpl; discriminate.
Defined.

(** ** Counting posts and users *)

Section CountFacts.

Variable M : Mongoose.

Lemma count_ext {A} (f g : A -> bool) (l : list A) :
  (forall x, In x l -> f x = g x) ->
  length (filter f l) = length (filter g l).
Proof.
  intros H. rewrite (filter_ext_in f g l H). reflexivity.
Qed.

Lemma filter_implied {A} (f g : A -> bool) (l : list A) :
  (forall x, f x = true -> g x = true) ->
  filter f (filter g l) = filter f l.
Proof.
  intros H. induction l as [|x xs IH]; [reflexivity|]. simpl.
  destruct (g x) eqn:G; simpl.
  - now rewrite IH.
  - destruct (f x) eqn:F; [|exact IH].
    apply H in F. congruence.
Qed.

Lemma count_le {A} (f g : A -> bool) (l : list A) :
  (forall x, f x = true -> g x = true) ->
  (length (filter f l) <= length (filter g l))%nat.
Proof.
  intros H. rewrite <- (filter_implied f g l H). apply filter_length_le.
Qed.

Lemma count_split {A} (f g : A -> bool) (l : list A) :
  (length (filter (fun x => f x && g x)%bool l)
   + length (filter (fun x => f x && negb (g x))%bool l)
   = length (filter f l))%nat.
Proof.
  induction l as [|x xs IH]; [reflexivity|]. simpl.
  destruct (f x), (g x); simpl; lia.
Qed.

Lemma matches_author (a : ObjectId) (p : PostDoc) :
  Post.matches M (mkPostQuery None None None None (Some a)) p
  = String.eqb (post_author p) a.
Proof. reflexivity. Qed.

Lemma matches_published (q : PostQuery) (p : PostDoc) :
  pq_status q = Some Published ->
  Post.matches M q p = true -> isPublished (post_status p) = true.
Proof.
  unfold Post.matches. intros ->. rewrite !andb_true_iff.
  intros [[[[H _] _] _] _]. now destruct (post_status p).
Qed.

Lemma statusName_inv (st : Status) (s : string) :
  String.eqb (statusName st) s = true -> statusOfString s = Some st.
Proof.
  intros H. apply String.eqb_eq in H. subst s. now destruct st.
Qed.

Lemma own_status_unknown (posts : list PostDoc) (uid : ObjectId)
      (s : string) :
  statusOfString s = None ->
  filter (fun p => (String.eqb (post_author p) uid
                    && String.eqb (statusName (post_status p)) s)%bool)
         posts = [].
Proof.
  intros Hbad. induction posts as [|p ps IH]; [reflexivity|].
  simpl. destruct (String.eqb (statusName (post_status p)) s) eqn:E.
  - apply statusName_inv in E. congruence.
  - rewrite andb_false_r. exact IH.
Qed.

Lemma own_status_sum (posts : list PostDoc) (uid : ObjectId) :
  let own (s : string) :=
    length (filter (fun p => (String.eqb (post_author p) uid
                              && String.eqb (statusName (post_status p)) s)
                             %bool) posts) in
  (own "draft" + own "published" + own "archived"
   = length (filter (fun p => String.eqb (post_author p) uid) posts))%nat.
Proof.
  induction posts as [|p ps IH]; [reflexivity|].
  simpl in *. destruct (String.eqb (post_author p) uid);
    destruct (post_status p); simpl in *; lia.
Qed.

End CountFacts.

(** X7. The three places that count the posts of a user agree: for a user
    of the store, [getMyPosts] without a status filter, [getUserPosts] on
    the own id or requested by an admin, and the [postCount] of [getUser]
    all report the number of posts that name the user as author, whatever
    their status. *)
Theorem own_posts_counts_agree
        (M : Mongoose)
        (findOwn : list PostDoc -> OwnQuery -> Z -> Z -> list PostDoc)
        (db : Db) (u : UserDoc) (q : Query) :
  User.findById (db_users db) (user_id u) <> None ->
  let own :=
    Z.of_nat (length (filter (fun p => String.eqb (post_author p) (user_id u))
                             (db_posts db))) in
  option_map total (listingOf (getMyPosts findOwn db u q None)) = Some own
  /\ option_map total
       (listingOf (snd (getUserPosts M db (Some u) (user_id u) q)))
     = Some own
  /\ (forall adm,
         user_role adm = RoleAdmin ->
         option_map total
           (listingOf (snd (getUserPosts M db (Some adm) (user_id u) q)))
         = Some own)
  /\ (exists user, getUser M db (user_id u) = Sent 200 None (user, own)).
Proof.
  intros Hu own. subst own.
  destruct (User.findById (db_users db) (user_id u)) as [user|] eqn:E;
    [|congruence].
  split; [|split; [|split]].
  - unfold getMyPosts, PostModel.countOwn. simpl. do 2 f_equal.
    apply count_ext. intros p _. unfold PostModel.matchesOwn. simpl.
    apply andb_true_r.
  - unfold getUserPosts. rewrite E. simpl.
    unfold userPostsQuery, onlyPublished. rewrite String.eqb_refl. simpl.
    reflexivity.
  - intros adm Hadm. unfold getUserPosts. rewrite E. simpl.
    unfold userPostsQuery, onlyPublished. rewrite Hadm. simpl.
    rewrite andb_false_r. reflexivity.
  - exists user. unfold getUser. rewrite E.
    now rewrite (user_findById_id _ _ _ E).
Qed.

(** The theorem at the sample blog: Alice has two posts, one of them a
    draft. *)
Lemma own_posts_counts_agree_witness :
  option_map total (listingOf (getMyPosts ownCursor blog alice noQuery None))
  = Some 2
  /\ getUser laxStore blog "u-alice" = Sent 200 None (alice, 2).
Proof.
  destruct (own_posts_counts_agree laxStore ownCursor blog alice noQuery
                                   ltac:(discriminate))
    as [H1 [_ [_ [user H2]]]].
  split; [exact H1 | reflexivity].
Defined.

(** X8. [getMyPosts] counts the posts of the requester only. With a
    [status] parameter that is not empty it counts those whose status has
    that name, so a name outside draft, published and archived counts
    nothing; an empty parameter is no filter; and the counts for the three
    statuses add up to the count without a filter. *)
Theorem getMyPosts_by_status
        (findOwn : list PostDoc -> OwnQuery -> Z -> Z -> list PostDoc)
        (db : Db) (u : UserDoc) (q : Query) :
  let count (status : option string) :=
    match listingOf (getMyPosts findOwn db u q status) with
    | Some l => total l
    | None => 0
    end in
  (forall s,
      s <> EmptyString ->
      count (Some s) =
        Z.of_nat
          (length (filter
                     (fun p => (String.eqb (post_author p) (user_id u)
                                && String.eqb (statusName (post_status p)) s)
                               %bool)
                     (db_posts db))))
  /\ (forall s, s <> EmptyString -> statusOfString s = None ->
                count (Some s) = 0)
  /\ count (Some EmptyString) = count None
  /\ count (Some "draft") + count (Some "published")
     + count (Some "archived") = count None
  /\ (forall status, 0 <= count status <= count None).
Proof.
  intros count.
  assert (Hs : forall s, s <> EmptyString ->
                 count (Some s) =
                 Z.of_nat
                   (length (filter
                              (fun p =>
                                 (String.eqb (post_author p) (user_id u)
                                  && String.eqb (statusName (post_status p))
                                                s)%bool)
                              (db_posts db)))).
  { intros s Hne. destruct s as [|c s]; [congruence|]. reflexivity. }
  assert (Hn : count None =
               Z.of_nat
                 (length (filter
                            (fun p => String.eqb (post_author p) (user_id u))
                            (db_posts db)))).
  { subst count. unfold getMyPosts, PostModel.countOwn. simpl. f_equal.
    apply count_ext. intros p _. unfold PostModel.matchesOwn. simpl.
    apply andb_true_r. }
  split; [exact Hs|]. split; [|split; [reflexivity|split]].
  - intros s Hne Hbad. rewrite (Hs s Hne).
    now rewrite (own_status_unknown (db_posts db) (user_id u) s Hbad).
  - rewrite !Hs by discriminate. rewrite Hn.
    pose proof (own_status_sum (db_posts db) (user_id u)) as H.
    cbv zeta in H. lia.
  - intros status. rewrite Hn.
    destruct status as [[|c s]|].
    + change (count (Some EmptyString)) with (count None). rewrite Hn. lia.
    + rewrite Hs by discriminate. split; [lia|].
      apply inj_le. apply count_le. intros x H.
      now apply andb_true_iff in H.
    + rewrite Hn. lia.
Qed.

(** The theorem at the sample blog: Alice's drafts. *)
Lemma getMyPosts_by_status_witness :
  option_map total
    (listingOf (getMyPosts ownCursor blog alice noQuery (Some "draft")))
  = Some 1
  /\ option_map total
       (listingOf (getMyPosts ownCursor blog alice noQuery (Some "drafts")))
     = Some 0.
Proof.
  destruct (getMyPosts_by_status ownCursor blog alice noQuery)
    as [_ [H _]].
  split; [reflexivity|].
  pose proof (H "drafts" ltac:(discriminate) eq_refl) as H0.
  simpl in H0. simpl. now rewrite H0.
Defined.

(** X9. Posts that are not published never count in a public listing:
    the [total] of [getPosts], for every combination of filters, and the
    [total] of [getUserPosts] for a requester who is neither the user nor
    an admin, are the same after every unpublished post is removed from
    the store, and [getPosts] counts at most the published posts. *)
Theorem listings_hide_unpublished
        (M : Mongoose) (db : Db) (q : Query) :
  let published :=
    with_posts (filter (fun p => isPublished (post_status p)) (db_posts db))
               db in
  option_map total (listingOf (getPosts M published q))
  = option_map total (listingOf (getPosts M db q))
  /\ (exists l,
         listingOf (getPosts M db q) = Some l
         /\ 0 <= total l <= Z.of_nat (length (db_posts published)))
  /\ (forall requser id,
         stranger requser id ->
         option_map total
           (listingOf (snd (getUserPosts M published requser id q)))
         = option_map total
             (listingOf (snd (getUserPosts M db requser id q)))).
Proof.
  intros published. split; [|split].
  - unfold getPosts, Post.countDocuments. simpl. do 3 f_equal.
    apply filter_implied. intros p. now apply matches_published.
  - eexists. split; [reflexivity|]. simpl. unfold Post.countDocuments.
    split; [lia|]. apply inj_le.
    rewrite <- (filter_implied (Post.matches M (buildPostQuery q))
                               (fun p => isPublished (post_status p))
                               (db_posts db))
      by (intros p; now apply matches_published).
    apply filter_length_le.
  - intros requser id Hs. unfold getUserPosts. simpl.
    destruct (User.findById (db_users db) id); [|reflexivity].
    simpl. unfold Post.countDocuments. do 3 f_equal.
    apply filter_implied. intros p. apply matches_published.
    unfold userPostsQuery. simpl.
    now rewrite (proj2 (onlyPublished_stranger requser id) Hs).
Qed.

(** The theorem at the sample blog: Bob sees one of Alice's two posts. *)
Lemma listings_hide_unpublished_witness :
  option_map total
    (listingOf (snd (getUserPosts laxStore blog (Some bob) "u-alice"
                                  noQuery))) = Some 1.
Proof.
  destruct (listings_hide_unpublished laxStore blog noQuery) as [_ [_ H]].
  rewrite <- (H (Some bob) "u-alice");
    [reflexivity | split; discriminate].
Defined.

(** ** Filters of the listings *)

Section FilterFacts.

Variable M : Mongoose.

Lemma splitComma_cons (s : string) :
  exists w ws, Js.splitComma s = w :: ws.
Proof.
  induction s as [|c s [w [ws IH]]]; simpl.
  - now exists EmptyString, [].
  - destruct (Ascii.eqb c ","%char).
    + now exists EmptyString, (Js.splitComma s).
    + rewrite IH. now exists (String c w), ws.
Qed.

(** Splitting a comma-joined string gives the pieces of both parts. *)
Lemma splitComma_join (a b : string) :
  Js.splitComma (a ++ "," ++ b)%string
  = (Js.splitComma a ++ Js.splitComma b)%list.
Proof.
  induction a as [|c a IH]; [reflexivity|].
  simpl. destruct (Ascii.eqb c ","%char).
  - simpl. f_equal. exact IH.
  - simpl in IH. rewrite IH.
    destruct (splitComma_cons a) as [w [ws E]]. now rewrite E.
Qed.

Lemma existsb_orb {A} (f g : A -> bool) (l : list A) :
  existsb (fun x => f x || g x)%bool l = (existsb f l || existsb g l)%bool.
Proof.
  induction l as [|x xs IH]; [reflexivity|]. simpl. rewrite IH.
  destruct (f x), (g x), (existsb f xs), (existsb g xs); reflexivity.
Qed.

Lemma buildPostQuery_tags (q : Query) (t : string) :
  t <> EmptyString ->
  buildPostQuery (with_tags (Some t) q)
  = mkPostQuery (Some Published) (truthyParam (query_category q))
                (Some (Js.splitComma t)) (truthyParam (query_search q))
                (truthyParam (query_author q)).
Proof. destruct t; [congruence | reflexivity]. Qed.

Lemma matches_tags_in_app (st : option Status) (cat : option string)
      (ts1 ts2 : list string) (txt : option string) (au : option ObjectId)
      (p : PostDoc) :
  Post.matches M (mkPostQuery st cat (Some (ts1 ++ ts2)%list) txt au) p
  = (Post.matches M (mkPostQuery st cat (Some ts1) txt au) p
     || Post.matches M (mkPostQuery st cat (Some ts2) txt au) p)%bool.
Proof.
  unfold Post.matches. cbn [pq_status pq_category pq_tags_in pq_text_search
                            pq_author].
  assert (T : existsb (fun t => existsb (String.eqb t) (ts1 ++ ts2)%list)
                      (post_tags p)
              = (existsb (fun t => existsb (String.eqb t) ts1) (post_tags p)
                 || existsb (fun t => existsb (String.eqb t) ts2)
                            (post_tags p))%bool).
  { rewrite <- existsb_orb.
    induction (post_tags p) as [|t ts IH]; [reflexivity|].
    simpl. now rewrite existsb_app, IH. }
  rewrite T, andb_orb_distrib_r, !andb_orb_distrib_l. reflexivity.
Qed.

Lemma matches_tags_app (q : Query) (a b : string) (p : PostDoc) :
  a <> EmptyString -> b <> EmptyString ->
  Post.matches M (buildPostQuery (with_tags (Some (a ++ "," ++ b)%string) q))
               p
  = (Post.matches M (buildPostQuery (with_tags (Some a) q)) p
     || Post.matches M (buildPostQuery (with_tags (Some b) q)) p)%bool.
Proof.
  intros Ha Hb.
  assert (Hab : (a ++ "," ++ b)%string <> EmptyString)
    by (destruct a; [congruence | discriminate]).
  rewrite !buildPostQuery_tags by assumption.
  rewrite splitComma_join. apply matches_tags_in_app.
Qed.

Lemma count_orb {A} (f g : A -> bool) (l : list A) :
  (length (filter f l) <= length (filter (fun x => f x || g x)%bool l)
   /\ length (filter g l) <= length (filter (fun x => f x || g x)%bool l)
   /\ length (filter (fun x => f x || g x)%bool l)
      <= length (filter f l) + length (filter g l))%nat.
Proof.
  induction l as [|x xs IH]; [simpl; lia|]. simpl.
  destruct (f x), (g x); simpl; lia.
Qed.

End FilterFacts.

(** X10. The [tags] parameter of [getPosts] is a union: with the other
    filters fixed, the posts counted for [a,b] are those counted for [a]
    or for [b]. So the total for [a,b] is at least each of the two totals
    and at most their sum. *)
Theorem tags_filter_is_union
        (M : Mongoose) (db : Db) (q : Query) (a b : string) :
  a <> EmptyString -> b <> EmptyString ->
  let count (t : string) := totalOf (getPosts M db (with_tags (Some t) q)) in
  let matching (t : string) (p : PostDoc) :=
    Post.matches M (buildPostQuery (with_tags (Some t) q)) p in
  count (a ++ "," ++ b)%string
  = Z.of_nat (length (filter (fun p => matching a p || matching b p)%bool
                             (db_posts db)))
  /\ count a <= count (a ++ "," ++ b)%string
  /\ count b <= count (a ++ "," ++ b)%string
  /\ count (a ++ "," ++ b)%string <= count a + count b.
Proof.
  intros Ha Hb count matching. subst count matching. cbv beta.
  unfold totalOf, getPosts, Post.countDocuments. cbn [listingOf total].
  pose proof (count_orb
                (Post.matches M (buildPostQuery (with_tags (Some a) q)))
                (Post.matches M (buildPostQuery (with_tags (Some b) q)))
                (db_posts db)) as [H1 [H2 H3]].
  rewrite (count_ext
             (Post.matches
                M (buildPostQuery (with_tags (Some (a ++ "," ++ b)%string) q)))
             (fun p =>
                (Post.matches M (buildPostQuery (with_tags (Some a) q)) p
                 || Post.matches M (buildPostQuery (with_tags (Some b) q)) p)
                %bool)
             (db_posts db))
    by (intros p _; now apply matches_tags_app).
  repeat split; lia.
Qed.

(** The theorem at the sample blog, whose published post is tagged
    [nodejs] and [api]. *)
Lemma tags_filter_is_union_witness :
  totalOf (getPosts laxStore blog (with_tags (Some "rust,api") noQuery)) = 1
  /\ totalOf (getPosts laxStore blog (with_tags (Some "rust") noQuery)) = 0.
Proof.
  destruct (tags_filter_is_union laxStore blog noQuery "rust" "api"
                                 ltac:(discriminate) ltac:(discriminate))
    as [E _].
  split; [exact E | reflexivity].
Defined.

(** X11. [getUsers] reads the [isActive] parameter as "is it the string
    true": when the parameter is present and is anything else (false, 1,
    yes, the empty string) the inactive users are listed. With the other
    filters fixed, the active and the inactive users add up to the users
    counted without the parameter. *)
Theorem isActive_filter_splits
        (M : Mongoose) (db : Db) (q : Query) :
  let count (a : option string) :=
    totalOf (getUsers M db (with_isActive a q)) in
  (forall s, s <> "true" -> count (Some s) = count (Some "false"))
  /\ count (Some "true") + count (Some "false") = count None
  /\ count (Some "true")
     = Z.of_nat
         (length (filter (fun u => (User.matches M (buildUserQuery
                                                      (with_isActive None q))
                                                 u
                                    && user_isActive u)%bool)
                         (db_users db))).
Proof.
  intros count.
  assert (B : forall b u,
             User.matches M (mkUserQuery (truthyParam (query_role q))
                                         (Some b)
                                         (truthyParam (query_search q))) u
             = (User.matches M (buildUserQuery (with_isActive None q)) u
                && Bool.eqb (user_isActive u) b)%bool).
  { intros b u. unfold User.matches, buildUserQuery.
    cbn [uq_role uq_isActive uq_search with_isActive query_role
         query_isActive query_search option_map].
    rewrite andb_true_r.
    rewrite <- !andb_assoc. f_equal. apply andb_comm. }
  assert (C : forall s,
             count (Some s)
             = Z.of_nat
                 (length
                    (filter
                       (fun u =>
                          (User.matches M (buildUserQuery
                                             (with_isActive None q)) u
                           && Bool.eqb (user_isActive u)
                                       (String.eqb s "true"))%bool)
                       (db_users db)))).
  { intros s. subst count. unfold totalOf, getUsers, User.countDocuments.
    cbn [listingOf total]. f_equal. apply count_ext. intros u _.
    apply B. }
  split; [|split].
  - intros s Hs. rewrite !C. apply String.eqb_neq in Hs. now rewrite Hs.
  - rewrite !C. cbn [String.eqb Ascii.eqb Bool.eqb].
    pose proof (count_split (User.matches M (buildUserQuery
                                               (with_isActive None q)))
                            user_isActive (db_users db)) as H.
    subst count. unfold totalOf, getUsers, User.countDocuments.
    cbn [listingOf total].
    replace (filter (fun u => (User.matches M _ u
                               && Bool.eqb (user_isActive u) true)%bool)
                    (db_users db))
      with (filter (fun u => (User.matches
                                M (buildUserQuery (with_isActive None q)) u
                              && user_isActive u)%bool) (db_users db))
      by (apply filter_ext; intros u; now destruct (user_isActive u)).
    replace (filter (fun u => (User.matches M _ u
                               && Bool.eqb (user_isActive u) false)%bool)
                    (db_users db))
      with (filter (fun u => (User.matches
                                M (buildUserQuery (with_isActive None q)) u
                              && negb (user_isActive u))%bool) (db_users db))
      by (apply filter_ext; intros u; now destruct (user_isActive u)).
    lia.
  - rewrite C. f_equal. apply count_ext. intros u _.
    now destruct (user_isActive u).
Qed.

(** The theorem on three users of whom one is inactive. *)
Lemma isActive_filter_splits_witness :
  let db := mkDb [alice; mkUser "u-dan" "Dan" "dan@example.com" RoleUser false;
                  root] [] in
  totalOf (getUsers laxStore db (with_isActive (Some "1") noQuery)) = 1
  /\ totalOf (getUsers laxStore db (with_isActive (Some "true") noQuery)) = 2.
Proof.
  intros db.
  destruct (isActive_filter_splits laxStore db noQuery) as [H _].
  split; [|reflexivity].
  rewrite (H "1" ltac:(discriminate)). reflexivity.
Defined.

(** ** What an update stores, and who owns a new post *)

Section PayloadFacts.




End PayloadFacts.



Section CreateFacts.

Lemma findById_app_old (posts : list PostDoc) (post p : PostDoc)
      (id : ObjectId) :
  Post.findById posts id = Some p ->
  Post.findById (posts ++ [post]) id = Some p.
Proof.
  unfold Post.findById. induction posts as [|x xs IH]; [discriminate|].
  simpl. destruct (String.eqb (post_id x) id); [trivial | exact IH].
Qed.

Lemma findById_app_new (posts : list PostDoc) (post : PostDoc) :
  Post.findById posts (post_id post) = None ->
  Post.findById (posts ++ [post]) (post_id post) = Some post.
Proof.
  unfold Post.findById. induction posts as [|x xs IH]; simpl.
  - now rewrite String.eqb_refl.
  - destruct (String.eqb (post_id x) (post_id post)); [discriminate|].
    exact IH.
Qed.

End CreateFacts.

(** X13. Who creates a post owns it. With a store that keeps the author
    it is handed and gives the new post an id no post has, a post created
    by [createPost] names the requester as author whatever the payload
    said, the posts that were there resolve as before, and the new post
    can be deleted by its creator (200) but neither updated nor deleted by
    another user who is not an admin (403). *)
Theorem creator_owns_post
        (M : Mongoose) (db db' : Db) (requser : UserDoc) (body : Body)
        (status : Z) (msg : option string) (post : PostDoc) :
  (forall b p a, createDoc M (db_posts db) b = inr p ->
                 body_author b = Some a -> post_author p = a) ->
  Post.findById (db_posts db) (post_id post) = None ->
  createPost M db requser body = (db', Sent status msg post) ->
  status = 201
  /\ post_author post = user_id requser
  /\ Post.findById (db_posts db') (post_id post) = Some post
  /\ (forall id p, Post.findById (db_posts db) id = Some p ->
                   Post.findById (db_posts db') id = Some p)
  /\ httpStatus (snd (deletePost db' requser (post_id post))) = 200
  /\ (forall other b,
         user_id other <> user_id requser ->
         user_role other <> RoleAdmin ->
         httpStatus (snd (deletePost db' other (post_id post))) = 403
         /\ httpStatus (snd (updatePost M db' other (post_id post) b)) = 403).
Proof.
  intros Hkeep Hfresh. unfold createPost.
  destruct (postValidation body); [|discriminate].
  destruct (createDoc M (db_posts db) _) as [e|p] eqn:E; [discriminate|].
  intros H. injection H as <- <- <- <-.
  assert (Ha : post_author p = user_id requser)
    by (apply (Hkeep _ _ _ E); reflexivity).
  assert (F : Post.findById (db_posts db ++ [p]) (post_id p) = Some p)
    by now apply findById_app_new.
  split; [reflexivity|]. split; [exact Ha|]. split; [exact F|].
  split; [intros id q Hq; simpl; now apply findById_app_old|].
  split.
  - unfold deletePost. simpl. rewrite F.
    now rewrite (notOwnerNorAdmin_false p requser (or_introl (eq_sym Ha))).
  - intros other b Hother Hrole.
    assert (N : notOwnerNorAdmin p other = true)
      by (apply notOwnerNorAdmin_true; congruence).
    unfold deletePost, updatePost. simpl. rewrite F, N. split; reflexivity.
Qed.

(** The theorem at the sample blog: Bob creates a post whose payload
    names Alice as author. *)
Lemma creator_owns_post_witness :
  let body := mkBody (Some "A post by Bob") (Some fiftyChars) None None None
                     None (Some "u-alice") in
  let r := createPost laxStore blog bob body in
  option_map post_author
    (Post.findById (db_posts (fst r)) "A post by Bob") = Some "u-bob"
  /\ httpStatus (snd (deletePost (fst r) alice "A post by Bob")) = 403.
Proof.
  intros body r.
  destruct (creator_owns_post
              laxStore blog (fst r) bob body 201
              (Some "Post created successfully")
              (mkPost "A post by Bob" "A post by Bob" fiftyChars None "u-bob"
                      Draft "A post by Bob" None [] 0 [] []))
    as [_ [_ [F [_ [_ H]]]]].
  - intros b p a Hc Hb. unfold laxStore, storeWith in Hc. simpl in Hc.
    unfold newPost in Hc. injection Hc as <-. simpl. now rewrite Hb.
  - reflexivity.
  - reflexivity.
  - split.
    + cbn [post_id] in F. now rewrite F.
    + exact (proj1 (H alice body ltac:(discriminate) ltac:(discriminate))).
Defined.

(** ** Sequences of reads and engagement requests *)

Section SequenceFacts.

Variable M : Mongoose.

Lemma save_ids (p' : PostDoc) (posts : list PostDoc) :
  map post_id (Post.save p' posts) = map post_id posts.
Proof.
  induction posts as [|x xs IH]; [reflexivity|]. simpl.
  destruct (String.eqb (post_id x) (post_id p')) eqn:E; simpl.
  - apply String.eqb_eq in E. now rewrite E.
  - now rewrite IH.
Qed.

Lemma findById_unique (posts : list PostDoc) (p : PostDoc) :
  NoDup (map post_id posts) -> In p posts ->
  Post.findById posts (post_id p) = Some p.
Proof.
  unfold Post.findById. induction posts as [|x xs IH]; [contradiction|].
  simpl. intros H Hin. inversion H as [|? ? Hx Hxs]; subst.
  destruct Hin as [->|Hin]; [now rewrite String.eqb_refl|].
  destruct (String.eqb (post_id x) (post_id p)) eqn:E.
  - apply String.eqb_eq in E. exfalso. apply Hx. rewrite E.
    now apply in_map.
  - now apply IH.
Qed.

Lemma engagedFrom_refl (p : PostDoc) : engagedFrom p p.
Proof. unfold engagedFrom. repeat split; lia. Qed.

Lemma engagedFrom_trans (p q r : PostDoc) :
  engagedFrom p q -> engagedFrom q r -> engagedFrom p r.
Proof.
  unfold engagedFrom. intuition (try congruence; try lia).
Qed.

Lemma commentsKept_refl (p : PostDoc) : commentsKept p p.
Proof. exists []. now rewrite app_nil_r. Qed.

Lemma commentsKept_trans (p q r : PostDoc) :
  commentsKept p q -> commentsKept q r -> commentsKept p r.
Proof.
  intros [a Ha] [b Hb]. exists (a ++ b)%list.
  now rewrite Hb, Ha, app_assoc.
Qed.

Lemma engagedFrom_views (p : PostDoc) :
  engagedFrom p (with_views (post_views p + 1) p).
Proof. unfold engagedFrom. simpl. repeat split. lia. Qed.

Lemma engagedFrom_likes (p : PostDoc) (l : list Like) :
  engagedFrom p (with_likes l p).
Proof. unfold engagedFrom. simpl. repeat split. lia. Qed.

Lemma engagedFrom_comments (p : PostDoc) (c : list Comment) :
  engagedFrom p (with_comments c p).
Proof. unfold engagedFrom. simpl. repeat split. lia. Qed.

Lemma commentsKept_views (p : PostDoc) (v : Z) :
  commentsKept p (with_views v p).
Proof. exists []. simpl. now rewrite app_nil_r. Qed.

Lemma commentsKept_likes (p : PostDoc) (l : list Like) :
  commentsKept p (with_likes l p).
Proof. exists []. simpl. now rewrite app_nil_r. Qed.

Lemma servePost_saves (db : Db) (requser : option UserDoc)
      (found : option PostDoc) :
  (forall post, found = Some post -> In post (db_posts db)) ->
  savesOne (fun p p' => engagedFrom p p' /\ commentsKept p p')
           db (fst (servePost db requser found)).
Proof.
  intros Hin. unfold servePost. destruct found as [post|]; [|now left].
  destruct (hiddenFrom db post requser) as [e|[|]]; try now left.
  destruct (notTheAuthor db post requser) as [e|[|]]; try now left.
  right. exists post, (with_views (post_views post + 1) post).
  split; [now apply Hin|]. split; [reflexivity|].
  split; [|reflexivity].
  split; [apply engagedFrom_views | apply commentsKept_views].
Qed.

Lemma step_saves (db : Db) (op : Op) :
  savesOne (fun p p' =>
              engagedFrom p p'
              /\ (isUncomment op = false -> commentsKept p p'))
           db (step M db op).
Proof.
  destruct op as [requser id|requser slug|requser id|requser id text oid
                 |requser id cid]; simpl.
  - destruct (servePost_saves db requser (Post.findById (db_posts db) id))
      as [E|[p [p' [H1 [H2 [[H3 H4] H5]]]]]].
    + intros post Hf. now apply findById_In in Hf.
    + now left.
    + right. exists p, p'. split; [exact H1|]. split; [exact H2|].
      split; [|exact H5]. split; [exact H3 | intros _; exact H4].
  - destruct (servePost_saves db requser
                              (Post.findOneBySlug (db_posts db) slug))
      as [E|[p [p' [H1 [H2 [[H3 H4] H5]]]]]].
    + intros post Hf. now apply find_some in Hf.
    + now left.
    + right. exists p, p'. split; [exact H1|]. split; [exact H2|].
      split; [|exact H5]. split; [exact H3 | intros _; exact H4].
  - unfold likePost.
    destruct (Post.findById (db_posts db) id) as [post|] eqn:Hf;
      [|now left].
    apply findById_In in Hf. right.
    exists post, (toggleLike (user_id requser) post).
    split; [exact Hf|]. split; [apply toggleLike_id|].
    split; [|reflexivity]. unfold toggleLike.
    destruct (likedBy (user_id requser) post);
      (split; [apply engagedFrom_likes | intros _; apply commentsKept_likes]).
  - unfold addComment.
    destruct text as [[|c t]|]; try now left.
    destruct (Post.findById (db_posts db) id) as [post|] eqn:Hf;
      [|now left].
    apply findById_In in Hf. cbv zeta.
    destruct (commentErrors M _); [|now left].
    right.
    exists post,
      (with_comments
         (post_comments post
          ++ [mkComment oid (user_id requser) (Js.trim (String c t))]) post).
    split; [exact Hf|]. split; [reflexivity|]. split; [|reflexivity].
    split; [apply engagedFrom_comments|]. intros _. now eexists.
  - unfold deleteComment.
    destruct (Post.findById (db_posts db) id) as [post|] eqn:Hf;
      [|now left].
    apply findById_In in Hf.
    destruct (Comments.id (post_comments post) cid) as [c|]; [|now left].
    destruct (negb _ && negb _)%bool; [now left|].
    right.
    exists post,
      (with_comments (Comments.pull (post_comments post) cid) post).
    split; [exact Hf|]. split; [reflexivity|]. split; [|reflexivity].
    split; [apply engagedFrom_comments | discriminate].
Qed.

(** A relation that every save respects holds between a post and the
    post under its id after the request, in a store with unique ids. *)
Lemma savesOne_follow (R : PostDoc -> PostDoc -> Prop) (db db' : Db)
      (id : ObjectId) (post : PostDoc) :
  (forall p, R p p) ->
  savesOne R db db' ->
  uniquePostIds db ->
  Post.findById (db_posts db) id = Some post ->
  uniquePostIds db'
  /\ db_users db' = db_users db
  /\ map post_id (db_posts db') = map post_id (db_posts db)
  /\ exists post', Post.findById (db_posts db') id = Some post'
                   /\ R post post'.
Proof.
  intros Hrefl [->|[p [p' [Hin [Hid [HR ->]]]]]] Huniq Hf.
  - repeat split; try assumption. now exists post.
  - unfold uniquePostIds in *. simpl. rewrite save_ids.
    repeat split; try assumption.
    destruct (String.eqb (post_id p') id) eqn:E.
    + apply String.eqb_eq in E. exists p'. split.
      * now apply save_found with (p := post).
      * pose proof (findById_unique (db_posts db) p Huniq Hin) as Hp.
        rewrite <- Hid, E, Hf in Hp. injection Hp as ->. exact HR.
    + apply String.eqb_neq in E. exists post. split.
      * now rewrite save_other.
      * apply Hrefl.
Qed.

End SequenceFacts.

Section RunFacts.

(** Every post is followed through a sequence of requests. *)
Lemma run_keeps
        (M : Mongoose) (ops : list Op) (db : Db) (id : ObjectId)
        (post : PostDoc) :
  uniquePostIds db ->
  Post.findById (db_posts db) id = Some post ->
  uniquePostIds (run M db ops)
  /\ db_users (run M db ops) = db_users db
  /\ map post_id (db_posts (run M db ops)) = map post_id (db_posts db)
  /\ exists post',
      Post.findById (db_posts (run M db ops)) id = Some post'
      /\ engagedFrom post post'.
Proof.
  revert db post. unfold run.
  induction ops as [|op ops IH]; intros db post Huniq Hf; simpl.
  - repeat split; try assumption. exists post. split; [exact Hf|].
    apply engagedFrom_refl.
  - pose proof (step_saves M db op) as Hs.
    assert (Hs' : savesOne engagedFrom db (step M db op)).
    { destruct Hs as [->|[p [p' [H1 [H2 [[H3 _] H4]]]]]]; [now left|].
      right. now exists p, p'. }
    destruct (savesOne_follow engagedFrom db (step M db op) id post
                              engagedFrom_refl Hs' Huniq Hf)
      as [U1 [Us [Ids [p1 [F1 R1]]]]].
    destruct (IH (step M db op) p1 U1 F1) as [U2 [Us2 [Ids2 [p2 [F2 R2]]]]].
    split; [exact U2|]. split; [congruence|]. split; [congruence|].
    exists p2. split; [exact F2|]. now apply engagedFrom_trans with (q := p1).
Qed.

End RunFacts.

(** X14. Reads and engagement never touch what a post says or whose it
    is. In a store where every post has its own id, after any sequence of
    reads by id or by slug, likes, comments and comment deletions, by any
    users on any posts, every post is still stored under its id with the
    same title, content, excerpt, author, status, slug, category and tags,
    and a view counter that has not gone down; the users are the same and
    the ids are still unique. *)
Theorem engagement_keeps_posts
        (M : Mongoose) (ops : list Op) (db : Db) (id : ObjectId)
        (post : PostDoc) :
  uniquePostIds db ->
  Post.findById (db_posts db) id = Some post ->
  uniquePostIds (run M db ops)
  /\ db_users (run M db ops) = db_users db
  /\ map post_id (db_posts (run M db ops)) = map post_id (db_posts db)
  /\ exists post',
      Post.findById (db_posts (run M db ops)) id = Some post'
      /\ engagedFrom post post'.
Proof.
  intros Huniq Hf. now apply run_keeps.
Qed.

(** The theorem at the sample blog after a read, a like, a comment and
    another read. *)
Lemma engagement_keeps_posts_witness :
  exists post',
    Post.findById
      (db_posts (run laxStore blog
                     [OpRead (Some bob) "p-hello"; OpLike bob "p-hello";
                      OpComment bob "p-hello" (Some "hi") "c-1";
                      OpReadSlug None "hello-world"])) "p-hello" = Some post'
    /\ engagedFrom helloPost post'.
Proof.
  assert (U : uniquePostIds blog).
  { unfold uniquePostIds. simpl. constructor.
    - simpl. intros [H|[]]. discriminate.
    - constructor; [simpl; tauto | constructor]. }
  exact (proj2 (proj2 (proj2 (engagement_keeps_posts
                                laxStore _ blog "p-hello" helloPost U
                                eq_refl)))).
Defined.

(** X15. Comments are only removed by [deleteComment]. In a store where
    every post has its own id, after any sequence of reads, likes and
    comments that contains no comment deletion, the comments a post had
    are still its first comments, in the same order. *)
Theorem comments_are_appended
        (M : Mongoose) (ops : list Op) (db : Db) (id : ObjectId)
        (post : PostDoc) :
  uniquePostIds db ->
  forallb (fun op => negb (isUncomment op)) ops = true ->
  Post.findById (db_posts db) id = Some post ->
  exists post',
    Post.findById (db_posts (run M db ops)) id = Some post'
    /\ commentsKept post post'.
Proof.
  revert db post. unfold run.
  induction ops as [|op ops IH]; intros db post Huniq Hops Hf; simpl.
  - exists post. split; [exact Hf | apply commentsKept_refl].
  - simpl in Hops. apply andb_true_iff in Hops. destruct Hops as [Hop Hops].
    apply negb_true_iff in Hop.
    pose proof (step_saves M db op) as Hs.
    assert (Hs' : savesOne commentsKept db (step M db op)).
    { destruct Hs as [->|[p [p' [H1 [H2 [[_ H3] H4]]]]]]; [now left|].
      right. exists p, p'. repeat split; try assumption. now apply H3. }
    destruct (savesOne_follow commentsKept db (step M db op) id post
                              commentsKept_refl Hs' Huniq Hf)
      as [U1 [_ [_ [p1 [F1 R1]]]]].
    destruct (IH (step M db op) p1 U1 Hops F1) as [p2 [F2 R2]].
    exists p2. split; [exact F2|].
    now apply commentsKept_trans with (q := p1).
Qed.

(** The theorem at the sample blog with two comments: after a like and
    two more comments the first two are where they were. *)
Lemma comments_are_appended_witness :
  exists post',
    Post.findById
      (db_posts (run laxStore talkBlog
                     [OpLike bob "p-hello";
                      OpComment root "p-hello" (Some "third") "c-3";
                      OpComment bob "p-hello" (Some "fourth") "c-4"]))
      "p-hello" = Some post'
    /\ commentsKept talkPost post'.
Proof.
  assert (U : uniquePostIds talkBlog).
  { unfold uniquePostIds. simpl. constructor.
    - simpl. intros [H|[]]. discriminate.
    - constructor; [simpl; tauto | constructor]. }
  exact (comments_are_appended
           laxStore
           [OpLike bob "p-hello";
            OpComment root "p-hello" (Some "third") "c-3";
            OpComment bob "p-hello" (Some "fourth") "c-4"]
           talkBlog "p-hello" talkPost U eq_refl eq_refl).
Defined.

(** ** The likes of one user and the requests of the others *)

Section LikeIndependence.

Variables a uid : ObjectId.
Hypothesis Hother : a <> uid.

Lemma existsb_filter_implied {A} (f g : A -> bool) (l : list A) :
  (forall x, f x = true -> g x = true) ->
  existsb f (filter g l) = existsb f l.
Proof.
  intros H. induction l as [|x xs IH]; [reflexivity|]. simpl.
  destruct (g x) eqn:G; simpl; [now rewrite IH|].
  destruct (f x) eqn:F; [|exact IH].
  apply H in F. congruence.
Qed.

Lemma others_keep_mine (x : Like) :
  String.eqb (like_user x) uid = true ->
  negb (String.eqb (like_user x) a) = true.
Proof.
  intros H. apply String.eqb_eq in H. apply negb_true_iff.
  apply String.eqb_neq. congruence.
Qed.

Lemma toggleLike_other_liked (post : PostDoc) :
  likedBy uid (toggleLike a post) = likedBy uid post.
Proof.
  unfold toggleLike, likedBy. destruct (existsb _ (post_likes post)); simpl.
  - apply existsb_filter_implied. exact others_keep_mine.
  - rewrite existsb_app. simpl.
    assert (E : String.eqb a uid = false) by now apply String.eqb_neq.
    rewrite E. now rewrite !orb_false_r.
Qed.

Lemma toggleLike_other_occurrences (post : PostDoc) :
  occurrences uid (toggleLike a post) = occurrences uid post.
Proof.
  unfold toggleLike, likedBy, occurrences.
  destruct (existsb _ (post_likes post)); simpl.
  - f_equal. apply filter_implied. exact others_keep_mine.
  - rewrite filter_app. simpl.
    assert (E : String.eqb a uid = false) by now apply String.eqb_neq.
    rewrite E. now rewrite app_nil_r.
Qed.

End LikeIndependence.

(** X16. A like belongs to its user: whether a user likes a post, and
    how often the user appears in its likes, is the same before and after
    any sequence of like requests that other users make, on this post or
    on others; the post is still there. *)
Theorem likes_are_per_user
        (reqs : list (UserDoc * ObjectId)) (db : Db) (id : ObjectId)
        (post : PostDoc) (uid : ObjectId) :
  Forall (fun r => user_id (fst r) <> uid) reqs ->
  Post.findById (db_posts db) id = Some post ->
  exists post',
    Post.findById (db_posts (likeAll db reqs)) id = Some post'
    /\ likedBy uid post' = likedBy uid post
    /\ occurrences uid post' = occurrences uid post.
Proof.
  intros Hreqs. revert db post.
  induction Hreqs as [|[u id'] rest Hu Hrest IH]; intros db post Hf; simpl.
  - now exists post.
  - simpl in Hu.
    destruct (Post.findById (db_posts db) id') as [p|] eqn:Hf'.
    + destruct (likePost_found db u id' p Hf') as [_ [Hsame Hdiff]].
      destruct (String.eqb id id') eqn:E.
      * apply String.eqb_eq in E. subst id'.
        rewrite Hf in Hf'. injection Hf' as <-.
        destruct (IH _ _ Hsame) as [post' [F [L O]]].
        exists post'. split; [exact F|].
        rewrite L, O.
        now rewrite (toggleLike_other_liked (user_id u) uid Hu),
                    (toggleLike_other_occurrences (user_id u) uid Hu).
      * apply String.eqb_neq in E.
        apply IH. now rewrite (Hdiff id E).
    + rewrite (likePost_missing db u id' Hf'). now apply IH.
Qed.

(** The theorem at the sample blog where Bob and Root like the post:
    whatever Alice and Root do, Bob still likes it. *)
Lemma likes_are_per_user_witness :
  exists post',
    Post.findById
      (db_posts (likeAll likedBlog [(alice, "p-hello"); (root, "p-hello");
                                    (alice, "p-draft"); (alice, "p-hello")]))
      "p-hello" = Some post'
    /\ likedBy "u-bob" post' = true.
Proof.
  destruct (likes_are_per_user
              [(alice, "p-hello"); (root, "p-hello"); (alice, "p-draft");
               (alice, "p-hello")] likedBlog "p-hello" likedPost "u-bob")
    as [post' [F [L _]]].
  - repeat (constructor; [simpl; discriminate|]). constructor.
  - reflexivity.
  - exists post'. split; [exact F | exact L].
Defined.

(** ** The links of consecutive pages *)

(** X17. The links of [getPosts] fit together. For two requests with the
    same filters and the same positive limit, one for a page [p >= 1] and
    one for the page [p + 1]: both report the same total; the second
    always has a [prev] link, and it names page [p]; a [next] link of the
    first names page [p + 1]; and when the first has no [next] link the
    second has none either. The first page has no [prev] link. *)
Theorem next_and_prev_agree
        (M : Mongoose) (db : Db) (q q' : Query) :
  buildPostQuery q' = buildPostQuery q ->
  limitOf q' = limitOf q ->
  pageOf q' = pageOf q + 1 ->
  0 < limitOf q -> 1 <= pageOf q ->
  exists l l' pg pg',
    getPosts M db q = Sent 200 None l
    /\ getPosts M db q' = Sent 200 None l'
    /\ pagination l = Some pg /\ pagination l' = Some pg'
    /\ total l' = total l
    /\ prev pg' = Some (mkPageRef (pageOf q) (limitOf q))
    /\ (next pg <> None ->
        next pg = Some (mkPageRef (pageOf q') (limitOf q')))
    /\ (next pg = None -> next pg' = None)
    /\ (pageOf q = 1 -> prev pg = None).
Proof.
  intros Hq Hl Hp Hlim Hpage.
  unfold getPosts. rewrite Hq, Hl, Hp.
  do 4 eexists.
  split; [reflexivity|]. split; [reflexivity|].
  split; [reflexivity|]. split; [reflexivity|].
  cbn [total]. split; [reflexivity|].
  unfold paginate. cbn [next prev].
  set (t := Post.countDocuments M (db_posts db) (buildPostQuery q)).
  split.
  { rewrite Z.gtb_ltb.
    destruct (Z.ltb_spec 0 ((pageOf q + 1 - 1) * limitOf q)) as [_|H];
      [|nia].
    do 2 f_equal. lia. }
  split.
  { destruct (Z.ltb_spec ((pageOf q - 1) * limitOf q + limitOf q) t);
      [reflexivity | congruence]. }
  split.
  { destruct (Z.ltb_spec ((pageOf q - 1) * limitOf q + limitOf q) t);
      [discriminate|].
    intros _.
    destruct (Z.ltb_spec ((pageOf q + 1 - 1) * limitOf q + limitOf q) t);
      [nia | reflexivity]. }
  intros H1. rewrite H1. reflexivity.
Qed.

(** The theorem on three published posts, two to a page. *)
Lemma next_and_prev_agree_witness :
  let db := mkDb [alice] [helloPost; helloPost; helloPost] in
  exists pg',
    option_map pagination
      (listingOf (getPosts laxStore db
                           (with_paging (Some "2") (Some "2") noQuery)))
    = Some (Some pg')
    /\ prev pg' = Some (mkPageRef 1 2).
Proof.
  intros db.
  destruct (next_and_prev_agree
              laxStore db (with_paging (Some "1") (Some "2") noQuery)
              (with_paging (Some "2") (Some "2") noQuery)
              eq_refl eq_refl eq_refl eq_refl ltac:(vm_compute; discriminate))
    as [l [l' [pg [pg' [_ [E [_ [P [_ [V _]]]]]]]]]].
  exists pg'. rewrite E. simpl. rewrite P. split; [reflexivity | exact V].
Defined.

(** ** Updating a user *)

Section UpdateUserFacts.

Lemma replace_found (users : list UserDoc) (id : ObjectId) (u u' : UserDoc) :
  User.findById users id = Some u -> user_id u' = id ->
  User.findById (UserModel.replace u' users) id = Some u'.
Proof.
  unfold User.findById. intros Hf Hid. subst id.
  induction users as [|x xs IH]; [discriminate|]. simpl in *.
  destruct (String.eqb (user_id x) (user_id u')) eqn:E; simpl.
  - now rewrite String.eqb_refl.
  - rewrite E. now apply IH.
Qed.

Lemma replace_other (users : list UserDoc) (id : ObjectId) (u' : UserDoc) :
  user_id u' <> id ->
  User.findById (UserModel.replace u' users) id = User.findById users id.
Proof.
  unfold User.findById. intros Hne.
  induction users as [|x xs IH]; [reflexivity|]. simpl.
  destruct (String.eqb (user_id x) (user_id u')) eqn:E; simpl.
  - apply String.eqb_eq in E.
    assert (H : String.eqb (user_id u') id = false)
      by now apply String.eqb_neq.
    now rewrite H, E, H.
  - destruct (String.eqb (user_id x) id); [reflexivity | exact IH].
Qed.

Lemma truthyParam_falsy (v : option string) :
  Js.truthy v = false -> truthyParam v = None.
Proof. unfold truthyParam. now intros ->. Qed.

Lemma truthyParam_some (s : string) :
  s <> EmptyString -> truthyParam (Some s) = Some s.
Proof. destruct s; [congruence | reflexivity]. Qed.

End UpdateUserFacts.

(** X18. [updateUser] cannot blank a field. When the schema accepts the
    update, an id that no user has is answered with 404; otherwise the
    stored user keeps its id, a name, email or role that is missing or the
    empty string leaves the stored value as it was, a name or email that
    is not empty and the role admin or user are stored, and [isActive] is
    stored whenever it is present, [false] included. Posts and other
    users are untouched. *)
Theorem updateUser_outcomes
        (check : list UserDoc -> ObjectId -> UserBody -> option Exn)
        (db : Db) (id : ObjectId) (b : UserBody) :
  check (db_users db) id (fieldsToUpdate b) = None ->
  let r := updateUser check db id b in
  (User.findById (db_users db) id = None ->
   r = (db, Next (ErrorResponse "User not found" 404)))
  /\ (forall user,
         User.findById (db_users db) id = Some user ->
         exists user',
           snd r = Sent 200 (Some "User updated successfully") user'
           /\ User.findById (db_users (fst r)) id = Some user'
           /\ db_posts (fst r) = db_posts db
           /\ (forall id', id' <> id ->
                 User.findById (db_users (fst r)) id' =
                 User.findById (db_users db) id')
           /\ user_id user' = user_id user
           /\ (Js.truthy (ub_name b) = false ->
               user_name user' = user_name user)
           /\ (Js.truthy (ub_email b) = false ->
               user_email user' = user_email user)
           /\ (Js.truthy (ub_role b) = false ->
               user_role user' = user_role user)
           /\ (ub_isActive b = None ->
               user_isActive user' = user_isActive user)
           /\ (forall n, ub_name b = Some n -> n <> EmptyString ->
                         user_name user' = n)
           /\ (forall e, ub_email b = Some e -> e <> EmptyString ->
                         user_email user' = e)
           /\ (forall s role, ub_role b = Some s ->
                              roleOfString s = Some role ->
                              user_role user' = role)
           /\ (forall a, ub_isActive b = Some a -> user_isActive user' = a)).
Proof.
  intros Hcheck r. subst r. unfold updateUser. rewrite Hcheck.
  split.
  - now intros ->.
  - intros user Hf. rewrite Hf. cbv zeta.
    pose proof (user_findById_id _ _ _ Hf) as Hid.
    eexists. split; [reflexivity|]. cbn [fst snd db_users db_posts].
    split; [now apply replace_found with (u := user)|].
    split; [reflexivity|].
    split; [intros id' Hne; apply replace_other; simpl; congruence|].
    split; [reflexivity|].
    unfold UserModel.applyUpdate, fieldsToUpdate.
    cbn [user_name user_email user_role user_isActive ub_name ub_email
         ub_role ub_isActive].
    split; [intros H; now rewrite (truthyParam_falsy _ H)|].
    split; [intros H; now rewrite (truthyParam_falsy _ H)|].
    split; [intros H; now rewrite (truthyParam_falsy _ H)|].
    split; [now intros ->|].
    split; [intros n -> Hn; now rewrite (truthyParam_some n Hn)|].
    split; [intros e -> He; now rewrite (truthyParam_some e He)|].
    split.
    + intros s role -> Hrole.
      assert (Hs : s <> EmptyString) by (intros ->; discriminate).
      now rewrite (truthyParam_some s Hs), Hrole.
    + now intros a ->.
Qed.

(** The theorem at the sample blog: an update that tries to blank Bob's
    name and deactivates him. *)
Lemma updateUser_outcomes_witness :
  option_map (fun u => (user_name u, user_isActive u))
    (User.findById
       (db_users
          (fst (updateUser noUserCheck blog "u-bob"
                           (mkUserBody (Some "") None None (Some false)
                                       None None)))) "u-bob")
  = Some ("Bob", false).
Proof.
  destruct (updateUser_outcomes
              noUserCheck blog "u-bob"
              (mkUserBody (Some "") None None (Some false) None None)
              eq_refl) as [_ H].
  destruct (H bob eq_refl) as [user' [_ [F [_ [_ [_ [N [_ [_ [_ [_ [_ [_ A]]]]]]]]]]]]].
  rewrite F. simpl. rewrite (N eq_refl), (A false eq_refl). reflexivity.
Defined.

(** ** The route tables *)

Section RouteFacts.

Variable Credentials : Type.
Variable protect : Credentials -> Exn + UserDoc.
Variable admin : option UserDoc -> option Exn.

Lemma matchPath_slug_one (x : string) :
  matchPath [Lit "slug"; Param "slug"] [x] = None.
Proof.
  cbn [matchPath]. now destruct (String.eqb (lower "slug") (lower x)).
Qed.

Lemma matchPath_param (name x : string) :
  x <> EmptyString -> matchPath [Param name] [x] = Some [(name, x)].
Proof. destruct x; [congruence | reflexivity]. Qed.

(** A GET of one segment ends at [getPost], past the slug route and
    before [protect]. *)
Lemma get_one_segment (creds : Credentials) (x : string) :
  x <> EmptyString ->
  dispatch Credentials protect admin postRoutes GET [x] creds None
  = Reached HGetPost [("id", x)] None.
Proof.
  intros Hx. cbn [dispatch postRoutes methodEqb].
  rewrite matchPath_slug_one, (matchPath_param "id" x Hx). reflexivity.
Qed.

End RouteFacts.

(** X19. The post router hands no identity to its read handlers: a GET
    of the collection, of [/:id] and of [/slug/:slug] reaches [getPosts],
    [getPost] and [getPostBySlug] with [req.user] unset, whatever
    credentials the request carries, because these routes are registered
    before [protect]. *)
Theorem public_reads_carry_no_user
        (Credentials : Type) (protect : Credentials -> Exn + UserDoc)
        (admin : option UserDoc -> option Exn) (creds : Credentials) :
  dispatch Credentials protect admin postRoutes GET [] creds None
  = Reached HGetPosts [] None
  /\ (forall x,
         x <> EmptyString ->
         dispatch Credentials protect admin postRoutes GET [x] creds None
         = Reached HGetPost [("id", x)] None)
  /\ (forall s x,
         lower s = "slug" -> x <> EmptyString ->
         dispatch Credentials protect admin postRoutes GET [s; x] creds None
         = Reached HGetPostBySlug [("slug", x)] None).
Proof.
  split; [reflexivity|]. split.
  - intros x Hx. now apply get_one_segment.
  - intros s x Hs Hx. cbn [dispatch postRoutes methodEqb matchPath].
    rewrite Hs. cbn [lower lowerChar String.eqb].
    destruct x as [|c x]; [congruence | reflexivity].
Qed.

(** The theorem with the sample tokens: Alice's token does not reach
    [getPost]. *)
Lemma public_reads_carry_no_user_witness :
  dispatch (option string) tokenUser adminOnly postRoutes GET ["p-draft"]
           (Some "alice-token") None
  = Reached HGetPost [("id", "p-draft")] None.
Proof.
  exact (proj1 (proj2 (public_reads_carry_no_user
                         (option string) tokenUser adminOnly
                         (Some "alice-token")))
               "p-draft" ltac:(discriminate)).
Defined.

Section RouteCases.

Variable Credentials : Type.
Variable protect : Credentials -> Exn + UserDoc.
Variable admin : option UserDoc -> option Exn.

(** Where a request to the post router can end. *)
Lemma postRoutes_cases (m : Method) (segs : list string)
      (creds : Credentials) :
  let d := dispatch Credentials protect admin postRoutes m segs creds None in
  (exists h params, d = Reached h params None /\ isPublicHandler h = true)
  \/ (exists e, protect creds = inl e /\ d = Stopped e)
  \/ (exists u, protect creds = inr u
                /\ ((exists h params,
                        d = Reached h params (Some u)
                        /\ isPublicHandler h = false)
                    \/ d = Unmatched)).
Proof.
  cbv zeta. cbn [dispatch postRoutes runMiddleware runAll].
  destruct m; cbn [methodEqb];
    repeat match goal with
           | |- context [match matchPath ?p ?s with _ => _ end] =>
               destruct (matchPath p s)
           end;
    try (left; do 2 eexists; split; reflexivity);
    right; destruct (protect creds) as [e|u];
    try (left; eexists; split; reflexivity);
    right; exists u; (split; [reflexivity|]);
    try (right; reflexivity);
    left; do 2 eexists; split; reflexivity.
Qed.

(** Where a request to the user router can end. *)
Lemma userRoutes_cases (m : Method) (segs : list string)
      (creds : Credentials) :
  let d := dispatch Credentials protect admin userRoutes m segs creds None in
  (exists e, protect creds = inl e /\ d = Stopped e)
  \/ (exists u,
         protect creds = inr u
         /\ (d = Unmatched
             \/ (exists params, d = Reached HGetUserPosts params (Some u))
             \/ (exists e, admin (Some u) = Some e /\ d = Stopped e)
             \/ (exists h params,
                    admin (Some u) = None
                    /\ d = Reached h params (Some u)))).
Proof.
  cbv zeta. cbn [dispatch userRoutes runMiddleware].
  destruct (protect creds) as [e|u];
    [left; eexists; split; reflexivity|].
  right. exists u. split; [reflexivity|].
  destruct m; cbn [methodEqb];
    repeat match goal with
           | |- context [match matchPath ?p ?s with _ => _ end] =>
               destruct (matchPath p s)
           end;
    cbn [runAll runMiddleware];
    try (left; reflexivity);
    try (right; left; eexists; reflexivity);
    destruct (admin (Some u)) as [e|];
    try (right; right; left; eexists; split; reflexivity);
    right; right; right; do 2 eexists; split; reflexivity.
Qed.

End RouteCases.

(** X20. Behind [protect] nothing runs without a user. A request to the
    post router ends in one of three ways: at a public read handler with
    no [req.user]; at [protect], with its error, when the credentials are
    refused; or, with the user [protect] resolved, at a handler that is not
    a public read or past the last route. So no create, update, delete,
    like, comment or my-posts handler is entered without [req.user], the
    application always answers, and a client without valid credentials
    that asks for a path no route matches gets the error of [protect]
    rather than 404. *)
Theorem post_routes_need_user
        (Credentials : Type) (protect : Credentials -> Exn + UserDoc)
        (admin : option UserDoc -> option Exn) (M : Mongoose)
        (findOwn : list PostDoc -> OwnQuery -> Z -> Z -> list PostDoc)
        (m : Method) (segs : list string) (creds : Credentials) :
  let d := dispatch Credentials protect admin postRoutes m segs creds None in
  (forall h params requser,
      d = Reached h params requser ->
      if isPublicHandler h then requser = None
      else exists u, protect creds = inr u /\ requser = Some u)
  /\ (forall e, protect creds = inl e ->
                d = Stopped e
                \/ exists h params,
                    d = Reached h params None /\ isPublicHandler h = true)
  /\ (d = Unmatched -> exists u, protect creds = inr u)
  /\ (forall db r,
         req_method Credentials r = m -> req_path Credentials r = segs ->
         req_credentials Credentials r = creds ->
         servePosts Credentials protect admin M findOwn db r <> None).
Proof.
  intros d.
  pose proof (postRoutes_cases Credentials protect admin m segs creds) as H.
  cbv zeta in H. fold d in H.
  split; [|split; [|split]].
  - intros h params requser E.
    destruct H as [[h' [p' [E' Hp]]]|[[e [_ E']]|[u [Hu [[h' [p' [E' Hp]]]|E']]]]];
      rewrite E' in E; try discriminate;
      injection E as <- <- <-; rewrite Hp; [reflexivity|].
    now exists u.
  - intros e He.
    destruct H as [[h' [p' [E' Hp]]]|[[e' [He' E']]|[u [Hu _]]]].
    + right. now exists h', p'.
    + left. congruence.
    + congruence.
  - intros E.
    destruct H as [[h' [p' [E' Hp]]]|[[e [_ E']]|[u [Hu _]]]];
      try congruence. now exists u.
  - intros db r Hm Hs Hc. unfold servePosts. rewrite Hm, Hs, Hc. fold d.
    destruct H as [[h' [p' [E' Hp]]]|[[e [_ E']]|[u [Hu [[h' [p' [E' Hp]]]|E']]]]];
      rewrite E'; try discriminate;
      destruct h'; try discriminate.
Qed.

(** The theorem with the sample tokens: a like without a token stops at
    [protect], and so does a request for a path that no route matches. *)
Lemma post_routes_need_user_witness :
  dispatch (option string) tokenUser adminOnly postRoutes PUT
           ["p-hello"; "like"] None None
  = Stopped (ErrorResponse "Not authorized, no token" 401)
  /\ dispatch (option string) tokenUser adminOnly postRoutes GET
              ["no"; "such"; "path"] None None
     = Stopped (ErrorResponse "Not authorized, no token" 401).
Proof.
  destruct (post_routes_need_user
              (option string) tokenUser adminOnly laxStore ownCursor
              PUT ["p-hello"; "like"] None) as [_ [H _]].
  destruct (H _ eq_refl) as [E|[h [p [E _]]]]; [|discriminate].
  split; [exact E | reflexivity].
Defined.

(** X21. The user router is closed to anonymous clients, the route
    [/:id/posts] included: every request first passes [protect], so a
    request whose credentials are refused ends there, and a handler is
    only ever entered with the user [protect] resolved; every handler but
    [getUserPosts] is entered only when [admin] lets that user pass. *)
Theorem user_routes_need_user
        (Credentials : Type) (protect : Credentials -> Exn + UserDoc)
        (admin : option UserDoc -> option Exn)
        (m : Method) (segs : list string) (creds : Credentials) :
  let d := dispatch Credentials protect admin userRoutes m segs creds None in
  (forall e, protect creds = inl e -> d = Stopped e)
  /\ (forall h params requser,
         d = Reached h params requser ->
         exists u,
           protect creds = inr u /\ requser = Some u
           /\ (h <> HGetUserPosts -> admin (Some u) = None)).
Proof.
  intros d.
  pose proof (userRoutes_cases Credentials protect admin m segs creds) as H.
  cbv zeta in H. fold d in H. split.
  - intros e He.
    destruct H as [[e' [He' E]]|[u [Hu _]]]; congruence.
  - intros h params requser E.
    destruct H as [[e' [_ E']]|[u [Hu H]]]; [congruence|].
    exists u. split; [exact Hu|].
    destruct H as [E'|[[p E']|[[e [_ E']]|[h' [p [Ha E']]]]]];
      rewrite E' in E; try discriminate; injection E as <- <- <-.
    + split; [reflexivity | congruence].
    + split; [reflexivity | intros _; exact Ha].
Qed.

(** The theorem with the sample tokens: the posts of Alice are not
    listed for a client without a token, and Bob may not list the users. *)
Lemma user_routes_need_user_witness :
  dispatch (option string) tokenUser adminOnly userRoutes GET
           ["u-alice"; "posts"] None None
  = Stopped (ErrorResponse "Not authorized, no token" 401)
  /\ dispatch (option string) tokenUser adminOnly userRoutes GET []
              (Some "bob-token") None
     = Stopped (ErrorResponse "Not authorized as an admin" 403).
Proof.
  destruct (user_routes_need_user
              (option string) tokenUser adminOnly GET ["u-alice"; "posts"]
              None) as [H _].
  split; [exact (H _ eq_refl) | reflexivity].
Defined.

(** X22. Through the post router a post that is not published cannot be
    read by anyone, and every read counts. For a GET of [/:id], whatever
    credentials come with it, the author's and an admin's included: the
    answer is the one [getPost] gives an anonymous requester, so it is 404
    when the post is not published, and when the post is published the
    answer is 200 and the stored view counter goes up by one. *)
Theorem router_reads_are_anonymous
        (Credentials : Type) (protect : Credentials -> Exn + UserDoc)
        (admin : option UserDoc -> option Exn) (M : Mongoose)
        (findOwn : list PostDoc -> OwnQuery -> Z -> Z -> list PostDoc)
        (db : Db) (r : PostRequest Credentials) (x : string) :
  req_method Credentials r = GET ->
  req_path Credentials r = [x] ->
  x <> EmptyString ->
  let served := servePosts Credentials protect admin M findOwn db r in
  served = Some (fst (getPost db None x), httpStatus (snd (getPost db None x)))
  /\ (forall post,
         Post.findById (db_posts db) x = Some post ->
         (isPublished (post_status post) = false -> served = Some (db, 404))
         /\ (isPublished (post_status post) = true ->
             exists db',
               served = Some (db', 200)
               /\ Post.findById (db_posts db') x =
                  Some (with_views (post_views post + 1) post))).
Proof.
  intros Hm Hp Hx served.
  assert (E : served = Some (fst (getPost db None x),
                             httpStatus (snd (getPost db None x)))).
  { subst served. unfold servePosts. rewrite Hm, Hp.
    rewrite (get_one_segment Credentials protect admin
                             (req_credentials Credentials r) x Hx).
    cbn [param find fst snd String.eqb Ascii.eqb Bool.eqb].
    reflexivity. }
  split; [exact E|]. intros post Hf. split; intros Hs.
  - rewrite E. unfold getPost, servePost, hiddenFrom. rewrite Hf, Hs.
    reflexivity.
  - rewrite E.
    rewrite (getPost_published db None x post Hf Hs I). simpl.
    eexists. split; [reflexivity|]. simpl.
    apply save_found with (p := post); [exact Hf|].
    simpl. now apply findById_id in Hf.
Qed.

(** The theorem with the sample tokens: Alice cannot read her own draft
    through the router, and her read of her published post counts. *)
Lemma router_reads_are_anonymous_witness :
  let get (id : string) :=
    mkPostRequest (option string) GET [id] (Some "alice-token") noQuery None
                  reassigningBody None "c-0" in
  option_map snd
    (servePosts (option string) tokenUser adminOnly laxStore ownCursor blog
                (get "p-draft")) = Some 404
  /\ (exists db',
         servePosts (option string) tokenUser adminOnly laxStore ownCursor
                    blog (get "p-hello") = Some (db', 200)
         /\ option_map post_views (Post.findById (db_posts db') "p-hello")
            = Some 1).
Proof.
  intros get.
  destruct (router_reads_are_anonymous
              (option string) tokenUser adminOnly laxStore ownCursor blog
              (get "p-draft") "p-draft" eq_refl eq_refl ltac:(discriminate))
    as [_ H].
  destruct (H draftPost eq_refl) as [Hd _].
  destruct (router_reads_are_anonymous
              (option string) tokenUser adminOnly laxStore ownCursor blog
              (get "p-hello") "p-hello" eq_refl eq_refl ltac:(discriminate))
    as [_ H'].
  destruct (H' helloPost eq_refl) as [_ Hh].
  destruct (Hh eq_refl) as [db' [E F]].
  split; [now rewrite (Hd eq_refl)|].
  exists db'. split; [exact E | now rewrite F].
Defined.

(** ** Who may read, and when a read fails *)

Section ReadRule.

Lemma hiddenFrom_known (db : Db) (post : PostDoc)
      (requser : option UserDoc) :
  authorKnown db requser post ->
  hiddenFrom db post requser =
  inr (negb (isPublished (post_status post))
       && match requser with
          | None => true
          | Some u =>
              negb (String.eqb (user_id u) (post_author post))
              && negb (isAdminRole (user_role u))
          end)%bool.
Proof.
  intros Hk. unfold hiddenFrom.
  destruct (isPublished (post_status post)); [reflexivity|].
  destruct requser as [u|]; [|reflexivity].
  simpl in Hk. now rewrite (authorIdString_known db post Hk).
Qed.

Lemma servePost_status (db : Db) (post : PostDoc)
      (requser : option UserDoc) :
  authorKnown db requser post ->
  httpStatus (snd (servePost db requser (Some post))) =
  if (isPublished (post_status post)
      || match requser with
         | None => false
         | Some u =>
             String.eqb (user_id u) (post_author post)
             || isAdminRole (user_role u)
         end)%bool
  then 200 else 404.
Proof.
  intros Hk. unfold servePost. rewrite (hiddenFrom_known db post requser Hk).
  unfold notTheAuthor.
  destruct (isPublished (post_status post)); simpl.
  - destruct requser as [u|]; [|reflexivity].
    simpl in Hk. rewrite (authorIdString_known db post Hk).
    now destruct (String.eqb (user_id u) (post_author post)).
  - destruct requser as [u|]; [|reflexivity].
    simpl in Hk. rewrite (authorIdString_known db post Hk).
    destruct (String.eqb (user_id u) (post_author post)); simpl;
      [reflexivity|].
    now destruct (isAdminRole (user_role u)).
Qed.

Lemma isAdminRole_true (r : Role) : isAdminRole r = true <-> r = RoleAdmin.
Proof. destruct r; simpl; split; congruence. Qed.

End ReadRule.

(** X23. The read rule of [getPost], both ways. For a post whose author
    is a user of the store, the handler answers 200 when the post is
    published or the requester is its author or an admin, and 404
    otherwise; a read by the author does not change the store, any other
    successful read does. *)
Theorem read_access_rule
        (db : Db) (requser : option UserDoc) (id : ObjectId)
        (post : PostDoc) :
  Post.findById (db_posts db) id = Some post ->
  authorKnown db requser post ->
  let r := getPost db requser id in
  let allowed :=
    isPublished (post_status post) = true
    \/ exists u, requser = Some u
                 /\ (user_id u = post_author post
                     \/ user_role u = RoleAdmin) in
  (httpStatus (snd r) = 200 <-> allowed)
  /\ (httpStatus (snd r) = 404 <-> ~ allowed)
  /\ (isAuthor requser post = true -> allowed /\ fst r = db)
  /\ (allowed -> isAuthor requser post = false ->
      Post.findById (db_posts (fst r)) id
      = Some (with_views (post_views post + 1) post)).
Proof.
  intros Hf Hk r allowed.
  assert (S : httpStatus (snd r) =
              if (isPublished (post_status post)
                  || match requser with
                     | None => false
                     | Some u =>
                         String.eqb (user_id u) (post_author post)
                         || isAdminRole (user_role u)
                     end)%bool
              then 200 else 404).
  { subst r. unfold getPost. rewrite Hf. now apply servePost_status. }
  assert (A : allowed <->
              (isPublished (post_status post)
               || match requser with
                  | None => false
                  | Some u =>
                      String.eqb (user_id u) (post_author post)
                      || isAdminRole (user_role u)
                  end)%bool = true).
  { subst allowed. rewrite orb_true_iff. split.
    - intros [H|[u [-> [H|H]]]]; [now left | right | right].
      + rewrite H, String.eqb_refl. reflexivity.
      + apply isAdminRole_true in H. rewrite H. apply orb_true_r.
    - intros [H|H]; [now left|]. right.
      destruct requser as [u|]; [|discriminate].
      exists u. split; [reflexivity|].
      apply orb_true_iff in H. destruct H as [H|H].
      + left. now apply String.eqb_eq.
      + right. now apply isAdminRole_true. }
  split; [|split; [|split]].
  - rewrite S, A. destruct (_ || _)%bool; split; congruence.
  - rewrite S, A. destruct (_ || _)%bool; split; congruence.
  - intros Ha. unfold isAuthor in Ha.
    destruct requser as [u|]; [|discriminate]. split.
    + right. exists u. split; [reflexivity|]. left.
      now apply String.eqb_eq.
    + subst r. unfold getPost. rewrite Hf. unfold servePost.
      rewrite (hiddenFrom_known db post (Some u) Hk). rewrite Ha. simpl.
      rewrite andb_false_r. unfold notTheAuthor.
      simpl in Hk. rewrite (authorIdString_known db post Hk), Ha.
      reflexivity.
  - intros Hal Hna. apply A in Hal.
    assert (E : r = (with_posts
                       (Post.save (with_views (post_views post + 1) post)
                                  (db_posts db)) db,
                     Sent 200 None (with_views (post_views post + 1) post))).
    { subst r. unfold getPost. rewrite Hf. unfold servePost.
      rewrite (hiddenFrom_known db post requser Hk).
      unfold notTheAuthor, isAuthor in *.
      destruct requser as [u|].
      - simpl in Hk. rewrite (authorIdString_known db post Hk), Hna.
        rewrite Hna in Hal. simpl in Hal.
        destruct (isPublished (post_status post)); simpl in *;
          [reflexivity|]. now rewrite Hal.
      - rewrite orb_false_r in Hal. now rewrite Hal. }
    rewrite E. simpl. apply save_found with (p := post); [exact Hf|].
    simpl. now apply findById_id in Hf.
Qed.

(** The theorem at the sample blog: the draft is read by Alice, who wrote
    it, and by Root, the admin, whose read counts. *)
Lemma read_access_rule_witness :
  httpStatus (snd (getPost blog (Some alice) "p-draft")) = 200
  /\ fst (getPost blog (Some alice) "p-draft") = blog
  /\ option_map post_views
       (Post.findById (db_posts (fst (getPost blog (Some root) "p-draft")))
                      "p-draft") = Some 1.
Proof.
  destruct (read_access_rule blog (Some alice) "p-draft" draftPost eq_refl
                             ltac:(simpl; discriminate))
    as [H [_ [Ha _]]].
  destruct (read_access_rule blog (Some root) "p-draft" draftPost eq_refl
                             ltac:(simpl; discriminate))
    as [_ [_ [_ Hr]]].
  split; [|split].
  - apply H. right. exists alice. split; [reflexivity | now left].
  - exact (proj2 (Ha eq_refl)).
  - rewrite Hr; [reflexivity| |reflexivity].
    right. exists root. split; [reflexivity | now right].
Defined.

Section NoCrash.

Variable M : Mongoose.

Lemma run_ids (ops : list Op) (db : Db) :
  map post_id (db_posts (run M db ops)) = map post_id (db_posts db).
Proof.
  revert db. unfold run.
  induction ops as [|op ops IH]; intros db; [reflexivity|].
  simpl. rewrite IH.
  destruct (step_saves M db op) as [->|[p [q [_ [_ [_ ->]]]]]];
    [reflexivity|].
  simpl. apply save_ids.
Qed.

(** The references to authors survive reads and engagement. *)
Lemma run_authorsKnown (ops : list Op) (db : Db) :
  uniquePostIds db -> authorsKnown db -> authorsKnown (run M db ops).
Proof.
  intros Huniq Hk p' Hin.
  assert (Hid : In (post_id p') (map post_id (db_posts db))).
  { rewrite <- run_ids with (ops := ops). now apply in_map. }
  apply in_map_iff in Hid. destruct Hid as [p [Hpid Hpin]].
  pose proof (findById_unique (db_posts db) p Huniq Hpin) as Hf.
  destruct (run_keeps M ops db (post_id p) p Huniq Hf)
    as [U [Us [_ [p'' [F R]]]]].
  pose proof (findById_unique (db_posts (run M db ops)) p' U Hin) as F'.
  rewrite <- Hpid, F in F'. injection F' as ->.
  destruct R as [_ [_ [_ [_ [Ha _]]]]].
  rewrite Us, Ha. now apply Hk.
Qed.

End NoCrash.

(** X24. With intact author references a read never fails for a reason
    of its own. In a store with unique post ids in which the author of
    every post is a user, [getPost] and [getPostBySlug] answer 200 or 404
    for every requester and every id or slug, and this remains so after
    any sequence of reads, likes, comments and comment deletions. *)
Theorem reads_answer_200_or_404
        (M : Mongoose) (ops : list Op) (db : Db)
        (requser : option UserDoc) (id : ObjectId) (slug : string) :
  uniquePostIds db -> authorsKnown db ->
  let db' := run M db ops in
  (httpStatus (snd (getPost db' requser id)) = 200
   \/ httpStatus (snd (getPost db' requser id)) = 404)
  /\ (httpStatus (snd (getPostBySlug db' requser slug)) = 200
      \/ httpStatus (snd (getPostBySlug db' requser slug)) = 404).
Proof.
  intros Huniq Hk db'.
  pose proof (run_authorsKnown M ops db Huniq Hk) as Hk'. fold db' in Hk'.
  assert (S : forall found,
             (forall post, found = Some post -> In post (db_posts db')) ->
             httpStatus (snd (servePost db' requser found)) = 200
             \/ httpStatus (snd (servePost db' requser found)) = 404).
  { intros [post|] Hin; [|now right].
    rewrite servePost_status.
    - destruct (_ || _)%bool; [now left | now right].
    - destruct requser; simpl; [|exact I]. apply Hk'. now apply Hin. }
  split.
  - apply S. intros post Hf. now apply findById_In in Hf.
  - apply S. intros post Hf. now apply find_some in Hf.
Qed.

(** The theorem at the sample blog after a like and a read. *)
Lemma reads_answer_200_or_404_witness :
  httpStatus
    (snd (getPost (run laxStore blog [OpLike bob "p-draft";
                                      OpRead None "p-hello"])
                  (Some bob) "p-draft")) = 404.
Proof.
  assert (U : uniquePostIds blog).
  { unfold uniquePostIds. simpl. constructor.
    - simpl. intros [H|[]]. discriminate.
    - constructor; [simpl; tauto | constructor]. }
  assert (K : authorsKnown blog)
    by (intros p [<-|[<-|[]]]; simpl; discriminate).
  destruct (reads_answer_200_or_404
              laxStore [OpLike bob "p-draft"; OpRead None "p-hello"] blog
              (Some bob) "p-draft" "" U K) as [[H|H] _];
    [discriminate H | exact H].
Defined.
